(** * The user-specific knowledge graph server ([servers/memory/main.py])

    A shallow embedding of the persistence layer and of the nine
    endpoints, with the properties of the graph store proved about it.

    Conventions of the model.
    - A Python [str] is a [string]: a sequence of characters with code
      points below 256. The module [Unicode] embeds persistence and
      search a second time, over strings of all code points.
    - A Python [set] of strings is a [gset string]; the lists of the
      program are lists.
    - The files under [DATA_DIR] are a finite map from path to content.
    - An endpoint is a function from the files to an outcome (a value or
      the raised exception) and the files it leaves behind. *)

From Stdlib Require Import Ascii.
From Stdlib Require String.
From stdpp Require Import base decidable option list strings gmap.

(** ** Python strings *)

Module PyStr.

Definition ord (c : ascii) : N := N_of_ascii c.

(** [str.lower] on one character: A-Z, and the capital letters of the
      Latin-1 block (U+00C0 to U+00DE, the multiplication sign apart). *)
Definition lower_char (c : ascii) : ascii :=
    let n := ord c in
    if ((65 <=? n) && (n <=? 90))%N then ascii_of_N (n + 32)
    else if ((192 <=? n) && (n <=? 222) && negb (n =? 215))%N
         then ascii_of_N (n + 32)
    else c.

Fixpoint lower (s : string) : string :=
    match s with
    | EmptyString => EmptyString
    | String c s' => String (lower_char c) (lower s')
    end.

(** [str.isspace] on one character. *)
Definition isspace (c : ascii) : bool :=
    let n := ord c in
    (((9 <=? n) && (n <=? 13)) || ((28 <=? n) && (n <=? 32))
     || (n =? 133) || (n =? 160))%N.

Fixpoint lstrip (s : string) : string :=
    match s with
    | EmptyString => EmptyString
    | String c s' => if isspace c then lstrip s' else s
    end.

Fixpoint rstrip (s : string) : string :=
    match s with
    | EmptyString => EmptyString
    | String c s' =>
        match rstrip s' with
        | EmptyString => if isspace c then EmptyString else String c EmptyString
        | r => String c r
        end
    end.

Definition strip (s : string) : string := rstrip (lstrip s).

(** Truth value of a string: the empty string is false. *)
Definition truthy (s : string) : bool :=
    match s with EmptyString => false | _ => true end.

(** [s.startswith(p)]. *)
Fixpoint startswith (p s : string) : bool :=
    match p, s with
    | EmptyString, _ => true
    | String a p', String b s' => if Ascii.eqb a b then startswith p' s' else false
    | String _ _, EmptyString => false
    end.

(** [p in s] for two strings: [p] occurs in [s] as a substring. *)
Fixpoint contains (p s : string) : bool :=
    startswith p s ||
    match s with
    | EmptyString => false
    | String _ s' => contains p s'
    end.

(** ["\n".join(lines)]. *)
Fixpoint join_lines (lines : list string) : string :=
    match lines with
    | [] => ""
    | [l] => l
    | l :: ls => l +:+ String "010" (join_lines ls)
    end.

(** Iterating over a file opened in text mode: the content is cut after
      every line ending, and the three line endings (LF, CR, CR LF) are
      all delivered as LF. *)
Fixpoint iter_lines (s : string) : list string :=
    match s with
    | EmptyString => []
    | String c rest =>
        if Ascii.eqb c "010" then String "010" "" :: iter_lines rest
        else if Ascii.eqb c "013" then
          match rest with
          | String c' rest' =>
              if Ascii.eqb c' "010" then String "010" "" :: iter_lines rest'
              else String "010" "" :: iter_lines rest
          | EmptyString => [String "010" ""]
          end
        else
          match iter_lines rest with
          | [] => [String c ""]
          | l :: ls => String c l :: ls
          end
    end.

End PyStr.

(** ** Data models *)

Record Entity := mkEntity {
  name : string;
  entityType : string;
  observations : list string
}.

Record Relation := mkRelation {
  from_ : string;
  to : string;
  relationType : string
}.

Record KnowledgeGraph := mkGraph {
  entities : list Entity;
  relations : list Relation
}.

#[global] Instance Entity_eq_dec : EqDecision Entity.
Proof. solve_decision. Defined.

#[global] Instance Relation_eq_dec : EqDecision Relation.
Proof. solve_decision. Defined.

#[global] Instance KnowledgeGraph_eq_dec : EqDecision KnowledgeGraph.
Proof. solve_decision. Defined.

(** The key of a relation, [(r.from_, r.to, r.relationType)]. *)
Definition triple (r : Relation) : string * string * string :=
  (from_ r, to r, relationType r).

(** ** The [json] library, as far as the program uses it *)

Module Json.

(** A decoded JSON document. A number keeps its lexeme; an object is the
    Python [dict] built from its members, in insertion order and with
    one entry per key. *)
#[local] Unset Elimination Schemes.
Inductive value :=
| JNull
| JBool (b : bool)
| JNum (lexeme : string)
| JStr (s : string)
| JArr (items : list value)
| JObj (members : list (string * value)).
#[local] Set Elimination Schemes.

(** [d.get(k)]. *)
Fixpoint dict_get (k : string) (d : list (string * value)) : option value :=
  match d with
  | [] => None
  | (k', v) :: d' => if String.eqb k k' then Some v else dict_get k d'
  end.

(** [d[k] = v]: the value of an existing key is replaced where it stands,
    a new key is added at the end. *)
Fixpoint dict_set (k : string) (v : value) (d : list (string * value))
  : list (string * value) :=
  match d with
  | [] => [(k, v)]
  | (k', v') :: d' =>
      if String.eqb k k' then (k, v) :: d' else (k', v') :: dict_set k v d'
  end.

(** [dict(pairs)]. *)
Definition dict_of_pairs (pairs : list (string * value)) : list (string * value) :=
  fold_left (fun d kv => dict_set (fst kv) (snd kv) d) pairs [].

(** *** Encoding ([json.dumps], default options) *)

(** The double quote. *)
Definition dquote : ascii := "034".

Definition hex_digit (n : N) : ascii :=
  if (n <? 10)%N then ascii_of_N (48 + n) else ascii_of_N (87 + n).

(** One character of a string literal ([ensure_ascii] is on): the two
    characters that must be escaped, the short escapes, and a [\u00xx]
    escape for everything outside the printable ASCII range. *)
Definition escape_char (c : ascii) : string :=
  let n := PyStr.ord c in
  if (n =? 34)%N then String "\" (String dquote "")
  else if (n =? 92)%N then "\\"
  else if (n =? 10)%N then "\n"
  else if (n =? 13)%N then "\r"
  else if (n =? 9)%N then "\t"
  else if (n =? 8)%N then "\b"
  else if (n =? 12)%N then "\f"
  else if ((32 <=? n) && (n <=? 126))%N then String c ""
  else "\u00" +:+ String (hex_digit (n / 16)) (String (hex_digit (n mod 16)) "").

Fixpoint escape (s : string) : string :=
  match s with
  | EmptyString => ""
  | String c s' => escape_char c +:+ escape s'
  end.

Definition encode_string (s : string) : string :=
  String dquote (escape s +:+ String dquote "").

Fixpoint dumps (j : value) : string :=
  match j with
  | JNull => "null"
  | JBool true => "true"
  | JBool false => "false"
  | JNum lexeme => lexeme
  | JStr s => encode_string s
  | JArr items =>
      "[" +:+
      (fix elems (l : list value) : string :=
         match l with
         | [] => ""
         | [x] => dumps x
         | x :: l' => dumps x +:+ ", " +:+ elems l'
         end) items
      +:+ "]"
  | JObj members =>
      "{" +:+
      (fix pairs (l : list (string * value)) : string :=
         match l with
         | [] => ""
         | [(k, v)] => encode_string k +:+ ": " +:+ dumps v
         | (k, v) :: l' => encode_string k +:+ ": " +:+ dumps v +:+ ", " +:+ pairs l'
         end) members
      +:+ "}"
  end.

(** *** Decoding ([json.loads], default options) *)

(** The outcome of a scan. [OutOfFuel] is an artefact of the recursion on
    a fuel; [decode] gives enough of it (see [decode_fuel]). *)
Inductive result (A : Type) :=
| Ok (a : A)
| Invalid
| OutOfFuel.
Arguments Ok {A} a.
Arguments Invalid {A}.
Arguments OutOfFuel {A}.

Definition bind {A B : Type} (r : result A) (k : A -> result B) : result B :=
  match r with
  | Ok a => k a
  | Invalid => Invalid
  | OutOfFuel => OutOfFuel
  end.

Definition of_option {A : Type} (o : option A) : result A :=
  match o with
  | Some a => Ok a
  | None => Invalid
  end.

(** The white space of JSON: space, tab, line feed, carriage return. *)
Definition is_ws (c : ascii) : bool :=
  let n := PyStr.ord c in
  ((n =? 32) || (n =? 9) || (n =? 10) || (n =? 13))%N.

Fixpoint skip_ws (s : string) : string :=
  match s with
  | EmptyString => EmptyString
  | String c s' => if is_ws c then skip_ws s' else s
  end.

Definition hex_value (c : ascii) : option N :=
  let n := PyStr.ord c in
  if ((48 <=? n) && (n <=? 57))%N then Some (n - 48)%N
  else if ((97 <=? n) && (n <=? 102))%N then Some (n - 87)%N
  else if ((65 <=? n) && (n <=? 70))%N then Some (n - 55)%N
  else None.

(** The character of a [\uXXXX] escape. An escape above U+00FF denotes no
    string of the model and is refused. *)
Definition unicode_escape (h1 h2 h3 h4 : ascii) : option ascii :=
  match hex_value h1, hex_value h2, hex_value h3, hex_value h4 with
  | Some a, Some b, Some c, Some d =>
      if ((a =? 0) && (b =? 0))%N then Some (ascii_of_N (c * 16 + d)) else None
  | _, _, _, _ => None
  end.

(** The character of a short escape, [BACKSLASH] in the decoder. *)
Definition unescape (e : ascii) : option ascii :=
  let n := PyStr.ord e in
  if (n =? 34)%N then Some dquote
  else if (n =? 92)%N then Some "\"%char
  else if (n =? 47)%N then Some "/"%char
  else if (n =? 98)%N then Some "008"%char
  else if (n =? 102)%N then Some "012"%char
  else if (n =? 110)%N then Some "010"%char
  else if (n =? 114)%N then Some "013"%char
  else if (n =? 116)%N then Some "009"%char
  else None.

Definition cons_char (c : ascii) (r : option (string * string)) : option (string * string) :=
  match r with
  | Some (str, rest) => Some (String c str, rest)
  | None => None
  end.

(** [scanstring], strict: the text after an opening quote, up to the
    closing quote; a raw control character is refused. *)
Fixpoint scanstring (s : string) : option (string * string) :=
  match s with
  | EmptyString => None
  | String c rest =>
      if Ascii.eqb c dquote then Some ("", rest)
      else if Ascii.eqb c "\" then
        match rest with
        | EmptyString => None
        | String e rest1 =>
            if Ascii.eqb e "u" then
              match rest1 with
              | String h1 (String h2 (String h3 (String h4 rest2))) =>
                  match unicode_escape h1 h2 h3 h4 with
                  | Some ch => cons_char ch (scanstring rest2)
                  | None => None
                  end
              | _ => None
              end
            else
              match unescape e with
              | Some ch => cons_char ch (scanstring rest1)
              | None => None
              end
        end
      else if (PyStr.ord c <? 32)%N then None
      else cons_char c (scanstring rest)
  end.

Definition is_digit (c : ascii) : bool :=
  let n := PyStr.ord c in ((48 <=? n) && (n <=? 57))%N.

(** The longest run of digits at the head of [s], and what follows. *)
Fixpoint take_digits (s : string) : string * string :=
  match s with
  | EmptyString => ("", "")
  | String c s' =>
      if is_digit c then let '(d, r) := take_digits s' in (String c d, r)
      else ("", s)
  end.

(** [NUMBER_RE]: an optional sign, an integer part without leading zero,
    an optional fraction and an optional exponent. *)
Definition int_part (s : string) : option (string * string) :=
  match s with
  | EmptyString => None
  | String c r =>
      if Ascii.eqb c "0" then Some ("0", r)
      else if is_digit c then let '(d, r') := take_digits r in Some (String c d, r')
      else None
  end.

Definition frac_part (s : string) : string * string :=
  match s with
  | String c r =>
      if Ascii.eqb c "." then
        match take_digits r with
        | (EmptyString, _) => ("", s)
        | (d, r') => (String c d, r')
        end
      else ("", s)
  | EmptyString => ("", s)
  end.

Definition exp_part (s : string) : string * string :=
  match s with
  | String c r =>
      if Ascii.eqb c "e" || Ascii.eqb c "E" then
        let '(sign, r1) :=
          match r with
          | String g r' =>
              if Ascii.eqb g "-" || Ascii.eqb g "+" then (String g "", r') else ("", r)
          | EmptyString => ("", r)
          end in
        match take_digits r1 with
        | (EmptyString, _) => ("", s)
        | (d, r2) => (String c (sign +:+ d), r2)
        end
      else ("", s)
  | EmptyString => ("", s)
  end.

Definition match_number (s : string) : option (string * string) :=
  let '(sign, s0) :=
    match s with
    | String c r => if Ascii.eqb c "-" then ("-", r) else ("", s)
    | EmptyString => ("", s)
    end in
  match int_part s0 with
  | None => None
  | Some (i, s1) =>
      let '(f, s2) := frac_part s1 in
      let '(e, s3) := exp_part s2 in
      Some (sign +:+ i +:+ f +:+ e, s3)
  end.

(** [s] without its prefix [p], when it starts with it. *)
Fixpoint after_prefix (p s : string) : option string :=
  match p, s with
  | EmptyString, _ => Some s
  | String a p', String b s' => if Ascii.eqb a b then after_prefix p' s' else None
  | String _ _, EmptyString => None
  end.

(** The scalars that are neither strings nor containers, in the order
    the scanner tries them. *)
Definition scan_scalar (s : string) : option (value * string) :=
  match after_prefix "null" s with
  | Some r => Some (JNull, r)
  | None =>
  match after_prefix "true" s with
  | Some r => Some (JBool true, r)
  | None =>
  match after_prefix "false" s with
  | Some r => Some (JBool false, r)
  | None =>
  match match_number s with
  | Some (lexeme, r) => Some (JNum lexeme, r)
  | None =>
  match after_prefix "NaN" s with
  | Some r => Some (JNum "NaN", r)
  | None =>
  match after_prefix "Infinity" s with
  | Some r => Some (JNum "Infinity", r)
  | None =>
  match after_prefix "-Infinity" s with
  | Some r => Some (JNum "-Infinity", r)
  | None => None
  end end end end end end end.

(** [scan_once]: one value at the head of [s]. [object_members] reads the
    members of an object from just after the opening quote of a key,
    [array_items] the items of a non-empty array. *)
Fixpoint scan_once (fuel : nat) (s : string) : result (value * string) :=
  match fuel with
  | O => OutOfFuel
  | S fuel' =>
      match s with
      | EmptyString => Invalid
      | String c rest =>
          if Ascii.eqb c dquote then
            bind (of_option (scanstring rest)) (fun '(str, r) => Ok (JStr str, r))
          else if Ascii.eqb c "{" then
            match skip_ws rest with
            | EmptyString => Invalid
            | String c1 rest1 =>
                if Ascii.eqb c1 "}" then Ok (JObj [], rest1)
                else if Ascii.eqb c1 dquote then
                  bind (object_members fuel' rest1)
                       (fun '(pairs, r) => Ok (JObj (dict_of_pairs pairs), r))
                else Invalid
            end
          else if Ascii.eqb c "[" then
            match skip_ws rest with
            | EmptyString => Invalid
            | String c1 rest1 =>
                if Ascii.eqb c1 "]" then Ok (JArr [], rest1)
                else bind (array_items fuel' (String c1 rest1))
                          (fun '(items, r) => Ok (JArr items, r))
            end
          else of_option (scan_scalar s)
      end
  end
with object_members (fuel : nat) (s : string)
  : result (list (string * value) * string) :=
  match fuel with
  | O => OutOfFuel
  | S fuel' =>
      bind (of_option (scanstring s)) (fun '(key, r1) =>
      match skip_ws r1 with
      | EmptyString => Invalid
      | String c r2 =>
          if Ascii.eqb c ":" then
            bind (scan_once fuel' (skip_ws r2)) (fun '(v, r3) =>
            match skip_ws r3 with
            | EmptyString => Invalid
            | String c' r4 =>
                if Ascii.eqb c' "}" then Ok ([(key, v)], r4)
                else if Ascii.eqb c' "," then
                  match skip_ws r4 with
                  | EmptyString => Invalid
                  | String q r5 =>
                      if Ascii.eqb q dquote then
                        bind (object_members fuel' r5)
                             (fun '(pairs, r6) => Ok ((key, v) :: pairs, r6))
                      else Invalid
                  end
                else Invalid
            end)
          else Invalid
      end)
  end
with array_items (fuel : nat) (s : string) : result (list value * string) :=
  match fuel with
  | O => OutOfFuel
  | S fuel' =>
      bind (scan_once fuel' s) (fun '(v, r1) =>
      match skip_ws r1 with
      | EmptyString => Invalid
      | String c r2 =>
          if Ascii.eqb c "]" then Ok ([v], r2)
          else if Ascii.eqb c "," then
            bind (array_items fuel' (skip_ws r2))
                 (fun '(items, r3) => Ok (v :: items, r3))
          else Invalid
      end)
  end.

(** Two units of fuel per character are enough: a unit is spent when a
    value starts and when an item or a member starts. *)
Definition decode_fuel (s : string) : nat := 2 * String.length s + 1.

(** [JSONDecoder.decode]: one value, white space around it, nothing else. *)
Definition decode (s : string) : result value :=
  bind (scan_once (decode_fuel s) (skip_ws s)) (fun '(v, rest) =>
  match skip_ws rest with
  | EmptyString => Ok v
  | _ => Invalid
  end).

(** [json.loads]; [None] stands for the [JSONDecodeError]. *)
Definition loads (s : string) : option value :=
  match decode s with
  | Ok v => Some v
  | _ => None
  end.

End Json.

(** ** Exceptions and files *)

(** What an endpoint can raise. A [JSONDecodeError] carries the document
    given to [json.loads] (its message and position are computed from
    it); an [HTTPException] its status code and detail. *)
Inductive exn :=
| FileNotFoundError (path : string)
| JSONDecodeError (doc : string)
| AttributeError
| ValidationError
| HTTPException (status_code : N) (detail : string).

#[global] Instance exn_eq_dec : EqDecision exn.
Proof. solve_decision. Defined.

(** The files under [DATA_DIR], by path. *)
Abbreviation files := (gmap string string).

(** A computation that reads and writes files and may raise. *)
Definition io (A : Type) : Type := files → (exn + A) * files.

#[global] Instance io_ret : MRet io := λ A a fs, (inr a, fs).

#[global] Instance io_bind : MBind io := λ A B k m fs,
  match m fs with
  | (inl e, fs') => (inl e, fs')
  | (inr a, fs') => k a fs'
  end.

Definition raise {A : Type} (e : exn) : io A := λ fs, (inl e, fs).

(** A computation that touches no file. *)
Definition lift {A : Type} (r : exn + A) : io A := λ fs, (r, fs).

(** [file_path.exists()]. *)
Definition path_exists (file_path : string) : io bool :=
  λ fs, (inr (bool_decide (is_Some (fs !! file_path))), fs).

(** [open(file_path, "r")] and reading it to the end. *)
Definition read_text (file_path : string) : io string :=
  λ fs, match fs !! file_path with
        | Some content => (inr content, fs)
        | None => (inl (FileNotFoundError file_path), fs)
        end.

(** [open(file_path, "w")] and one [write]: the file holds [content]. *)
Definition write_text (file_path content : string) : io unit :=
  λ fs, (inr (), <[file_path := content]> fs).

(** ** Records and models *)

Definition as_str (v : Json.value) : option string :=
  match v with
  | Json.JStr s => Some s
  | _ => None
  end.

Definition as_list_str (v : Json.value) : option (list string) :=
  match v with
  | Json.JArr items => mapM as_str items
  | _ => None
  end.

(** The constructor of [Entity] called with the items of [fields] as
    keyword arguments: the three fields are required, a [str] field
    takes a string and [List[str]] a list of strings; other keys are
    ignored. [None] stands for the [ValidationError]. *)
Definition Entity_of_fields (fields : list (string * Json.value)) : option Entity :=
  n ← Json.dict_get "name" fields ≫= as_str;
  t ← Json.dict_get "entityType" fields ≫= as_str;
  o ← Json.dict_get "observations" fields ≫= as_list_str;
  Some (mkEntity n t o).

(** The constructor of [Relation], likewise; [from_] is populated by
    its alias, [from]. *)
Definition Relation_of_fields (fields : list (string * Json.value)) : option Relation :=
  f ← Json.dict_get "from" fields ≫= as_str;
  t ← Json.dict_get "to" fields ≫= as_str;
  r ← Json.dict_get "relationType" fields ≫= as_str;
  Some (mkRelation f t r).

(** [e.dict()]. *)
Definition Entity_dict (e : Entity) : list (string * Json.value) :=
  [("name", Json.JStr (name e));
   ("entityType", Json.JStr (entityType e));
   ("observations", Json.JArr (Json.JStr <$> observations e))].

(** [r.dict(by_alias=True)]. *)
Definition Relation_dict (r : Relation) : list (string * Json.value) :=
  [("from", Json.JStr (from_ r));
   ("to", Json.JStr (to r));
   ("relationType", Json.JStr (relationType r))].

(** [{"type": tag, **d}]. *)
Definition tagged (tag : string) (d : list (string * Json.value))
  : list (string * Json.value) :=
  fold_left (λ acc kv, Json.dict_set (fst kv) (snd kv) acc) d
            [("type", Json.JStr tag)].

(** [{k: v for k, v in item.items() if k != 'type'}]. *)
Definition without_type (item : list (string * Json.value))
  : list (string * Json.value) :=
  filter (λ kv, fst kv ≠ "type") item.

(** ** I/O handlers *)

(** [item.get("type") == tag]. *)
Definition type_is (tag : string) (item : list (string * Json.value)) : bool :=
  match Json.dict_get "type" item with
  | Some (Json.JStr s) => String.eqb s tag
  | _ => false
  end.

(** The body of the loop of [read_graph_file] over the non-blank lines. *)
Fixpoint load_lines (lines : list string) (entities : list Entity)
  (relations : list Relation) : exn + KnowledgeGraph :=
  match lines with
  | [] => inr (mkGraph entities relations)
  | line :: lines' =>
      match Json.loads line with
      | None => inl (JSONDecodeError line)
      | Some (Json.JObj item) =>
          if type_is "entity" item then
            match Entity_of_fields (without_type item) with
            | Some e => load_lines lines' (entities ++ [e]) relations
            | None => inl ValidationError
            end
          else if type_is "relation" item then
            match Relation_of_fields (without_type item) with
            | Some r => load_lines lines' entities (relations ++ [r])
            | None => inl ValidationError
            end
          else load_lines lines' entities relations
      | Some _ => inl AttributeError
      end
  end.

(** [[line for line in f if line.strip()]]. *)
Definition nonblank_lines (content : string) : list string :=
  filter (λ line, PyStr.truthy (PyStr.strip line) = true) (PyStr.iter_lines content).

Definition read_graph_file (file_path : string) : io KnowledgeGraph :=
  found ← path_exists file_path;
  if negb found then mret (mkGraph [] [])
  else
    content ← read_text file_path;
    lift (load_lines (nonblank_lines content) [] []).

(** The line of an entity and of a relation. *)
Definition entity_line (e : Entity) : string :=
  Json.dumps (Json.JObj (tagged "entity" (Entity_dict e))).

Definition relation_line (r : Relation) : string :=
  Json.dumps (Json.JObj (tagged "relation" (Relation_dict r))).

(** The text [save_graph] writes. *)
Definition graph_text (graph : KnowledgeGraph) : string :=
  let lines :=
    (entity_line <$> entities graph) ++ (relation_line <$> relations graph) in
  PyStr.join_lines lines.

Definition save_graph (graph : KnowledgeGraph) (file_path : string) : io unit :=
  write_text file_path (graph_text graph).

(** ** Request models *)

Module CreateEntitiesRequest.
Record t := mk { user_id : string; entities : list Entity }.
End CreateEntitiesRequest.

Module CreateRelationsRequest.
Record t := mk { user_id : string; relations : list Relation }.
End CreateRelationsRequest.

Module ObservationItem.
Record t := mk { entityName : string; contents : list string }.
End ObservationItem.

Module AddObservationsRequest.
Record t := mk { user_id : string; observations : list ObservationItem.t }.
End AddObservationsRequest.

Module DeletionItem.
Record t := mk { entityName : string; observations : list string }.
End DeletionItem.

Module DeleteObservationsRequest.
Record t := mk { user_id : string; deletions : list DeletionItem.t }.
End DeleteObservationsRequest.

Module DeleteEntitiesRequest.
Record t := mk { user_id : string; entityNames : list string }.
End DeleteEntitiesRequest.

Module DeleteRelationsRequest.
Record t := mk { user_id : string; relations : list Relation }.
End DeleteRelationsRequest.

Module SearchNodesRequest.
Record t := mk { user_id : string; query : string }.
End SearchNodesRequest.

Module OpenNodesRequest.
Record t := mk { user_id : string; names : list string }.
End OpenNodesRequest.

#[global] Instance ObservationItem_eq_dec : EqDecision ObservationItem.t.
Proof. solve_decision. Defined.

#[global] Instance DeletionItem_eq_dec : EqDecision DeletionItem.t.
Proof. solve_decision. Defined.

(** One item of the result of [add_observations], the dictionary with
    the keys [entityName] and [addedObservations]. *)
Record AddedObservations := mkAdded {
  added_entityName : string;
  addedObservations : list string
}.

#[global] Instance AddedObservations_eq_dec : EqDecision AddedObservations.
Proof. solve_decision. Defined.

(** ** Endpoints *)

(** The first entity of the list with the given name, and its position:
    [next((e for e in entities if e.name == n), None)]. *)
Definition find_entity (n : string) (ents : list Entity) : option (nat * Entity) :=
  list_find (λ e, name e = n) ents.

(** The loop of [add_observations]. The entity found is an element of
    [graph.entities] and is extended in place; a miss raises, and what
    the loop did to the graph in memory goes with it. *)
Fixpoint add_observations_loop (items : list ObservationItem.t)
  (graph : KnowledgeGraph) (results : list AddedObservations)
  : exn + (KnowledgeGraph * list AddedObservations) :=
  match items with
  | [] => inr (graph, results)
  | obs :: items' =>
      match find_entity (ObservationItem.entityName obs) (entities graph) with
      | None =>
          inl (HTTPException 404
                 ("Entity " +:+ ObservationItem.entityName obs +:+ " not found"))
      | Some (i, entity) =>
          let added :=
            filter (λ c, c ∉ observations entity) (ObservationItem.contents obs) in
          let entity' :=
            mkEntity (name entity) (entityType entity) (observations entity ++ added) in
          add_observations_loop items'
            (mkGraph (<[i := entity']> (entities graph)) (relations graph))
            (results ++ [mkAdded (ObservationItem.entityName obs) added])
      end
  end.

(** The loop of [delete_observations]; a missing entity is passed over. *)
Fixpoint delete_observations_loop (deletions : list DeletionItem.t)
  (graph : KnowledgeGraph) : KnowledgeGraph :=
  match deletions with
  | [] => graph
  | deletion :: deletions' =>
      match find_entity (DeletionItem.entityName deletion) (entities graph) with
      | None => delete_observations_loop deletions' graph
      | Some (i, entity) =>
          let entity' :=
            mkEntity (name entity) (entityType entity)
              (filter (λ obs, obs ∉ DeletionItem.observations deletion)
                      (observations entity)) in
          delete_observations_loop deletions'
            (mkGraph (<[i := entity']> (entities graph)) (relations graph))
      end
  end.

Section Endpoints.

(** [hashlib.sha256(s.encode()).hexdigest()] and the directory of the
    data, taken from the environment when the module is loaded. *)
Variable sha256_hexdigest : string → string.
Variable DATA_DIR : string.

Definition get_memory_file_path (user_id : string) : string :=
  let hashed_user_id := sha256_hexdigest user_id in
  DATA_DIR +:+ "/memory_" +:+ hashed_user_id +:+ ".json".

Definition create_entities (req : CreateEntitiesRequest.t) : io (list Entity) :=
  let file_path := get_memory_file_path (CreateEntitiesRequest.user_id req) in
  graph ← read_graph_file file_path;
  let existing_names : gset string := list_to_set (name <$> entities graph) in
  let new_entities :=
    filter (λ e, name e ∉ existing_names) (CreateEntitiesRequest.entities req) in
  let graph := mkGraph (entities graph ++ new_entities) (relations graph) in
  save_graph graph file_path;;
  mret new_entities.

Definition create_relations (req : CreateRelationsRequest.t) : io (list Relation) :=
  let file_path := get_memory_file_path (CreateRelationsRequest.user_id req) in
  graph ← read_graph_file file_path;
  let existing : gset (string * string * string) :=
    list_to_set (triple <$> relations graph) in
  let new :=
    filter (λ r, triple r ∉ existing) (CreateRelationsRequest.relations req) in
  let graph := mkGraph (entities graph) (relations graph ++ new) in
  save_graph graph file_path;;
  mret new.

Definition add_observations (req : AddObservationsRequest.t)
  : io (list AddedObservations) :=
  let file_path := get_memory_file_path (AddObservationsRequest.user_id req) in
  graph ← read_graph_file file_path;
  '(graph, results) ←
    lift (add_observations_loop (AddObservationsRequest.observations req) graph []);
  save_graph graph file_path;;
  mret results.

Definition delete_entities (req : DeleteEntitiesRequest.t) : io string :=
  let file_path := get_memory_file_path (DeleteEntitiesRequest.user_id req) in
  graph ← read_graph_file file_path;
  let entityNames := DeleteEntitiesRequest.entityNames req in
  let graph :=
    mkGraph (filter (λ e, name e ∉ entityNames) (entities graph)) (relations graph) in
  let graph :=
    mkGraph (entities graph)
      (filter (λ r, (from_ r ∉ entityNames) ∧ (to r ∉ entityNames)) (relations graph)) in
  save_graph graph file_path;;
  mret "Entities deleted successfully".

Definition delete_observations (req : DeleteObservationsRequest.t) : io string :=
  let file_path := get_memory_file_path (DeleteObservationsRequest.user_id req) in
  graph ← read_graph_file file_path;
  let graph :=
    delete_observations_loop (DeleteObservationsRequest.deletions req) graph in
  save_graph graph file_path;;
  mret "Observations deleted successfully".

Definition delete_relations (req : DeleteRelationsRequest.t) : io string :=
  let file_path := get_memory_file_path (DeleteRelationsRequest.user_id req) in
  graph ← read_graph_file file_path;
  let del_set : gset (string * string * string) :=
    list_to_set (triple <$> DeleteRelationsRequest.relations req) in
  let graph :=
    mkGraph (entities graph) (filter (λ r, triple r ∉ del_set) (relations graph)) in
  save_graph graph file_path;;
  mret "Relations deleted successfully".

Definition read_graph (user_id : string) : io KnowledgeGraph :=
  let file_path := get_memory_file_path user_id in
  read_graph_file file_path.

(** The test of [search_nodes] on one entity. *)
Definition matches (query : string) (e : Entity) : bool :=
  (PyStr.contains (PyStr.lower query) (PyStr.lower (name e))
   || PyStr.contains (PyStr.lower query) (PyStr.lower (entityType e)))
  || existsb (λ o, PyStr.contains (PyStr.lower query) (PyStr.lower o))
             (observations e).

Definition search_nodes (req : SearchNodesRequest.t) : io KnowledgeGraph :=
  let file_path := get_memory_file_path (SearchNodesRequest.user_id req) in
  graph ← read_graph_file file_path;
  let entities' :=
    filter (λ e, matches (SearchNodesRequest.query req) e = true) (entities graph) in
  let names : gset string := list_to_set (name <$> entities') in
  let relations' :=
    filter (λ r, from_ r ∈ names ∧ to r ∈ names) (relations graph) in
  mret (mkGraph entities' relations').

Definition open_nodes (req : OpenNodesRequest.t) : io KnowledgeGraph :=
  let file_path := get_memory_file_path (OpenNodesRequest.user_id req) in
  graph ← read_graph_file file_path;
  let entities' :=
    filter (λ e, name e ∈ OpenNodesRequest.names req) (entities graph) in
  let names : gset string := list_to_set (name <$> entities') in
  let relations' :=
    filter (λ r, from_ r ∈ names ∧ to r ∈ names) (relations graph) in
  mret (mkGraph entities' relations').

End Endpoints.

(** ** Texts of the encoder, by name *)

(** The items of an array as [dumps] writes them between the brackets. *)
Fixpoint items_text (l : list Json.value) : string :=
  match l with
  | [] => ""
  | [x] => Json.dumps x
  | x :: l' => Json.dumps x +:+ ", " +:+ items_text l'
  end.

(** A text that is made of printable ASCII characters only. *)
Fixpoint printable (s : string) : bool :=
  match s with
  | EmptyString => true
  | String c s' =>
      ((32 <=? PyStr.ord c) && (PyStr.ord c <=? 126))%N && printable s'
  end.

(** The lines a reader gets from the lines joined by [join_lines]: all
    but the last come with their line ending. *)
Fixpoint with_endings (lines : list string) : list string :=
  match lines with
  | [] => []
  | [l] => [l]
  | l :: ls => (l +:+ String "010" "") :: with_endings ls
  end.

(** [l'] is the line [l] as a reader gets it: with what the decoder
    takes for white space at its end, or with nothing. *)
Definition ends (l l' : string) : Prop :=
  ∃ trail, Json.skip_ws trail = "" ∧ l' = l +:+ trail.

(** ** The invariant of a graph *)

(** No two entities share a name and no two relations share a triple. *)
Definition well_formed (graph : KnowledgeGraph) : Prop :=
  NoDup (name <$> entities graph) ∧ NoDup (triple <$> relations graph).

(** ** Corrupt files, in the words of the specification *)

(** The exception of a failed load identifies, through [lineno], the
    line of the file (counted from one, blank lines included) that is the
    first non-blank line which cannot be parsed. *)
Definition line_number_identified (lineno : exn → nat) : Prop :=
  ∀ (file_path : string) (fs : files) (content : string) (n : nat) (line : string),
    fs !! file_path = Some content →
    PyStr.iter_lines content !! n = Some line →
    PyStr.truthy (PyStr.strip line) = true →
    Json.loads line = None →
    (∀ m l, m < n → PyStr.iter_lines content !! m = Some l →
            PyStr.truthy (PyStr.strip l) = false) →
    ∃ e, read_graph_file file_path fs = (inl e, fs) ∧ lineno e = S n.

(** ** Concurrent requests *)

(** The endpoints are plain functions, which the server runs in a pool
    of threads; nothing in the program orders two requests. A request to
    [create_entities] touches the file twice, when it loads the graph and
    when it saves it, and other requests can run in between. [cycle] is
    such a request cut at these two points. *)
Inductive cycle :=
| Pending (req : CreateEntitiesRequest.t)
| Loaded (req : CreateEntitiesRequest.t) (graph : KnowledgeGraph)
| Finished (result : exn + list Entity).

Section Concurrency.

Variable sha256_hexdigest : string → string.
Variable DATA_DIR : string.

(** The storage location of a request. *)
Definition location (req : CreateEntitiesRequest.t) : string :=
  get_memory_file_path sha256_hexdigest DATA_DIR (CreateEntitiesRequest.user_id req).

(** [create_entities] from the line after the load. *)
Definition create_entities_rest (req : CreateEntitiesRequest.t)
  (graph : KnowledgeGraph) : io (list Entity) :=
  let file_path := location req in
  let existing_names : gset string := list_to_set (name <$> entities graph) in
  let new_entities :=
    filter (λ e, name e ∉ existing_names) (CreateEntitiesRequest.entities req) in
  let graph := mkGraph (entities graph ++ new_entities) (relations graph) in
  save_graph graph file_path;;
  mret new_entities.

(** One access of a cycle to the files: the load, then the save. *)
Definition cycle_step (c : cycle) (fs : files) : option (cycle * files) :=
  match c with
  | Pending req =>
      match read_graph_file (location req) fs with
      | (inl e, fs') => Some (Finished (inl e), fs')
      | (inr graph, fs') => Some (Loaded req graph, fs')
      end
  | Loaded req graph =>
      match create_entities_rest req graph fs with
      | (result, fs') => Some (Finished result, fs')
      end
  | Finished _ => None
  end.

(** A cycle is in flight at a location between its load and its save. *)
Definition in_flight_at (file_path : string) (c : cycle) : Prop :=
  match c with
  | Loaded req _ => location req = file_path
  | _ => False
  end.

Definition finished (c : cycle) : Prop :=
  match c with
  | Finished _ => True
  | _ => False
  end.

(** Any cycle that is not finished may make its next access. *)
Inductive step : files * list cycle → files * list cycle → Prop :=
| step_at (i : nat) (c c' : cycle) (fs fs' : files) (cs : list cycle) :
    cs !! i = Some c →
    cycle_step c fs = Some (c', fs') →
    step (fs, cs) (fs', <[i := c']> cs).

(** The steps of an execution in which the cycles of one location do not
    overlap: a cycle loads only when no cycle is in flight at its
    location. Cycles at different locations do not wait for each other. *)
Inductive serial_step : files * list cycle → files * list cycle → Prop :=
| serial_step_at (i : nat) (c c' : cycle) (fs fs' : files) (cs : list cycle) :
    cs !! i = Some c →
    cycle_step c fs = Some (c', fs') →
    (∀ req, c = Pending req →
            ∀ j c2, cs !! j = Some c2 → ¬ in_flight_at (location req) c2) →
    serial_step (fs, cs) (fs', <[i := c']> cs).

(** Every entity of every request is in the graph stored at the
    location of the request. *)
Definition effects_present (reqs : list CreateEntitiesRequest.t) (fs : files) : Prop :=
  ∀ req e, req ∈ reqs → e ∈ CreateEntitiesRequest.entities req →
    ∃ graph, (read_graph_file (location req) fs).1 = inr graph
             ∧ name e ∈ (name <$> entities graph).

(** The files at every location of the requests load. *)
Definition loadable (reqs : list CreateEntitiesRequest.t) (fs : files) : Prop :=
  ∀ req, req ∈ reqs → ∃ graph, (read_graph_file (location req) fs).1 = inr graph.

(** What holds of the cycles of [reqs] throughout an execution without
    overlap at a location: the file of every request loads; a cycle in
    flight has loaded the graph that is stored, and is alone in flight at
    its location; the entities of a finished cycle are stored. *)
Definition cycle_invariant (reqs : list CreateEntitiesRequest.t)
  (st : files * list cycle) : Prop :=
  length st.2 = length reqs
  ∧ loadable reqs st.1
  ∧ ∀ i req c, reqs !! i = Some req → st.2 !! i = Some c →
      match c with
      | Pending r => r = req
      | Loaded r graph =>
          r = req
          ∧ (read_graph_file (location req) st.1).1 = inr graph
          ∧ ∀ j c2, j ≠ i → st.2 !! j = Some c2 → ¬ in_flight_at (location req) c2
      | Finished _ =>
          ∃ graph, (read_graph_file (location req) st.1).1 = inr graph
                   ∧ ∀ e, e ∈ CreateEntitiesRequest.entities req →
                          name e ∈ (name <$> entities graph)
      end.

End Concurrency.

(** No update is lost, however the accesses of the cycles interleave. *)
Definition no_lost_update : Prop :=
  ∀ sha256_hexdigest DATA_DIR reqs fs fs' cs',
    loadable sha256_hexdigest DATA_DIR reqs fs →
    rtc (step sha256_hexdigest DATA_DIR) (fs, Pending <$> reqs) (fs', cs') →
    Forall finished cs' →
    effects_present sha256_hexdigest DATA_DIR reqs fs'.

(** ** Fuel of the decoder *)

(** A scan of [s] that did not run out of fuel, and that left less than
    [s] behind when it read something. *)
Definition consumes {A : Type} (s : string) (r : Json.result (A * string)) : Prop :=
  match r with
  | Json.Ok (_, rest) => String.length rest < String.length s
  | Json.Invalid => True
  | Json.OutOfFuel => False
  end.

(** ** Sample data *)

(** A stand-in for the digest, a data directory, and the files of a user
    whose graph holds one entity. *)
Definition demo_digest (s : string) : string := s.

Definition demo_dir : string := "/app/data".

Definition alice : Entity := mkEntity "Alice" "person" ["likes tea"].

Definition bob : Entity := mkEntity "Bob" "person" [].

Definition knows : Relation := mkRelation "Alice" "Bob" "knows".

Definition carol : Entity := mkEntity "Carol" "person" [].

Definition demo_files : files :=
  {[ get_memory_file_path demo_digest demo_dir "u1" := graph_text (mkGraph [alice] []) ]}.

(** The files of a user whose graph holds two entities and a relation. *)
Definition demo_graph : KnowledgeGraph := mkGraph [alice; bob] [knows].

Definition demo_files2 : files :=
  {[ get_memory_file_path demo_digest demo_dir "u1" := graph_text demo_graph ]}.

(** ** Relations and their ends *)

(** Every relation of the graph starts and ends at the name of one of
    its entities. *)
Definition closed (graph : KnowledgeGraph) : Prop :=
  Forall (λ r, from_ r ∈ (name <$> entities graph) ∧ to r ∈ (name <$> entities graph))
         (relations graph).

(** ** Deleting observations, one entity at a time *)

(** The entity that the loop of [delete_observations] puts in the place
    of the entity an item names. *)
Definition struck (deletion : DeletionItem.t) (entity : Entity) : Entity :=
  mkEntity (name entity) (entityType entity)
    (filter (λ obs, obs ∉ DeletionItem.observations deletion) (observations entity)).

(** ** Records of a file *)

(** A record of a file is an entity or a relation; the line of a record,
    and the entities and the relations among a list of records. *)
Definition record_line (x : Entity + Relation) : string :=
  match x with
  | inl e => entity_line e
  | inr r => relation_line r
  end.

Definition entities_of (items : list (Entity + Relation)) : list Entity :=
  omap (λ x, match x with inl e => Some e | inr _ => None end) items.

Definition relations_of (items : list (Entity + Relation)) : list Relation :=
  omap (λ x, match x with inl _ => None | inr r => Some r end) items.

(** The text of a file with one line for each item of a list, a record
    or nothing, every line with its ending. *)
Definition records_text (items : list (option (Entity + Relation))) : string :=
  foldr (λ x rest, from_option record_line "" x +:+ String "010" rest) "" items.

(** * Strings of all code points

    The development above takes the strings of a graph over the code
    points below 256. Persistence and search are embedded here a second
    time, over strings of arbitrary code points: [json.dumps] writes a
    code point above U+FFFF as a surrogate pair, [json.loads] joins such
    a pair again, and [str.lower] follows the case mappings of Unicode
    14.0.0 (the tables of CPython 3.11), the rule of the final sigma
    included. The text of a file stays a [string]: what [save_graph]
    writes is ASCII. *)

Module Unicode.

(** A Python [str], as the list of its code points. *)
Abbreviation str := (list N).

(** The [str] of a text. *)
Fixpoint code_points (s : string) : str :=
  match s with
  | EmptyString => []
  | String c s' => PyStr.ord c :: code_points s'
  end.

Definition is_high_surrogate (n : N) : bool := ((55296 <=? n) && (n <=? 56319))%N.

Definition is_low_surrogate (n : N) : bool := ((56320 <=? n) && (n <=? 57343))%N.


(** ** Data models *)

Record Entity := mkEntity {
  name : str;
  entityType : str;
  observations : list str
}.

Record Relation := mkRelation {
  from_ : str;
  to : str;
  relationType : str
}.

Record KnowledgeGraph := mkGraph {
  entities : list Entity;
  relations : list Relation
}.

#[global] Instance Entity_eq_dec : EqDecision Entity.
Proof. solve_decision. Defined.

#[global] Instance Relation_eq_dec : EqDecision Relation.
Proof. solve_decision. Defined.

#[global] Instance KnowledgeGraph_eq_dec : EqDecision KnowledgeGraph.
Proof. solve_decision. Defined.

(** ** The [json] library *)

#[local] Unset Elimination Schemes.
Inductive value :=
| JNull
| JBool (b : bool)
| JNum (lexeme : string)
| JStr (s : str)
| JArr (items : list value)
| JObj (members : list (str * value)).
#[local] Set Elimination Schemes.

(** [d.get(k)]. *)
Fixpoint dict_get (k : str) (d : list (str * value)) : option value :=
  match d with
  | [] => None
  | (k', v) :: d' => if decide (k = k') then Some v else dict_get k d'
  end.

(** [d[k] = v]. *)
Fixpoint dict_set (k : str) (v : value) (d : list (str * value))
  : list (str * value) :=
  match d with
  | [] => [(k, v)]
  | (k', v') :: d' =>
      if decide (k = k') then (k, v) :: d' else (k', v') :: dict_set k v d'
  end.

(** [dict(pairs)]. *)
Definition dict_of_pairs (pairs : list (str * value)) : list (str * value) :=
  fold_left (fun d kv => dict_set (fst kv) (snd kv) d) pairs [].

(** *** Encoding ([json.dumps], default options) *)

(** The four hexadecimal digits of a number below 65536. *)
Definition hex4 (n : N) : string :=
  String (Json.hex_digit ((n / 4096) mod 16))
    (String (Json.hex_digit ((n / 256) mod 16))
       (String (Json.hex_digit ((n / 16) mod 16))
          (String (Json.hex_digit (n mod 16)) ""))).

(** One code point of a string literal ([ensure_ascii] is on): a
    printable ASCII character stands for itself, the quote and the
    backslash are escaped, five control characters have a short escape,
    a code point up to U+FFFF is written [\uXXXX], and one above as the
    two escapes of its surrogate pair. *)
Definition escape_char (n : N) : string :=
  if (n =? 34)%N then String "\" (String Json.dquote "")
  else if (n =? 92)%N then "\\"
  else if (n =? 10)%N then "\n"
  else if (n =? 13)%N then "\r"
  else if (n =? 9)%N then "\t"
  else if (n =? 8)%N then "\b"
  else if (n =? 12)%N then "\f"
  else if ((32 <=? n) && (n <=? 126))%N then String (ascii_of_N n) ""
  else if (65536 <=? n)%N
       then "\u" +:+ hex4 (55232 + n / 1024) +:+ "\u" +:+ hex4 (56320 + n mod 1024)
  else "\u" +:+ hex4 n.

Fixpoint escape (s : str) : string :=
  match s with
  | [] => ""
  | n :: s' => escape_char n +:+ escape s'
  end.

Definition encode_string (s : str) : string :=
  String Json.dquote (escape s +:+ String Json.dquote "").

Fixpoint dumps (j : value) : string :=
  match j with
  | JNull => "null"
  | JBool true => "true"
  | JBool false => "false"
  | JNum lexeme => lexeme
  | JStr s => encode_string s
  | JArr items =>
      "[" +:+
      (fix elems (l : list value) : string :=
         match l with
         | [] => ""
         | [x] => dumps x
         | x :: l' => dumps x +:+ ", " +:+ elems l'
         end) items
      +:+ "]"
  | JObj members =>
      "{" +:+
      (fix pairs (l : list (str * value)) : string :=
         match l with
         | [] => ""
         | [(k, v)] => encode_string k +:+ ": " +:+ dumps v
         | (k, v) :: l' => encode_string k +:+ ": " +:+ dumps v +:+ ", " +:+ pairs l'
         end) members
      +:+ "}"
  end.

(** *** Decoding ([json.loads], default options) *)

(** The number of four hexadecimal digits. *)
Definition hex4_value (h1 h2 h3 h4 : ascii) : option N :=
  match Json.hex_value h1, Json.hex_value h2, Json.hex_value h3, Json.hex_value h4 with
  | Some a, Some b, Some c, Some d => Some (((a * 16 + b) * 16 + c) * 16 + d)%N
  | _, _, _, _ => None
  end.

(** The code point of a surrogate pair. *)
Definition join_surrogates (high low : N) : N :=
  (65536 + ((high - 55296) * 1024 + (low - 56320)))%N.

Definition cons_code (n : N) (r : option (str * string)) : option (str * string) :=
  match r with
  | Some (s, rest) => Some (n :: s, rest)
  | None => None
  end.

(** [scanstring], strict: the text after an opening quote, up to the
    closing quote. After the escape of a high surrogate, a second escape
    that has something behind it is read at once: a low surrogate is
    joined with the first, anything else is left to be read again. *)
Fixpoint scanstring (s : string) : option (str * string) :=
  match s with
  | EmptyString => None
  | String c rest =>
      if Ascii.eqb c Json.dquote then Some ([], rest)
      else if Ascii.eqb c "\" then
        match rest with
        | EmptyString => None
        | String e rest1 =>
            if Ascii.eqb e "u" then
              match rest1 with
              | String h1 (String h2 (String h3 (String h4 rest2))) =>
                  match hex4_value h1 h2 h3 h4 with
                  | None => None
                  | Some n =>
                      if is_high_surrogate n then
                        match rest2 with
                        | String b (String u (String l1 (String l2 (String l3
                            (String l4 rest3))))) =>
                            if Ascii.eqb b "\" && Ascii.eqb u "u" && PyStr.truthy rest3 then
                              match hex4_value l1 l2 l3 l4 with
                              | None => None
                              | Some m =>
                                  if is_low_surrogate m
                                  then cons_code (join_surrogates n m) (scanstring rest3)
                                  else cons_code n (scanstring rest2)
                              end
                            else cons_code n (scanstring rest2)
                        | _ => cons_code n (scanstring rest2)
                        end
                      else cons_code n (scanstring rest2)
                  end
              | _ => None
              end
            else
              match Json.unescape e with
              | Some ch => cons_code (PyStr.ord ch) (scanstring rest1)
              | None => None
              end
        end
      else if (PyStr.ord c <? 32)%N then None
      else cons_code (PyStr.ord c) (scanstring rest)
  end.

(** The scalars that are neither strings nor containers. *)
Definition scan_scalar (s : string) : option (value * string) :=
  match Json.after_prefix "null" s with
  | Some r => Some (JNull, r)
  | None =>
  match Json.after_prefix "true" s with
  | Some r => Some (JBool true, r)
  | None =>
  match Json.after_prefix "false" s with
  | Some r => Some (JBool false, r)
  | None =>
  match Json.match_number s with
  | Some (lexeme, r) => Some (JNum lexeme, r)
  | None =>
  match Json.after_prefix "NaN" s with
  | Some r => Some (JNum "NaN", r)
  | None =>
  match Json.after_prefix "Infinity" s with
  | Some r => Some (JNum "Infinity", r)
  | None =>
  match Json.after_prefix "-Infinity" s with
  | Some r => Some (JNum "-Infinity", r)
  | None => None
  end end end end end end end.

(** [scan_once], [object_members] and [array_items], as above. *)
Fixpoint scan_once (fuel : nat) (s : string) : Json.result (value * string) :=
  match fuel with
  | O => Json.OutOfFuel
  | S fuel' =>
      match s with
      | EmptyString => Json.Invalid
      | String c rest =>
          if Ascii.eqb c Json.dquote then
            Json.bind (Json.of_option (scanstring rest))
                      (fun '(str, r) => Json.Ok (JStr str, r))
          else if Ascii.eqb c "{" then
            match Json.skip_ws rest with
            | EmptyString => Json.Invalid
            | String c1 rest1 =>
                if Ascii.eqb c1 "}" then Json.Ok (JObj [], rest1)
                else if Ascii.eqb c1 Json.dquote then
                  Json.bind (object_members fuel' rest1)
                       (fun '(pairs, r) => Json.Ok (JObj (dict_of_pairs pairs), r))
                else Json.Invalid
            end
          else if Ascii.eqb c "[" then
            match Json.skip_ws rest with
            | EmptyString => Json.Invalid
            | String c1 rest1 =>
                if Ascii.eqb c1 "]" then Json.Ok (JArr [], rest1)
                else Json.bind (array_items fuel' (String c1 rest1))
                          (fun '(items, r) => Json.Ok (JArr items, r))
            end
          else Json.of_option (scan_scalar s)
      end
  end
with object_members (fuel : nat) (s : string)
  : Json.result (list (str * value) * string) :=
  match fuel with
  | O => Json.OutOfFuel
  | S fuel' =>
      Json.bind (Json.of_option (scanstring s)) (fun '(key, r1) =>
      match Json.skip_ws r1 with
      | EmptyString => Json.Invalid
      | String c r2 =>
          if Ascii.eqb c ":" then
            Json.bind (scan_once fuel' (Json.skip_ws r2)) (fun '(v, r3) =>
            match Json.skip_ws r3 with
            | EmptyString => Json.Invalid
            | String c' r4 =>
                if Ascii.eqb c' "}" then Json.Ok ([(key, v)], r4)
                else if Ascii.eqb c' "," then
                  match Json.skip_ws r4 with
                  | EmptyString => Json.Invalid
                  | String q r5 =>
                      if Ascii.eqb q Json.dquote then
                        Json.bind (object_members fuel' r5)
                             (fun '(pairs, r6) => Json.Ok ((key, v) :: pairs, r6))
                      else Json.Invalid
                  end
                else Json.Invalid
            end)
          else Json.Invalid
      end)
  end
with array_items (fuel : nat) (s : string) : Json.result (list value * string) :=
  match fuel with
  | O => Json.OutOfFuel
  | S fuel' =>
      Json.bind (scan_once fuel' s) (fun '(v, r1) =>
      match Json.skip_ws r1 with
      | EmptyString => Json.Invalid
      | String c r2 =>
          if Ascii.eqb c "]" then Json.Ok ([v], r2)
          else if Ascii.eqb c "," then
            Json.bind (array_items fuel' (Json.skip_ws r2))
                 (fun '(items, r3) => Json.Ok (v :: items, r3))
          else Json.Invalid
      end)
  end.

(** [JSONDecoder.decode]: one value, white space around it, nothing else. *)
Definition decode (s : string) : Json.result value :=
  Json.bind (scan_once (Json.decode_fuel s) (Json.skip_ws s)) (fun '(v, rest) =>
  match Json.skip_ws rest with
  | EmptyString => Json.Ok v
  | _ => Json.Invalid
  end).

(** [json.loads]; [None] stands for the [JSONDecodeError]. *)
Definition loads (s : string) : option value :=
  match decode s with
  | Json.Ok v => Some v
  | _ => None
  end.

(** ** Records and models *)

Definition as_str (v : value) : option str :=
  match v with
  | JStr s => Some s
  | _ => None
  end.

Definition as_list_str (v : value) : option (list str) :=
  match v with
  | JArr items => mapM as_str items
  | _ => None
  end.

(** The constructors of [Entity] and [Relation], called with the items
    of [fields] as keyword arguments. *)
Definition Entity_of_fields (fields : list (str * value)) : option Entity :=
  n ← dict_get (code_points "name") fields ≫= as_str;
  t ← dict_get (code_points "entityType") fields ≫= as_str;
  o ← dict_get (code_points "observations") fields ≫= as_list_str;
  Some (mkEntity n t o).

Definition Relation_of_fields (fields : list (str * value)) : option Relation :=
  f ← dict_get (code_points "from") fields ≫= as_str;
  t ← dict_get (code_points "to") fields ≫= as_str;
  r ← dict_get (code_points "relationType") fields ≫= as_str;
  Some (mkRelation f t r).

(** [e.dict()] and [r.dict(by_alias=True)]. *)
Definition Entity_dict (e : Entity) : list (str * value) :=
  [(code_points "name", JStr (name e));
   (code_points "entityType", JStr (entityType e));
   (code_points "observations", JArr (JStr <$> observations e))].

Definition Relation_dict (r : Relation) : list (str * value) :=
  [(code_points "from", JStr (from_ r));
   (code_points "to", JStr (to r));
   (code_points "relationType", JStr (relationType r))].

(** [{"type": tag, **d}]. *)
Definition tagged (tag : string) (d : list (str * value)) : list (str * value) :=
  fold_left (λ acc kv, dict_set (fst kv) (snd kv) acc) d
            [(code_points "type", JStr (code_points tag))].

(** [{k: v for k, v in item.items() if k != 'type'}]. *)
Definition without_type (item : list (str * value)) : list (str * value) :=
  filter (λ kv, fst kv ≠ code_points "type") item.

(** ** I/O handlers *)

(** [item.get("type") == tag]. *)
Definition type_is (tag : string) (item : list (str * value)) : bool :=
  match dict_get (code_points "type") item with
  | Some (JStr s) => bool_decide (s = code_points tag)
  | _ => false
  end.

(** The body of the loop of [read_graph_file] over the non-blank lines. *)
Fixpoint load_lines (lines : list string) (entities : list Entity)
  (relations : list Relation) : exn + KnowledgeGraph :=
  match lines with
  | [] => inr (mkGraph entities relations)
  | line :: lines' =>
      match loads line with
      | None => inl (JSONDecodeError line)
      | Some (JObj item) =>
          if type_is "entity" item then
            match Entity_of_fields (without_type item) with
            | Some e => load_lines lines' (entities ++ [e]) relations
            | None => inl ValidationError
            end
          else if type_is "relation" item then
            match Relation_of_fields (without_type item) with
            | Some r => load_lines lines' entities (relations ++ [r])
            | None => inl ValidationError
            end
          else load_lines lines' entities relations
      | Some _ => inl AttributeError
      end
  end.

Definition read_graph_file (file_path : string) : io KnowledgeGraph :=
  found ← path_exists file_path;
  if negb found then mret (mkGraph [] [])
  else
    content ← read_text file_path;
    lift (load_lines (nonblank_lines content) [] []).

(** The line of an entity and of a relation. *)
Definition entity_line (e : Entity) : string :=
  dumps (JObj (tagged "entity" (Entity_dict e))).

Definition relation_line (r : Relation) : string :=
  dumps (JObj (tagged "relation" (Relation_dict r))).

(** The text [save_graph] writes. *)
Definition graph_text (graph : KnowledgeGraph) : string :=
  let lines :=
    (entity_line <$> entities graph) ++ (relation_line <$> relations graph) in
  PyStr.join_lines lines.

Definition save_graph (graph : KnowledgeGraph) (file_path : string) : io unit :=
  write_text file_path (graph_text graph).

(** ** [str.lower] *)

(** The case mappings of Unicode 14.0.0. A code point of a range
    [(first, last, image)] of [lower_shifts] is mapped to the code point
    as far from [image] as it is from [first]; in a range of
    [lower_alternations] every second code point, from the first on, is
    mapped to its successor. *)
Definition lower_shifts : list (N * N * N) :=
 ([(65, 90, 97); (192, 214, 224); (216, 222, 248); (376, 376, 255); (385, 385, 595);
   (390, 390, 596); (391, 391, 392); (393, 394, 598); (395, 395, 396); (398, 398, 477);
   (399, 399, 601); (400, 400, 603); (401, 401, 402); (403, 403, 608); (404, 404, 611);
   (406, 406, 617); (407, 407, 616); (408, 408, 409); (412, 412, 623); (413, 413, 626);
   (415, 415, 629); (422, 422, 640); (423, 423, 424); (425, 425, 643); (428, 428, 429);
   (430, 430, 648); (431, 431, 432); (433, 434, 650); (439, 439, 658); (440, 440, 441);
   (444, 444, 445); (452, 452, 454); (453, 453, 454); (455, 455, 457); (456, 456, 457);
   (458, 458, 460); (497, 497, 499); (502, 502, 405); (503, 503, 447); (544, 544, 414);
   (570, 570, 11365); (571, 571, 572); (573, 573, 410); (574, 574, 11366); (577, 577, 578);
   (579, 579, 384); (580, 580, 649); (581, 581, 652); (886, 886, 887); (895, 895, 1011);
   (902, 902, 940); (904, 906, 941); (908, 908, 972); (910, 911, 973); (913, 929, 945);
   (931, 939, 963); (975, 975, 983); (1012, 1012, 952); (1015, 1015, 1016);
   (1017, 1017, 1010); (1018, 1018, 1019); (1021, 1023, 891); (1024, 1039, 1104);
   (1040, 1071, 1072); (1216, 1216, 1231); (1329, 1366, 1377); (4256, 4293, 11520);
   (4295, 4295, 11559); (4301, 4301, 11565); (5024, 5103, 43888); (5104, 5109, 5112);
   (7312, 7354, 4304); (7357, 7359, 4349); (7838, 7838, 223); (7944, 7951, 7936);
   (7960, 7965, 7952); (7976, 7983, 7968); (7992, 7999, 7984); (8008, 8013, 8000);
   (8025, 8025, 8017); (8027, 8027, 8019); (8029, 8029, 8021); (8031, 8031, 8023);
   (8040, 8047, 8032); (8072, 8079, 8064); (8088, 8095, 8080); (8104, 8111, 8096);
   (8120, 8121, 8112); (8122, 8123, 8048); (8124, 8124, 8115); (8136, 8139, 8050);
   (8140, 8140, 8131); (8152, 8153, 8144); (8154, 8155, 8054); (8168, 8169, 8160);
   (8170, 8171, 8058); (8172, 8172, 8165); (8184, 8185, 8056); (8186, 8187, 8060);
   (8188, 8188, 8179); (8486, 8486, 969); (8490, 8490, 107); (8491, 8491, 229);
   (8498, 8498, 8526); (8544, 8559, 8560); (8579, 8579, 8580); (9398, 9423, 9424);
   (11264, 11311, 11312); (11360, 11360, 11361); (11362, 11362, 619); (11363, 11363, 7549);
   (11364, 11364, 637); (11373, 11373, 593); (11374, 11374, 625); (11375, 11375, 592);
   (11376, 11376, 594); (11378, 11378, 11379); (11381, 11381, 11382); (11390, 11391, 575);
   (11506, 11506, 11507); (42877, 42877, 7545); (42891, 42891, 42892); (42893, 42893, 613);
   (42922, 42922, 614); (42923, 42923, 604); (42924, 42924, 609); (42925, 42925, 620);
   (42926, 42926, 618); (42928, 42928, 670); (42929, 42929, 647); (42930, 42930, 669);
   (42931, 42931, 43859); (42948, 42948, 42900); (42949, 42949, 642); (42950, 42950, 7566);
   (42960, 42960, 42961); (42997, 42997, 42998); (65313, 65338, 65345);
   (66560, 66599, 66600); (66736, 66771, 66776); (66928, 66938, 66967);
   (66940, 66954, 66979); (66956, 66962, 66995); (66964, 66965, 67003);
   (68736, 68786, 68800); (71840, 71871, 71872); (93760, 93791, 93792);
   (125184, 125217, 125218)])%N.

Definition lower_alternations : list (N * N) :=
 ([(256, 302); (306, 310); (313, 327); (330, 374); (377, 381); (386, 388); (416, 420);
   (435, 437); (459, 475); (478, 494); (498, 500); (504, 542); (546, 562); (582, 590);
   (880, 882); (984, 1006); (1120, 1152); (1162, 1214); (1217, 1229); (1232, 1326);
   (7680, 7828); (7840, 7934); (11367, 11371); (11392, 11490); (11499, 11501);
   (42560, 42604); (42624, 42650); (42786, 42798); (42802, 42862); (42873, 42875);
   (42878, 42886); (42896, 42898); (42902, 42920); (42932, 42946); (42951, 42953);
   (42966, 42968)])%N.

Definition cased_ranges : list (N * N) :=
 ([(65, 90); (97, 122); (170, 170); (181, 181); (186, 186); (192, 214); (216, 246);
   (248, 442); (444, 447); (452, 659); (661, 696); (704, 705); (736, 740); (837, 837);
   (880, 883); (886, 887); (890, 893); (895, 895); (902, 902); (904, 906); (908, 908);
   (910, 929); (931, 1013); (1015, 1153); (1162, 1327); (1329, 1366); (1376, 1416);
   (4256, 4293); (4295, 4295); (4301, 4301); (4304, 4346); (4349, 4351); (5024, 5109);
   (5112, 5117); (7296, 7304); (7312, 7354); (7357, 7359); (7424, 7615); (7680, 7957);
   (7960, 7965); (7968, 8005); (8008, 8013); (8016, 8023); (8025, 8025); (8027, 8027);
   (8029, 8029); (8031, 8061); (8064, 8116); (8118, 8124); (8126, 8126); (8130, 8132);
   (8134, 8140); (8144, 8147); (8150, 8155); (8160, 8172); (8178, 8180); (8182, 8188);
   (8305, 8305); (8319, 8319); (8336, 8348); (8450, 8450); (8455, 8455); (8458, 8467);
   (8469, 8469); (8473, 8477); (8484, 8484); (8486, 8486); (8488, 8488); (8490, 8493);
   (8495, 8500); (8505, 8505); (8508, 8511); (8517, 8521); (8526, 8526); (8544, 8575);
   (8579, 8580); (9398, 9449); (11264, 11492); (11499, 11502); (11506, 11507);
   (11520, 11557); (11559, 11559); (11565, 11565); (42560, 42605); (42624, 42653);
   (42786, 42887); (42891, 42894); (42896, 42954); (42960, 42961); (42963, 42963);
   (42965, 42969); (42997, 42998); (43000, 43002); (43824, 43866); (43868, 43880);
   (43888, 43967); (64256, 64262); (64275, 64279); (65313, 65338); (65345, 65370);
   (66560, 66639); (66736, 66771); (66776, 66811); (66928, 66938); (66940, 66954);
   (66956, 66962); (66964, 66965); (66967, 66977); (66979, 66993); (66995, 67001);
   (67003, 67004); (67456, 67456); (67459, 67461); (67463, 67504); (67506, 67514);
   (68736, 68786); (68800, 68850); (71840, 71903); (93760, 93823); (119808, 119892);
   (119894, 119964); (119966, 119967); (119970, 119970); (119973, 119974); (119977, 119980);
   (119982, 119993); (119995, 119995); (119997, 120003); (120005, 120069); (120071, 120074);
   (120077, 120084); (120086, 120092); (120094, 120121); (120123, 120126); (120128, 120132);
   (120134, 120134); (120138, 120144); (120146, 120485); (120488, 120512); (120514, 120538);
   (120540, 120570); (120572, 120596); (120598, 120628); (120630, 120654); (120656, 120686);
   (120688, 120712); (120714, 120744); (120746, 120770); (120772, 120779); (122624, 122633);
   (122635, 122654); (125184, 125251); (127280, 127305); (127312, 127337); (127344, 127369)])%N.

Definition case_ignorable_ranges : list (N * N) :=
 ([(39, 39); (46, 46); (58, 58); (94, 94); (96, 96); (168, 168); (173, 173); (175, 175);
   (180, 180); (183, 184); (688, 879); (884, 885); (890, 890); (900, 901); (903, 903);
   (1155, 1161); (1369, 1369); (1375, 1375); (1425, 1469); (1471, 1471); (1473, 1474);
   (1476, 1477); (1479, 1479); (1524, 1524); (1536, 1541); (1552, 1562); (1564, 1564);
   (1600, 1600); (1611, 1631); (1648, 1648); (1750, 1757); (1759, 1768); (1770, 1773);
   (1807, 1807); (1809, 1809); (1840, 1866); (1958, 1968); (2027, 2037); (2042, 2042);
   (2045, 2045); (2070, 2093); (2137, 2139); (2184, 2184); (2192, 2193); (2200, 2207);
   (2249, 2306); (2362, 2362); (2364, 2364); (2369, 2376); (2381, 2381); (2385, 2391);
   (2402, 2403); (2417, 2417); (2433, 2433); (2492, 2492); (2497, 2500); (2509, 2509);
   (2530, 2531); (2558, 2558); (2561, 2562); (2620, 2620); (2625, 2626); (2631, 2632);
   (2635, 2637); (2641, 2641); (2672, 2673); (2677, 2677); (2689, 2690); (2748, 2748);
   (2753, 2757); (2759, 2760); (2765, 2765); (2786, 2787); (2810, 2815); (2817, 2817);
   (2876, 2876); (2879, 2879); (2881, 2884); (2893, 2893); (2901, 2902); (2914, 2915);
   (2946, 2946); (3008, 3008); (3021, 3021); (3072, 3072); (3076, 3076); (3132, 3132);
   (3134, 3136); (3142, 3144); (3146, 3149); (3157, 3158); (3170, 3171); (3201, 3201);
   (3260, 3260); (3263, 3263); (3270, 3270); (3276, 3277); (3298, 3299); (3328, 3329);
   (3387, 3388); (3393, 3396); (3405, 3405); (3426, 3427); (3457, 3457); (3530, 3530);
   (3538, 3540); (3542, 3542); (3633, 3633); (3636, 3642); (3654, 3662); (3761, 3761);
   (3764, 3772); (3782, 3782); (3784, 3789); (3864, 3865); (3893, 3893); (3895, 3895);
   (3897, 3897); (3953, 3966); (3968, 3972); (3974, 3975); (3981, 3991); (3993, 4028);
   (4038, 4038); (4141, 4144); (4146, 4151); (4153, 4154); (4157, 4158); (4184, 4185);
   (4190, 4192); (4209, 4212); (4226, 4226); (4229, 4230); (4237, 4237); (4253, 4253);
   (4348, 4348); (4957, 4959); (5906, 5908); (5938, 5939); (5970, 5971); (6002, 6003);
   (6068, 6069); (6071, 6077); (6086, 6086); (6089, 6099); (6103, 6103); (6109, 6109);
   (6155, 6159); (6211, 6211); (6277, 6278); (6313, 6313); (6432, 6434); (6439, 6440);
   (6450, 6450); (6457, 6459); (6679, 6680); (6683, 6683); (6742, 6742); (6744, 6750);
   (6752, 6752); (6754, 6754); (6757, 6764); (6771, 6780); (6783, 6783); (6823, 6823);
   (6832, 6862); (6912, 6915); (6964, 6964); (6966, 6970); (6972, 6972); (6978, 6978);
   (7019, 7027); (7040, 7041); (7074, 7077); (7080, 7081); (7083, 7085); (7142, 7142);
   (7144, 7145); (7149, 7149); (7151, 7153); (7212, 7219); (7222, 7223); (7288, 7293);
   (7376, 7378); (7380, 7392); (7394, 7400); (7405, 7405); (7412, 7412); (7416, 7417);
   (7468, 7530); (7544, 7544); (7579, 7679); (8125, 8125); (8127, 8129); (8141, 8143);
   (8157, 8159); (8173, 8175); (8189, 8190); (8203, 8207); (8216, 8217); (8228, 8228);
   (8231, 8231); (8234, 8238); (8288, 8292); (8294, 8303); (8305, 8305); (8319, 8319);
   (8336, 8348); (8400, 8432); (11388, 11389); (11503, 11505); (11631, 11631);
   (11647, 11647); (11744, 11775); (11823, 11823); (12293, 12293); (12330, 12333);
   (12337, 12341); (12347, 12347); (12441, 12446); (12540, 12542); (40981, 40981);
   (42232, 42237); (42508, 42508); (42607, 42610); (42612, 42621); (42623, 42623);
   (42652, 42655); (42736, 42737); (42752, 42785); (42864, 42864); (42888, 42890);
   (42994, 42996); (43000, 43001); (43010, 43010); (43014, 43014); (43019, 43019);
   (43045, 43046); (43052, 43052); (43204, 43205); (43232, 43249); (43263, 43263);
   (43302, 43309); (43335, 43345); (43392, 43394); (43443, 43443); (43446, 43449);
   (43452, 43453); (43471, 43471); (43493, 43494); (43561, 43566); (43569, 43570);
   (43573, 43574); (43587, 43587); (43596, 43596); (43632, 43632); (43644, 43644);
   (43696, 43696); (43698, 43700); (43703, 43704); (43710, 43711); (43713, 43713);
   (43741, 43741); (43756, 43757); (43763, 43764); (43766, 43766); (43867, 43871);
   (43881, 43883); (44005, 44005); (44008, 44008); (44013, 44013); (64286, 64286);
   (64434, 64450); (65024, 65039); (65043, 65043); (65056, 65071); (65106, 65106);
   (65109, 65109); (65279, 65279); (65287, 65287); (65294, 65294); (65306, 65306);
   (65342, 65342); (65344, 65344); (65392, 65392); (65438, 65439); (65507, 65507);
   (65529, 65531); (66045, 66045); (66272, 66272); (66422, 66426); (67456, 67461);
   (67463, 67504); (67506, 67514); (68097, 68099); (68101, 68102); (68108, 68111);
   (68152, 68154); (68159, 68159); (68325, 68326); (68900, 68903); (69291, 69292);
   (69446, 69456); (69506, 69509); (69633, 69633); (69688, 69702); (69744, 69744);
   (69747, 69748); (69759, 69761); (69811, 69814); (69817, 69818); (69821, 69821);
   (69826, 69826); (69837, 69837); (69888, 69890); (69927, 69931); (69933, 69940);
   (70003, 70003); (70016, 70017); (70070, 70078); (70089, 70092); (70095, 70095);
   (70191, 70193); (70196, 70196); (70198, 70199); (70206, 70206); (70367, 70367);
   (70371, 70378); (70400, 70401); (70459, 70460); (70464, 70464); (70502, 70508);
   (70512, 70516); (70712, 70719); (70722, 70724); (70726, 70726); (70750, 70750);
   (70835, 70840); (70842, 70842); (70847, 70848); (70850, 70851); (71090, 71093);
   (71100, 71101); (71103, 71104); (71132, 71133); (71219, 71226); (71229, 71229);
   (71231, 71232); (71339, 71339); (71341, 71341); (71344, 71349); (71351, 71351);
   (71453, 71455); (71458, 71461); (71463, 71467); (71727, 71735); (71737, 71738);
   (71995, 71996); (71998, 71998); (72003, 72003); (72148, 72151); (72154, 72155);
   (72160, 72160); (72193, 72202); (72243, 72248); (72251, 72254); (72263, 72263);
   (72273, 72278); (72281, 72283); (72330, 72342); (72344, 72345); (72752, 72758);
   (72760, 72765); (72767, 72767); (72850, 72871); (72874, 72880); (72882, 72883);
   (72885, 72886); (73009, 73014); (73018, 73018); (73020, 73021); (73023, 73029);
   (73031, 73031); (73104, 73105); (73109, 73109); (73111, 73111); (73459, 73460);
   (78896, 78904); (92912, 92916); (92976, 92982); (92992, 92995); (94031, 94031);
   (94095, 94111); (94176, 94177); (94179, 94180); (110576, 110579); (110581, 110587);
   (110589, 110590); (113821, 113822); (113824, 113827); (118528, 118573); (118576, 118598);
   (119143, 119145); (119155, 119170); (119173, 119179); (119210, 119213); (119362, 119364);
   (121344, 121398); (121403, 121452); (121461, 121461); (121476, 121476); (121499, 121503);
   (121505, 121519); (122880, 122886); (122888, 122904); (122907, 122913); (122915, 122916);
   (122918, 122922); (123184, 123197); (123566, 123566); (123628, 123631); (125136, 125142);
   (125252, 125259); (127995, 127999); (917505, 917505); (917536, 917631); (917760, 917999)])%N.

Definition in_ranges (n : N) (ranges : list (N * N)) : bool :=
  existsb (λ '(first, last), ((first <=? n) && (n <=? last))%N) ranges.

Definition is_cased (n : N) : bool := in_ranges n cased_ranges.

Definition is_case_ignorable (n : N) : bool := in_ranges n case_ignorable_ranges.

Fixpoint shifted (n : N) (shifts : list (N * N * N)) : option N :=
  match shifts with
  | [] => None
  | (first, last, image) :: shifts' =>
      if ((first <=? n) && (n <=? last))%N then Some (image + (n - first))%N
      else shifted n shifts'
  end.

(** The lower case of one code point, without its context: one code
    point, or two for the capital I with a dot above. *)
Definition lower_full (n : N) : str :=
  if (n =? 304)%N then [105; 775]%N
  else match shifted n lower_shifts with
       | Some image => [image]
       | None =>
           if existsb (λ '(first, last),
                         ((first <=? n) && (n <=? last) && N.even (n - first))%N)
                      lower_alternations
           then [(n + 1)%N] else [n]
       end.

(** The first code point of [s] that is not case-ignorable. *)
Fixpoint first_not_ignorable (s : str) : option N :=
  match s with
  | [] => None
  | n :: s' => if is_case_ignorable n then first_not_ignorable s' else Some n
  end.

(** A capital sigma is final when a cased letter comes before it and
    none after it, case-ignorable code points apart; [before] is what
    comes before, nearest first. *)
Definition final_sigma (before after : str) : bool :=
  match first_not_ignorable before with
  | Some c =>
      is_cased c &&
      match first_not_ignorable after with
      | Some c' => negb (is_cased c')
      | None => true
      end
  | None => false
  end.

Fixpoint lower_from (before s : str) : str :=
  match s with
  | [] => []
  | n :: s' =>
      (if (n =? 931)%N then [if final_sigma before s' then 962%N else 963%N]
       else lower_full n)
      ++ lower_from (n :: before) s'
  end.

(** [s.lower()]. *)
Definition lower (s : str) : str := lower_from [] s.

(** [s.startswith(p)] and [p in s]. *)
Fixpoint startswith (p s : str) : bool :=
  match p, s with
  | [], _ => true
  | a :: p', b :: s' => if (a =? b)%N then startswith p' s' else false
  | _ :: _, [] => false
  end.

Fixpoint contains (p s : str) : bool :=
  startswith p s ||
  match s with
  | [] => false
  | _ :: s' => contains p s'
  end.

(** ** The endpoint [search_nodes] *)

Module SearchNodesRequest.
Record t := mk { user_id : str; query : str }.
End SearchNodesRequest.

(** The test of [search_nodes] on one entity. *)
Definition matches (query : str) (e : Entity) : bool :=
  (contains (lower query) (lower (name e))
   || contains (lower query) (lower (entityType e)))
  || existsb (λ o, contains (lower query) (lower o)) (observations e).

Section Endpoints.

Variable sha256_hexdigest : str → string.
Variable DATA_DIR : string.

Definition get_memory_file_path (user_id : str) : string :=
  let hashed_user_id := sha256_hexdigest user_id in
  DATA_DIR +:+ "/memory_" +:+ hashed_user_id +:+ ".json".

Definition search_nodes (req : SearchNodesRequest.t) : io KnowledgeGraph :=
  let file_path := get_memory_file_path (SearchNodesRequest.user_id req) in
  graph ← read_graph_file file_path;
  let entities' :=
    filter (λ e, matches (SearchNodesRequest.query req) e = true) (entities graph) in
  let names : gset str := list_to_set (name <$> entities') in
  let relations' :=
    filter (λ r, from_ r ∈ names ∧ to r ∈ names) (relations graph) in
  mret (mkGraph entities' relations').

End Endpoints.

(** ** Texts of the encoder, by name *)

(** The items of an array as [dumps] writes them between the brackets. *)
Fixpoint items_text (l : list value) : string :=
  match l with
  | [] => ""
  | [x] => dumps x
  | x :: l' => dumps x +:+ ", " +:+ items_text l'
  end.

(** ** Strings and graphs without surrogates *)



(** ** Case-insensitive substrings, in the words of the specification *)






(** ** Sample data *)

(** A stand-in for the digest: the escaped text of the user id. *)
Definition demo_digest (s : str) : string := escape s.

Definition alice : Entity :=
  mkEntity (code_points "Alice") (code_points "person") [code_points "likes tea"].

Definition bob : Entity := mkEntity (code_points "Bob") (code_points "person") [].

Definition knows : Relation :=
  mkRelation (code_points "Alice") (code_points "Bob") (code_points "knows").

Definition demo_graph : KnowledgeGraph := mkGraph [alice; bob] [knows].

Definition demo_files : files :=
  {[ get_memory_file_path demo_digest demo_dir (code_points "u1")
       := graph_text demo_graph ]}.





End Unicode.

(** * Properties *)

(** ** Strings *)

Lemma append_nil_l (s : string) : "" +:+ s = s.
Proof. reflexivity. Qed.

Lemma append_cons (c : ascii) (s t : string) :
  String c s +:+ t = String c (s +:+ t).
Proof. reflexivity. Qed.

Lemma append_nil_r (s : string) : s +:+ "" = s.
Proof. induction s as [|c s IH]; [reflexivity|]. rewrite append_cons, IH. reflexivity. Qed.

Lemma append_assoc (s t u : string) : (s +:+ t) +:+ u = s +:+ (t +:+ u).
Proof.
  induction s as [|c s IH]; [reflexivity|].
  rewrite !append_cons, IH. reflexivity.
Qed.

Lemma length_append (s t : string) :
  String.length (s +:+ t) = String.length s + String.length t.
Proof.
  induction s as [|c s IH]; [reflexivity|].
  rewrite append_cons. simpl. rewrite IH. reflexivity.
Qed.

Create Rewrite HintDb str_norm.
#[global] Hint Rewrite append_nil_l append_cons append_assoc : str_norm.

(** Brings a text to the form [String c1 (String c2 (... +:+ rest))]. *)
Ltac str_norm := autorewrite with str_norm.

(** ** String literals: escaping and scanning *)

(** Every character of a string survives the escaping: scanning the
    escaped character gives it back, before what the rest gives. *)
Lemma scanstring_escape_char (c : ascii) (tail : string) :
  Json.scanstring (Json.escape_char c +:+ tail)
  = Json.cons_char c (Json.scanstring tail).
Proof.
  destruct c as [[] [] [] [] [] [] [] []]; reflexivity.
Qed.

Lemma scanstring_escape (s rest : string) :
  Json.scanstring (Json.escape s +:+ String Json.dquote rest) = Some (s, rest).
Proof.
  induction s as [|c s IH]; [reflexivity|].
  cbn [Json.escape]. rewrite append_assoc, scanstring_escape_char, IH.
  reflexivity.
Qed.

(** ** Values: what [scan_once] reads back from [dumps] *)

Lemma dumps_JArr (l : list Json.value) :
  Json.dumps (Json.JArr l) = "[" +:+ items_text l +:+ "]".
Proof. reflexivity. Qed.

Lemma dumps_JStr (s : string) :
  Json.dumps (Json.JStr s) = String Json.dquote (Json.escape s +:+ String Json.dquote "").
Proof. reflexivity. Qed.

Lemma scan_once_string (fuel : nat) (s rest : string) :
  Json.scan_once (S fuel) (String Json.dquote (Json.escape s +:+ String Json.dquote rest))
  = Json.Ok (Json.JStr s, rest).
Proof.
  cbn [Json.scan_once].
  change (Ascii.eqb Json.dquote Json.dquote) with true. cbn iota.
  rewrite scanstring_escape. reflexivity.
Qed.

Lemma array_items_eq (fuel : nat) (s : string) :
  Json.array_items (S fuel) s
  = Json.bind (Json.scan_once fuel s) (fun '(v, r1) =>
      match Json.skip_ws r1 with
      | EmptyString => Json.Invalid
      | String c r2 =>
          if Ascii.eqb c "]" then Json.Ok ([v], r2)
          else if Ascii.eqb c "," then
            Json.bind (Json.array_items fuel (Json.skip_ws r2))
                 (fun '(items, r3) => Json.Ok (v :: items, r3))
          else Json.Invalid
      end).
Proof. reflexivity. Qed.

Ltac is_closed_char c :=
  match c with
  | Ascii ?a ?b ?c ?d ?e ?f ?g ?h => idtac
  | Json.dquote => idtac
  end.

Ltac eval_chars :=
  repeat match goal with
  | |- context [Json.is_ws ?c] =>
      is_closed_char c;
      let b := eval vm_compute in (Json.is_ws c) in
      change (Json.is_ws c) with b; cbn iota
  | |- context [Ascii.eqb ?c ?d] =>
      is_closed_char c; is_closed_char d;
      let b := eval vm_compute in (Ascii.eqb c d) in
      change (Ascii.eqb c d) with b; cbn iota
  end.


Lemma items_text_head (x : string) (l : list string) :
  ∃ t, items_text (Json.JStr <$> x :: l) = String Json.dquote t.
Proof.
  destruct l as [|y l]; eexists.
  - cbn [fmap list_fmap items_text]. rewrite dumps_JStr. reflexivity.
  - change (items_text (Json.JStr <$> x :: y :: l))
      with (Json.dumps (Json.JStr x) +:+ ", " +:+ items_text (Json.JStr <$> y :: l)).
    rewrite dumps_JStr. str_norm. reflexivity.
Qed.

Lemma array_items_strings (l : list string) (fuel : nat) (rest : string) :
  l ≠ [] → length l < fuel →
  Json.array_items fuel (items_text (Json.JStr <$> l) +:+ String "]" rest)
  = Json.Ok (Json.JStr <$> l, rest).
Proof.
  revert fuel. induction l as [|x l IH]; intros fuel Hne Hlen; [done|].
  destruct fuel as [|fuel]; [simpl in Hlen; lia|].
  destruct fuel as [|fuel]; [simpl in Hlen; lia|].
  destruct l as [|y l].
  - cbn [fmap list_fmap items_text]. rewrite dumps_JStr. str_norm.
    rewrite array_items_eq, scan_once_string. reflexivity.
  - change (items_text (Json.JStr <$> x :: y :: l))
      with (Json.dumps (Json.JStr x) +:+ ", " +:+ items_text (Json.JStr <$> y :: l)).
    rewrite dumps_JStr. str_norm. rewrite array_items_eq.
    rewrite scan_once_string.
    cbn [Json.bind Json.skip_ws]. eval_chars.
    destruct (items_text_head y l) as [t Ht].
    rewrite Ht at 1. str_norm. cbn [Json.skip_ws]. eval_chars.
    rewrite <- append_cons, <- Ht.
    rewrite IH; [reflexivity|done|simpl in *; lia].
Qed.

Lemma scan_once_eq (fuel : nat) (c : ascii) (rest : string) :
  Json.scan_once (S fuel) (String c rest)
  = if Ascii.eqb c Json.dquote then
      Json.bind (Json.of_option (Json.scanstring rest)) (fun '(str, r) => Json.Ok (Json.JStr str, r))
    else if Ascii.eqb c "{" then
      match Json.skip_ws rest with
      | EmptyString => Json.Invalid
      | String c1 rest1 =>
          if Ascii.eqb c1 "}" then Json.Ok (Json.JObj [], rest1)
          else if Ascii.eqb c1 Json.dquote then
            Json.bind (Json.object_members fuel rest1)
                 (fun '(pairs, r) => Json.Ok (Json.JObj (Json.dict_of_pairs pairs), r))
          else Json.Invalid
      end
    else if Ascii.eqb c "[" then
      match Json.skip_ws rest with
      | EmptyString => Json.Invalid
      | String c1 rest1 =>
          if Ascii.eqb c1 "]" then Json.Ok (Json.JArr [], rest1)
          else Json.bind (Json.array_items fuel (String c1 rest1))
                    (fun '(items, r) => Json.Ok (Json.JArr items, r))
      end
    else Json.of_option (Json.scan_scalar (String c rest)).
Proof. reflexivity. Qed.

Lemma scan_once_strings (l : list string) (fuel : nat) (rest : string) :
  length l < fuel →
  Json.scan_once (S fuel) (String "[" (items_text (Json.JStr <$> l) +:+ String "]" rest))
  = Json.Ok (Json.JArr (Json.JStr <$> l), rest).
Proof.
  intros Hlen. rewrite scan_once_eq. eval_chars.
  destruct l as [|x l].
  - cbn [fmap list_fmap items_text]. str_norm. cbn [Json.skip_ws]. eval_chars.
    reflexivity.
  - destruct (items_text_head x l) as [t Ht].
    rewrite Ht at 1. str_norm. cbn [Json.skip_ws]. eval_chars.
    rewrite <- append_cons, <- Ht.
    rewrite array_items_strings; [reflexivity|done|done].
Qed.

Lemma object_members_eq (fuel : nat) (s : string) :
  Json.object_members (S fuel) s
  = Json.bind (Json.of_option (Json.scanstring s)) (fun '(key, r1) =>
      match Json.skip_ws r1 with
      | EmptyString => Json.Invalid
      | String c r2 =>
          if Ascii.eqb c ":" then
            Json.bind (Json.scan_once fuel (Json.skip_ws r2)) (fun '(v, r3) =>
            match Json.skip_ws r3 with
            | EmptyString => Json.Invalid
            | String c' r4 =>
                if Ascii.eqb c' "}" then Json.Ok ([(key, v)], r4)
                else if Ascii.eqb c' "," then
                  match Json.skip_ws r4 with
                  | EmptyString => Json.Invalid
                  | String q r5 =>
                      if Ascii.eqb q Json.dquote then
                        Json.bind (Json.object_members fuel r5)
                             (fun '(pairs, r6) => Json.Ok ((key, v) :: pairs, r6))
                      else Json.Invalid
                  end
                else Json.Invalid
            end)
          else Json.Invalid
      end).
Proof. reflexivity. Qed.


(** A key or a tag without a character to escape is written as it is. *)
Lemma scanstring_plain (k rest : string) :
  Json.escape k = k →
  Json.scanstring (k +:+ String Json.dquote rest) = Some (k, rest).
Proof. intros Hk. rewrite <- Hk at 1. apply scanstring_escape. Qed.

Lemma scan_once_plain (fuel : nat) (k rest : string) :
  Json.escape k = k →
  Json.scan_once (S fuel) (String Json.dquote (k +:+ String Json.dquote rest))
  = Json.Ok (Json.JStr k, rest).
Proof. intros Hk. rewrite <- Hk at 1. apply scan_once_string. Qed.

Lemma dumps_JObj4 (k1 k2 k3 k4 : string) (v1 v2 v3 v4 : Json.value) :
  Json.dumps (Json.JObj [(k1, v1); (k2, v2); (k3, v3); (k4, v4)])
  = "{" +:+ (Json.encode_string k1 +:+ ": " +:+ Json.dumps v1 +:+ ", "
        +:+ Json.encode_string k2 +:+ ": " +:+ Json.dumps v2 +:+ ", "
        +:+ Json.encode_string k3 +:+ ": " +:+ Json.dumps v3 +:+ ", "
        +:+ Json.encode_string k4 +:+ ": " +:+ Json.dumps v4) +:+ "}".
Proof. reflexivity. Qed.

Lemma entity_line_text (e : Entity) (trail : string) :
  entity_line e +:+ trail =
  String "{" (String Json.dquote ("type" +:+ String Json.dquote (": " +:+
  String Json.dquote ("entity" +:+ String Json.dquote (", " +:+
  String Json.dquote ("name" +:+ String Json.dquote (": " +:+
  String Json.dquote (Json.escape (name e) +:+ String Json.dquote (", " +:+
  String Json.dquote ("entityType" +:+ String Json.dquote (": " +:+
  String Json.dquote (Json.escape (entityType e) +:+ String Json.dquote (", " +:+
  String Json.dquote ("observations" +:+ String Json.dquote (": " +:+
  String "[" (items_text (Json.JStr <$> observations e) +:+
  String "]" (String "}" trail))))))))))))))))).
Proof.
  unfold entity_line.
  change (tagged "entity" (Entity_dict e)) with
   [("type", Json.JStr "entity"); ("name", Json.JStr (name e));
    ("entityType", Json.JStr (entityType e));
    ("observations", Json.JArr (Json.JStr <$> observations e))].
  rewrite dumps_JObj4, !dumps_JStr, dumps_JArr. unfold Json.encode_string.
  str_norm. reflexivity.
Qed.

Lemma relation_line_text (r : Relation) (trail : string) :
  relation_line r +:+ trail =
  String "{" (String Json.dquote ("type" +:+ String Json.dquote (": " +:+
  String Json.dquote ("relation" +:+ String Json.dquote (", " +:+
  String Json.dquote ("from" +:+ String Json.dquote (": " +:+
  String Json.dquote (Json.escape (from_ r) +:+ String Json.dquote (", " +:+
  String Json.dquote ("to" +:+ String Json.dquote (": " +:+
  String Json.dquote (Json.escape (to r) +:+ String Json.dquote (", " +:+
  String Json.dquote ("relationType" +:+ String Json.dquote (": " +:+
  String Json.dquote (Json.escape (relationType r) +:+ String Json.dquote
  (String "}" trail))))))))))))))))).
Proof.
  unfold relation_line.
  change (tagged "relation" (Relation_dict r)) with
   [("type", Json.JStr "relation"); ("from", Json.JStr (from_ r));
    ("to", Json.JStr (to r));
    ("relationType", Json.JStr (relationType r))].
  rewrite dumps_JObj4, !dumps_JStr. unfold Json.encode_string.
  str_norm. reflexivity.
Qed.

(** One member of an object whose key is plain: the key, the colon and
    the white space up to the value. *)
Ltac sep_norm :=
  repeat match goal with
  | |- context [": " +:+ ?x] => change (": " +:+ x) with (String ":" (String " " x))
  | |- context [", " +:+ ?x] => change (", " +:+ x) with (String "," (String " " x))
  end.

Ltac member_key k :=
  rewrite object_members_eq, (scanstring_plain k) by reflexivity;
  cbn [Json.of_option Json.bind]; sep_norm;
  cbn [Json.skip_ws]; eval_chars; cbn [Json.skip_ws]; eval_chars.

(** After a value: the comma, the white space and the quote of the next
    key, or the closing brace. *)
Ltac member_next :=
  cbn [Json.bind]; sep_norm;
  cbn [Json.skip_ws]; eval_chars; cbn [Json.skip_ws]; eval_chars;
  cbn [Json.skip_ws]; eval_chars.

Lemma scan_once_entity_line (e : Entity) (fuel : nat) (trail : string) :
  length (observations e) + 6 < fuel →
  Json.scan_once fuel (entity_line e +:+ trail)
  = Json.Ok (Json.JObj (tagged "entity" (Entity_dict e)), trail).
Proof.
  intros Hfuel. rewrite entity_line_text.
  do 6 (destruct fuel as [|fuel]; [lia|]).
  rewrite scan_once_eq. eval_chars. cbn [Json.skip_ws]. eval_chars.
  member_key "type". rewrite scan_once_plain by reflexivity. member_next.
  member_key "name". rewrite scan_once_string. member_next.
  member_key "entityType". rewrite scan_once_string. member_next.
  member_key "observations". rewrite scan_once_strings by lia. member_next.
  reflexivity.
Qed.

Lemma scan_once_relation_line (r : Relation) (fuel : nat) (trail : string) :
  5 < fuel →
  Json.scan_once fuel (relation_line r +:+ trail)
  = Json.Ok (Json.JObj (tagged "relation" (Relation_dict r)), trail).
Proof.
  intros Hfuel. rewrite relation_line_text.
  do 6 (destruct fuel as [|fuel]; [lia|]).
  rewrite scan_once_eq. eval_chars. cbn [Json.skip_ws]. eval_chars.
  member_key "type". rewrite scan_once_plain by reflexivity. member_next.
  member_key "from". rewrite scan_once_string. member_next.
  member_key "to". rewrite scan_once_string. member_next.
  member_key "relationType". rewrite scan_once_string. member_next.
  reflexivity.
Qed.

Lemma length_items_text (l : list string) :
  length l ≤ String.length (items_text (Json.JStr <$> l)).
Proof.
  induction l as [|x l IH]; [done|].
  destruct l as [|y l].
  - cbn [fmap list_fmap items_text]. rewrite dumps_JStr. simpl. lia.
  - change (items_text (Json.JStr <$> x :: y :: l))
      with (Json.dumps (Json.JStr x) +:+ ", " +:+ items_text (Json.JStr <$> y :: l)).
    rewrite dumps_JStr, !length_append. simpl in *. lia.
Qed.

Lemma mapM_as_str (l : list string) : mapM as_str (Json.JStr <$> l) = Some l.
Proof.
  induction l as [|x l IH]; [reflexivity|].
  cbn. rewrite IH. reflexivity.
Qed.

Lemma Entity_of_fields_dict (e : Entity) :
  Entity_of_fields (without_type (tagged "entity" (Entity_dict e))) = Some e.
Proof.
  destruct e as [n t o].
  change (without_type (tagged "entity" (Entity_dict (mkEntity n t o))))
    with (Entity_dict (mkEntity n t o)).
  unfold Entity_of_fields. cbn. rewrite mapM_as_str. reflexivity.
Qed.

Lemma Relation_of_fields_dict (r : Relation) :
  Relation_of_fields (without_type (tagged "relation" (Relation_dict r))) = Some r.
Proof. destruct r as [f t ty]. reflexivity. Qed.

Lemma loads_entity_line (e : Entity) (trail : string) :
  Json.skip_ws trail = "" →
  Json.loads (entity_line e +:+ trail)
  = Some (Json.JObj (tagged "entity" (Entity_dict e))).
Proof.
  intros Htrail. unfold Json.loads, Json.decode.
  assert (Hws : Json.skip_ws (entity_line e +:+ trail) = entity_line e +:+ trail).
  { rewrite entity_line_text. reflexivity. }
  rewrite Hws, scan_once_entity_line.
  - cbn [Json.bind]. rewrite Htrail. reflexivity.
  - unfold Json.decode_fuel. rewrite entity_line_text.
    pose proof (length_items_text (observations e)) as Hlen.
    repeat first [rewrite length_append | progress cbn [String.length]].
    lia.
Qed.

Lemma loads_relation_line (r : Relation) (trail : string) :
  Json.skip_ws trail = "" →
  Json.loads (relation_line r +:+ trail)
  = Some (Json.JObj (tagged "relation" (Relation_dict r))).
Proof.
  intros Htrail. unfold Json.loads, Json.decode.
  assert (Hws : Json.skip_ws (relation_line r +:+ trail) = relation_line r +:+ trail).
  { rewrite relation_line_text. reflexivity. }
  rewrite Hws, scan_once_relation_line.
  - cbn [Json.bind]. rewrite Htrail. reflexivity.
  - unfold Json.decode_fuel. rewrite relation_line_text.
    repeat first [rewrite length_append | progress cbn [String.length]].
    lia.
Qed.

(** ** Lines: what a reader gets back from the text of a graph *)

Lemma printable_app (s t : string) :
  printable (s +:+ t) = printable s && printable t.
Proof.
  induction s as [|c s IH]; [reflexivity|].
  rewrite append_cons. cbn [printable]. rewrite IH, andb_assoc. reflexivity.
Qed.

Lemma printable_escape_char (c : ascii) : printable (Json.escape_char c) = true.
Proof. destruct c as [[] [] [] [] [] [] [] []]; reflexivity. Qed.

Lemma printable_escape (s : string) : printable (Json.escape s) = true.
Proof.
  induction s as [|c s IH]; [reflexivity|].
  cbn [Json.escape]. rewrite printable_app, printable_escape_char, IH. reflexivity.
Qed.

Lemma printable_items_text (l : list string) :
  printable (items_text (Json.JStr <$> l)) = true.
Proof.
  induction l as [|x l IH]; [reflexivity|].
  destruct l as [|y l].
  - cbn [fmap list_fmap items_text]. rewrite dumps_JStr. cbn [printable].
    rewrite printable_app, printable_escape. reflexivity.
  - change (items_text (Json.JStr <$> x :: y :: l))
      with (Json.dumps (Json.JStr x) +:+ ", " +:+ items_text (Json.JStr <$> y :: l)).
    rewrite dumps_JStr, !printable_app, IH. cbn [printable].
    rewrite printable_app, printable_escape. reflexivity.
Qed.

Lemma printable_entity_line (e : Entity) : printable (entity_line e) = true.
Proof.
  rewrite <- (append_nil_r (entity_line e)), entity_line_text.
  repeat first [ rewrite printable_app | rewrite printable_escape
               | rewrite printable_items_text | progress cbn [printable andb] ].
  reflexivity.
Qed.

Lemma printable_relation_line (r : Relation) : printable (relation_line r) = true.
Proof.
  rewrite <- (append_nil_r (relation_line r)), relation_line_text.
  repeat first [ rewrite printable_app | rewrite printable_escape
               | progress cbn [printable andb] ].
  reflexivity.
Qed.

(** A printable character is no line ending and no white space. *)
Lemma printable_char (c : ascii) :
  ((32 <=? PyStr.ord c) && (PyStr.ord c <=? 126))%N = true →
  Ascii.eqb c "010" = false ∧ Ascii.eqb c "013" = false.
Proof. destruct c as [[] [] [] [] [] [] [] []]; intros H; try done. Qed.

Lemma iter_lines_printable_nl (l rest : string) :
  printable l = true →
  PyStr.iter_lines (l +:+ String "010" rest)
  = (l +:+ String "010" "") :: PyStr.iter_lines rest.
Proof.
  induction l as [|c l IH]; intros Hp; [reflexivity|].
  cbn [printable] in Hp. apply andb_true_iff in Hp as [Hc Hl].
  destruct (printable_char c Hc) as [Hn Hr].
  rewrite !append_cons. cbn [PyStr.iter_lines]. rewrite Hn, Hr, (IH Hl).
  reflexivity.
Qed.

Lemma iter_lines_printable_last (l : string) :
  printable l = true → l ≠ "" → PyStr.iter_lines l = [l].
Proof.
  induction l as [|c l IH]; intros Hp Hne; [done|].
  cbn [printable] in Hp. apply andb_true_iff in Hp as [Hc Hl].
  destruct (printable_char c Hc) as [Hn Hr].
  cbn [PyStr.iter_lines]. rewrite Hn, Hr.
  destruct l as [|c' l]; [reflexivity|].
  rewrite (IH Hl); done.
Qed.

Lemma iter_lines_join (lines : list string) :
  Forall (λ l, printable l = true ∧ l ≠ "") lines →
  PyStr.iter_lines (PyStr.join_lines lines) = with_endings lines.
Proof.
  induction 1 as [|l ls [Hp Hne] Hls IH]; [reflexivity|].
  destruct ls as [|l' ls].
  - cbn [PyStr.join_lines with_endings]. by apply iter_lines_printable_last.
  - change (PyStr.join_lines (l :: l' :: ls))
      with (l +:+ String "010" (PyStr.join_lines (l' :: ls))).
    rewrite iter_lines_printable_nl, IH by done. reflexivity.
Qed.

(** Each line read is a line written, with or without its ending. *)
Lemma with_endings_Forall2 (lines : list string) :
  Forall2 ends lines (with_endings lines).
Proof.
  induction lines as [|l ls IH]; [constructor|].
  destruct ls as [|l' ls].
  - repeat constructor. exists "". by rewrite append_nil_r.
  - constructor; [|exact IH]. by exists (String "010" "").
Qed.

(** A line that starts with a brace is not blank. *)
Lemma truthy_strip_brace (s : string) :
  PyStr.truthy (PyStr.strip (String "{" s)) = true.
Proof.
  unfold PyStr.strip. cbn [PyStr.lstrip].
  change (PyStr.isspace "{") with false. cbn iota.
  cbn [PyStr.rstrip]. change (PyStr.isspace "{") with false.
  destruct (PyStr.rstrip s); reflexivity.
Qed.


Lemma load_lines_relations (rs : list Relation) (lines : list string)
    (ents : list Entity) (rels : list Relation) :
  Forall2 ends (relation_line <$> rs) lines →
  load_lines lines ents rels = inr (mkGraph ents (rels ++ rs)).
Proof.
  revert lines rels. induction rs as [|r rs IH]; intros lines rels HF.
  - apply Forall2_nil_inv_l in HF as ->. by rewrite app_nil_r.
  - rewrite fmap_cons in HF.
    apply Forall2_cons_inv_l in HF as (line & lines' & (trail & Hws & ->) & HF & ->).
    cbn [load_lines]. rewrite loads_relation_line by done.
    change (type_is "entity" (tagged "relation" (Relation_dict r))) with false.
    change (type_is "relation" (tagged "relation" (Relation_dict r))) with true.
    cbn iota. rewrite Relation_of_fields_dict, (IH _ _ HF), <- app_assoc.
    reflexivity.
Qed.

Lemma load_lines_entities (es : list Entity) (rs : list Relation)
    (lines : list string) (ents : list Entity) (rels : list Relation) :
  Forall2 ends ((entity_line <$> es) ++ (relation_line <$> rs)) lines →
  load_lines lines ents rels = inr (mkGraph (ents ++ es) (rels ++ rs)).
Proof.
  revert lines ents. induction es as [|e es IH]; intros lines ents HF.
  - rewrite app_nil_r. by apply load_lines_relations.
  - rewrite fmap_cons, <- app_comm_cons in HF.
    apply Forall2_cons_inv_l in HF as (line & lines' & (trail & Hws & ->) & HF & ->).
    cbn [load_lines]. rewrite loads_entity_line by done.
    change (type_is "entity" (tagged "entity" (Entity_dict e))) with true.
    cbn iota. rewrite Entity_of_fields_dict, (IH _ _ HF), <- app_assoc.
    reflexivity.
Qed.

Lemma entity_line_brace (e : Entity) : ∃ s, entity_line e = String "{" s.
Proof.
  eexists. rewrite <- (append_nil_r (entity_line e)), entity_line_text.
  reflexivity.
Qed.

Lemma relation_line_brace (r : Relation) : ∃ s, relation_line r = String "{" s.
Proof.
  eexists. rewrite <- (append_nil_r (relation_line r)), relation_line_text.
  reflexivity.
Qed.

(** The lines of a graph: printable, and each starts with a brace. *)
Lemma graph_lines_shape (g : KnowledgeGraph) :
  Forall (λ l, printable l = true ∧ ∃ s, l = String "{" s)
         ((entity_line <$> entities g) ++ (relation_line <$> relations g)).
Proof.
  apply Forall_app. split; apply Forall_fmap, Forall_forall; intros x _; cbn.
  - split; [apply printable_entity_line|apply entity_line_brace].
  - split; [apply printable_relation_line|apply relation_line_brace].
Qed.

Lemma nonblank_lines_graph_text (g : KnowledgeGraph) :
  nonblank_lines (graph_text g)
  = with_endings ((entity_line <$> entities g) ++ (relation_line <$> relations g)).
Proof.
  unfold nonblank_lines, graph_text.
  pose proof (graph_lines_shape g) as Hshape.
  set (lines := (entity_line <$> entities g) ++ (relation_line <$> relations g)) in *.
  rewrite iter_lines_join.
  2:{ eapply Forall_impl; [exact Hshape|]. intros l [Hp [s ->]]. done. }
  pose proof (with_endings_Forall2 lines) as HF.
  revert HF Hshape. generalize (with_endings lines) as lines'.
  induction lines as [|l ls IH]; intros lines' HF Hshape.
  - by apply Forall2_nil_inv_l in HF as ->.
  - apply Forall2_cons_inv_l in HF as (l' & ls' & (trail & _ & ->) & HF & ->).
    apply Forall_cons in Hshape as [[_ [s ->]] Hshape].
    rewrite filter_cons_True by (rewrite append_cons; apply truthy_strip_brace).
    f_equal. by apply IH.
Qed.

(** What [read_graph_file] finds in a file that [save_graph] wrote. *)
Lemma load_lines_graph_text (g : KnowledgeGraph) :
  load_lines (nonblank_lines (graph_text g)) [] [] = inr g.
Proof.
  rewrite nonblank_lines_graph_text.
  rewrite (load_lines_entities (entities g) (relations g)).
  - by destruct g.
  - apply with_endings_Forall2.
Qed.

(** ** Files: reading and writing a graph *)

Lemma io_bind_eq {A B : Type} (m : io A) (k : A → io B) (fs : files) :
  (m ≫= k) fs
  = match m fs with
    | (inl e, fs') => (inl e, fs')
    | (inr a, fs') => k a fs'
    end.
Proof. reflexivity. Qed.

Lemma read_graph_file_lookup (file_path : string) (fs : files) :
  read_graph_file file_path fs
  = match fs !! file_path with
    | None => (inr (mkGraph [] []), fs)
    | Some content => (load_lines (nonblank_lines content) [] [], fs)
    end.
Proof.
  unfold read_graph_file. rewrite io_bind_eq. unfold path_exists.
  destruct (fs !! file_path) as [content|] eqn:Hlook.
  - rewrite bool_decide_eq_true_2 by eauto. cbn [negb].
    rewrite io_bind_eq. unfold read_text. rewrite Hlook. reflexivity.
  - rewrite bool_decide_eq_false_2 by (intros [? ?]; done). reflexivity.
Qed.

(** Reading a graph leaves every file as it is. *)
Lemma read_graph_file_files (file_path : string) (fs : files) :
  (read_graph_file file_path fs).2 = fs.
Proof. rewrite read_graph_file_lookup. by destruct (fs !! file_path). Qed.

Lemma read_graph_file_pair (file_path : string) (fs : files) :
  read_graph_file file_path fs = ((read_graph_file file_path fs).1, fs).
Proof.
  rewrite <- (read_graph_file_files file_path fs) at 3.
  by destruct (read_graph_file file_path fs).
Qed.

Lemma save_graph_eq (graph : KnowledgeGraph) (file_path : string) (fs : files) :
  save_graph graph file_path fs = (inr (), <[file_path := graph_text graph]> fs).
Proof. reflexivity. Qed.

(** The graph read from a file is the graph last saved to it. *)
Lemma read_graph_file_saved (graph : KnowledgeGraph) (file_path : string) (fs : files) :
  read_graph_file file_path (<[file_path := graph_text graph]> fs)
  = (inr graph, <[file_path := graph_text graph]> fs).
Proof.
  rewrite read_graph_file_lookup, lookup_insert_eq, load_lines_graph_text.
  reflexivity.
Qed.

(** A file other than the one written reads as before. *)
Lemma read_graph_file_other (file_path other content : string) (fs : files) :
  file_path ≠ other →
  (read_graph_file other (<[file_path := content]> fs)).1
  = (read_graph_file other fs).1.
Proof.
  intros Hne. rewrite !read_graph_file_lookup, lookup_insert_ne by done.
  by destruct (fs !! other).
Qed.

Lemma run_loaded {A : Type} (file_path : string) (k : KnowledgeGraph → io A)
    (fs : files) (g : KnowledgeGraph) :
  (read_graph_file file_path fs).1 = inr g →
  (read_graph_file file_path ≫= k) fs = k g fs.
Proof.
  intros Hg. rewrite io_bind_eq, read_graph_file_pair, Hg. reflexivity.
Qed.

Lemma run_failed {A : Type} (file_path : string) (k : KnowledgeGraph → io A)
    (fs : files) (e : exn) :
  (read_graph_file file_path fs).1 = inl e →
  (read_graph_file file_path ≫= k) fs = (inl e, fs).
Proof.
  intros Hg. rewrite io_bind_eq, read_graph_file_pair, Hg. reflexivity.
Qed.

(** ** Persistence *)

Section ReadOperations.

Context (sha256_hexdigest : string → string) (DATA_DIR : string).

(** C10. The three read operations never modify the files: whatever
    the files hold, and whether the load succeeds or raises, every file,
    of the user and of every other user, is after the call what it was
    before. *)
Theorem read_operations_leave_files (fs : files) :
  (∀ user_id, (read_graph sha256_hexdigest DATA_DIR user_id fs).2 = fs)
  ∧ (∀ req, (search_nodes sha256_hexdigest DATA_DIR req fs).2 = fs)
  ∧ (∀ req, (open_nodes sha256_hexdigest DATA_DIR req fs).2 = fs).
Proof.
  split; [|split].
  - intros user_id. apply read_graph_file_files.
  - intros req. unfold search_nodes.
    destruct (read_graph_file
                (get_memory_file_path sha256_hexdigest DATA_DIR
                   (SearchNodesRequest.user_id req)) fs).1 as [e|g] eqn:Hg.
    + by rewrite (run_failed _ _ _ _ Hg).
    + by rewrite (run_loaded _ _ _ _ Hg).
  - intros req. unfold open_nodes.
    destruct (read_graph_file
                (get_memory_file_path sha256_hexdigest DATA_DIR
                   (OpenNodesRequest.user_id req)) fs).1 as [e|g] eqn:Hg.
    + by rewrite (run_failed _ _ _ _ Hg).
    + by rewrite (run_loaded _ _ _ _ Hg).
Qed.

End ReadOperations.

(** ** Observations *)

Lemma find_entity_None (n : string) (ents : list Entity) :
  find_entity n ents = None ↔ n ∉ (name <$> ents).
Proof.
  unfold find_entity. rewrite list_find_None, Forall_forall.
  rewrite list_elem_of_fmap. split.
  - intros H (e & -> & He). by apply (H e).
  - intros H e He Hn. apply H. by exists e.
Qed.

Lemma find_entity_Some (n : string) (ents : list Entity) (i : nat) (e : Entity) :
  find_entity n ents = Some (i, e) → ents !! i = Some e ∧ name e = n.
Proof. unfold find_entity. intros H. by apply list_find_Some in H as (? & ? & _). Qed.

(** Replacing an entity by one of the same name leaves the names. *)
Lemma names_insert (ents : list Entity) (i : nat) (e e' : Entity) :
  ents !! i = Some e → name e' = name e →
  name <$> <[i := e']> ents = name <$> ents.
Proof.
  intros Hi Hn. rewrite list_fmap_insert, Hn.
  apply list_insert_id. by rewrite list_lookup_fmap, Hi.
Qed.

(** The loop of [add_observations] raises at the first item whose entity
    is missing, whatever it did for the items before. *)
Lemma add_observations_loop_missing (items : list ObservationItem.t)
    (graph : KnowledgeGraph) (results : list AddedObservations) :
  (∃ item, item ∈ items ∧ ObservationItem.entityName item ∉ (name <$> entities graph)) →
  ∃ before item after,
    items = before ++ item :: after
    ∧ Forall (λ it, ObservationItem.entityName it ∈ (name <$> entities graph)) before
    ∧ (ObservationItem.entityName item ∉ (name <$> entities graph))
    ∧ add_observations_loop items graph results
      = inl (HTTPException 404
               ("Entity " +:+ ObservationItem.entityName item +:+ " not found")).
Proof.
  revert graph results. induction items as [|obs items IH]; intros graph results.
  - intros (item & Hin & _). by apply elem_of_nil in Hin.
  - intros (item & Hin & Hmiss). cbn [add_observations_loop].
    destruct (find_entity (ObservationItem.entityName obs) (entities graph))
      as [[i entity]|] eqn:Hfind.
    + apply find_entity_Some in Hfind as [Hi Hname].
      set (entity' := mkEntity _ _ _).
      assert (Hnames : name <$> <[i := entity']> (entities graph)
                       = name <$> entities graph)
        by (by apply (names_insert _ _ entity)).
      apply elem_of_cons in Hin as [->|Hin].
      { exfalso. apply Hmiss. rewrite <- Hname.
        apply list_elem_of_fmap. exists entity. split; [done|].
        by apply list_elem_of_lookup_2 in Hi. }
      destruct (IH (mkGraph (<[i := entity']> (entities graph)) (relations graph))
                   (results ++ [mkAdded (ObservationItem.entityName obs)
                                  (filter (λ c, c ∉ observations entity)
                                          (ObservationItem.contents obs))]))
        as (before & it & after & -> & Hbefore & Hit & Hloop).
      { exists item. cbn [entities]. by rewrite Hnames. }
      cbn [entities] in Hbefore, Hit. rewrite Hnames in Hbefore, Hit.
      exists (obs :: before), it, after. split; [done|]. split; [|done].
      constructor; [|done]. rewrite <- Hname.
      apply list_elem_of_fmap. exists entity. split; [done|].
      by apply list_elem_of_lookup_2 in Hi.
    + apply find_entity_None in Hfind.
      exists [], obs, items. done.
Qed.

Section AddObservations.

Context (sha256_hexdigest : string → string) (DATA_DIR : string).

Local Abbreviation path_of := (get_memory_file_path sha256_hexdigest DATA_DIR).

(** C2. When an item of the batch names an entity that the stored graph
    does not have, [add_observations] raises the 404 exception for the
    first such name, and every file is what it was before the call:
    what the items before it did to the graph in memory is not saved. *)
Theorem add_observations_missing_entity
    (req : AddObservationsRequest.t) (fs : files) (graph : KnowledgeGraph)
    (item : ObservationItem.t) :
  (read_graph_file (path_of (AddObservationsRequest.user_id req)) fs).1 = inr graph →
  item ∈ AddObservationsRequest.observations req →
  ObservationItem.entityName item ∉ (name <$> entities graph) →
  ∃ before missing after,
    AddObservationsRequest.observations req = before ++ missing :: after
    ∧ Forall (λ it, ObservationItem.entityName it ∈ (name <$> entities graph)) before
    ∧ (ObservationItem.entityName missing ∉ (name <$> entities graph))
    ∧ add_observations sha256_hexdigest DATA_DIR req fs
      = (inl (HTTPException 404
                ("Entity " +:+ ObservationItem.entityName missing +:+ " not found")),
         fs).
Proof.
  intros Hload Hin Hmiss.
  destruct (add_observations_loop_missing
              (AddObservationsRequest.observations req) graph [])
    as (before & missing & after & Hsplit & Hbefore & Hmissing & Hloop).
  { by exists item. }
  exists before, missing, after. repeat split; try done.
  unfold add_observations.
  rewrite (run_loaded _ _ _ _ Hload), io_bind_eq. unfold lift.
  rewrite Hloop. reflexivity.
Qed.

End AddObservations.

Lemma add_observations_missing_entity_witness :
  ∃ before missing after,
    [ObservationItem.mk "Alice" ["x"]; ObservationItem.mk "Carol" ["y"]]
    = before ++ missing :: after
    ∧ Forall (λ it, ObservationItem.entityName it ∈ (name <$> [alice])) before
    ∧ (ObservationItem.entityName missing ∉ (name <$> [alice]))
    ∧ add_observations demo_digest demo_dir
        (AddObservationsRequest.mk "u1"
           [ObservationItem.mk "Alice" ["x"]; ObservationItem.mk "Carol" ["y"]])
        demo_files
      = (inl (HTTPException 404
                ("Entity " +:+ ObservationItem.entityName missing +:+ " not found")),
         demo_files).
Proof.
  apply (add_observations_missing_entity demo_digest demo_dir
           (AddObservationsRequest.mk "u1"
              [ObservationItem.mk "Alice" ["x"]; ObservationItem.mk "Carol" ["y"]])
           demo_files (mkGraph [alice] []) (ObservationItem.mk "Carol" ["y"])).
  - vm_compute. reflexivity.
  - apply (bool_decide_unpack _). vm_compute. exact I.
  - apply (bool_decide_unpack _). vm_compute. exact I.
Defined.

(** ** The mutating endpoints, once the graph is loaded *)

Section Mutations.

Context (sha256_hexdigest : string → string) (DATA_DIR : string).

Local Abbreviation path_of := (get_memory_file_path sha256_hexdigest DATA_DIR).

Lemma create_entities_loaded (req : CreateEntitiesRequest.t) (fs : files)
    (graph : KnowledgeGraph) :
  (read_graph_file (path_of (CreateEntitiesRequest.user_id req)) fs).1 = inr graph →
  let new_entities :=
    filter (λ e, name e ∉ (name <$> entities graph)) (CreateEntitiesRequest.entities req) in
  create_entities sha256_hexdigest DATA_DIR req fs
  = (inr new_entities,
     <[path_of (CreateEntitiesRequest.user_id req) :=
         graph_text (mkGraph (entities graph ++ new_entities) (relations graph))]> fs).
Proof.
  intros Hload new_entities. unfold create_entities.
  rewrite (run_loaded _ _ _ _ Hload).
  assert (Hnew : filter (λ e, name e ∉ (list_to_set (name <$> entities graph) : gset string))
                        (CreateEntitiesRequest.entities req) = new_entities).
  { apply list_filter_iff. intros e. by rewrite elem_of_list_to_set. }
  rewrite Hnew. reflexivity.
Qed.

Lemma create_relations_loaded (req : CreateRelationsRequest.t) (fs : files)
    (graph : KnowledgeGraph) :
  (read_graph_file (path_of (CreateRelationsRequest.user_id req)) fs).1 = inr graph →
  let new :=
    filter (λ r, triple r ∉ (triple <$> relations graph)) (CreateRelationsRequest.relations req) in
  create_relations sha256_hexdigest DATA_DIR req fs
  = (inr new,
     <[path_of (CreateRelationsRequest.user_id req) :=
         graph_text (mkGraph (entities graph) (relations graph ++ new))]> fs).
Proof.
  intros Hload new. unfold create_relations.
  rewrite (run_loaded _ _ _ _ Hload).
  assert (Hnew : filter (λ r, triple r ∉ (list_to_set (triple <$> relations graph)
                                            : gset (string * string * string)))
                        (CreateRelationsRequest.relations req) = new).
  { apply list_filter_iff. intros e. by rewrite elem_of_list_to_set. }
  rewrite Hnew. reflexivity.
Qed.

Lemma add_observations_loaded (req : AddObservationsRequest.t) (fs : files)
    (graph graph' : KnowledgeGraph) (results : list AddedObservations) :
  (read_graph_file (path_of (AddObservationsRequest.user_id req)) fs).1 = inr graph →
  add_observations_loop (AddObservationsRequest.observations req) graph []
  = inr (graph', results) →
  add_observations sha256_hexdigest DATA_DIR req fs
  = (inr results,
     <[path_of (AddObservationsRequest.user_id req) := graph_text graph']> fs).
Proof.
  intros Hload Hloop. unfold add_observations.
  rewrite (run_loaded _ _ _ _ Hload), io_bind_eq. unfold lift.
  rewrite Hloop. reflexivity.
Qed.

Lemma delete_entities_loaded (req : DeleteEntitiesRequest.t) (fs : files)
    (graph : KnowledgeGraph) :
  (read_graph_file (path_of (DeleteEntitiesRequest.user_id req)) fs).1 = inr graph →
  let entityNames := DeleteEntitiesRequest.entityNames req in
  delete_entities sha256_hexdigest DATA_DIR req fs
  = (inr "Entities deleted successfully",
     <[path_of (DeleteEntitiesRequest.user_id req) :=
         graph_text
           (mkGraph (filter (λ e, name e ∉ entityNames) (entities graph))
              (filter (λ r, (from_ r ∉ entityNames) ∧ (to r ∉ entityNames))
                      (relations graph)))]> fs).
Proof.
  intros Hload entityNames. unfold delete_entities.
  rewrite (run_loaded _ _ _ _ Hload). reflexivity.
Qed.

Lemma delete_observations_loaded (req : DeleteObservationsRequest.t) (fs : files)
    (graph : KnowledgeGraph) :
  (read_graph_file (path_of (DeleteObservationsRequest.user_id req)) fs).1 = inr graph →
  delete_observations sha256_hexdigest DATA_DIR req fs
  = (inr "Observations deleted successfully",
     <[path_of (DeleteObservationsRequest.user_id req) :=
         graph_text
           (delete_observations_loop (DeleteObservationsRequest.deletions req) graph)]> fs).
Proof.
  intros Hload. unfold delete_observations.
  rewrite (run_loaded _ _ _ _ Hload). reflexivity.
Qed.

Lemma delete_relations_loaded (req : DeleteRelationsRequest.t) (fs : files)
    (graph : KnowledgeGraph) :
  (read_graph_file (path_of (DeleteRelationsRequest.user_id req)) fs).1 = inr graph →
  delete_relations sha256_hexdigest DATA_DIR req fs
  = (inr "Relations deleted successfully",
     <[path_of (DeleteRelationsRequest.user_id req) :=
         graph_text
           (mkGraph (entities graph)
              (filter (λ r, triple r ∉ (triple <$> DeleteRelationsRequest.relations req))
                      (relations graph)))]> fs).
Proof.
  intros Hload. unfold delete_relations.
  rewrite (run_loaded _ _ _ _ Hload).
  assert (Hkeep : filter (λ r, triple r ∉ (list_to_set (triple <$> DeleteRelationsRequest.relations req)
                                            : gset (string * string * string)))
                        (relations graph)
                  = filter (λ r, triple r ∉ (triple <$> DeleteRelationsRequest.relations req))
                           (relations graph)).
  { apply list_filter_iff. intros e. by rewrite elem_of_list_to_set. }
  rewrite Hkeep. reflexivity.
Qed.

End Mutations.

(** ** Deleting entities *)

Lemma filter_all {A : Type} (P : A → Prop) `{!∀ x, Decision (P x)} (l : list A) :
  Forall P l → filter P l = l.
Proof.
  induction 1 as [|x l Hx _ IH]; [done|].
  by rewrite filter_cons_True, IH.
Qed.

Lemma filter_none {A : Type} (P : A → Prop) `{!∀ x, Decision (P x)} (l : list A) :
  Forall (λ x, ¬ P x) l → filter P l = [].
Proof.
  induction 1 as [|x l Hx _ IH]; [done|].
  by rewrite filter_cons_False, IH.
Qed.

Section DeleteEntities.

Context (sha256_hexdigest : string → string) (DATA_DIR : string).

Local Abbreviation path_of := (get_memory_file_path sha256_hexdigest DATA_DIR).

(** C5. Once the graph is loaded, [delete_entities] does not raise,
    whatever the list of names, and the graph it stores has exactly the
    entities of the loaded graph whose name is not in the list and
    exactly its relations with neither end in the list, in their order;
    a graph that none of the names touches is stored as it was. *)
Theorem delete_entities_removes_named
    (req : DeleteEntitiesRequest.t) (fs : files) (graph : KnowledgeGraph) :
  (read_graph_file (path_of (DeleteEntitiesRequest.user_id req)) fs).1 = inr graph →
  ∃ graph',
    (delete_entities sha256_hexdigest DATA_DIR req fs).1
      = inr "Entities deleted successfully"
    ∧ (read_graph_file (path_of (DeleteEntitiesRequest.user_id req))
         (delete_entities sha256_hexdigest DATA_DIR req fs).2).1 = inr graph'
    ∧ (∀ e, e ∈ entities graph'
            ↔ e ∈ entities graph ∧ (name e ∉ DeleteEntitiesRequest.entityNames req))
    ∧ (∀ r, r ∈ relations graph'
            ↔ r ∈ relations graph
              ∧ (from_ r ∉ DeleteEntitiesRequest.entityNames req)
              ∧ (to r ∉ DeleteEntitiesRequest.entityNames req))
    ∧ entities graph' `sublist_of` entities graph
    ∧ relations graph' `sublist_of` relations graph
    ∧ ((∀ n, n ∈ DeleteEntitiesRequest.entityNames req →
             (n ∉ (name <$> entities graph))
             ∧ (n ∉ (from_ <$> relations graph))
             ∧ (n ∉ (to <$> relations graph))) →
       graph' = graph).
Proof.
  intros Hload. rewrite (delete_entities_loaded _ _ _ _ _ Hload).
  eexists. split; [reflexivity|]. split.
  { cbn [snd]. rewrite read_graph_file_saved. reflexivity. }
  cbn [entities relations].
  split; [intros e; rewrite list_elem_of_filter; tauto|].
  split.
  { intros r. rewrite list_elem_of_filter. tauto. }
  split; [apply sublist_filter|]. split; [apply sublist_filter|].
  intros Hnone. destruct graph as [ents rels]. cbn [entities relations] in *.
  f_equal.
  - apply filter_all, Forall_forall. intros e He Hn.
    destruct (Hnone _ Hn) as (Hname & _). apply Hname.
    apply list_elem_of_fmap. by exists e.
  - apply filter_all, Forall_forall. intros r Hr. split; intros Hn.
    + destruct (Hnone _ Hn) as (_ & Hfrom & _). apply Hfrom.
      apply list_elem_of_fmap. by exists r.
    + destruct (Hnone _ Hn) as (_ & _ & Hto). apply Hto.
      apply list_elem_of_fmap. by exists r.
Qed.

End DeleteEntities.

Lemma delete_entities_removes_named_witness :
  ∃ graph',
    (delete_entities demo_digest demo_dir
       (DeleteEntitiesRequest.mk "u1" ["Alice"; "Nobody"]) demo_files).1
      = inr "Entities deleted successfully"
    ∧ (read_graph_file (get_memory_file_path demo_digest demo_dir "u1")
         (delete_entities demo_digest demo_dir
            (DeleteEntitiesRequest.mk "u1" ["Alice"; "Nobody"]) demo_files).2).1
      = inr graph'
    ∧ (∀ e, e ∈ entities graph' ↔ e ∈ [alice] ∧ (name e ∉ ["Alice"; "Nobody"]))
    ∧ (∀ r, r ∈ relations graph'
            ↔ r ∈ [] ∧ (from_ r ∉ ["Alice"; "Nobody"]) ∧ (to r ∉ ["Alice"; "Nobody"]))
    ∧ entities graph' `sublist_of` [alice]
    ∧ relations graph' `sublist_of` []
    ∧ ((∀ n, n ∈ ["Alice"; "Nobody"] →
             (n ∉ (name <$> [alice])) ∧ (n ∉ (from_ <$> [])) ∧ (n ∉ (to <$> []))) →
       graph' = mkGraph [alice] []).
Proof.
  apply (delete_entities_removes_named demo_digest demo_dir
           (DeleteEntitiesRequest.mk "u1" ["Alice"; "Nobody"])
           demo_files (mkGraph [alice] [])).
  vm_compute. reflexivity.
Defined.

(** ** The invariant: what keeps it *)

Lemma NoDup_fmap_filter {A B : Type} (f : A → B) (P : A → Prop)
    `{!∀ x, Decision (P x)} (l : list A) :
  NoDup (f <$> l) → NoDup (f <$> filter P l).
Proof.
  intros Hl. eapply sublist_NoDup; [exact Hl|].
  apply fmap_sublist, sublist_filter.
Qed.

(** Adding the inputs that are not there yet keeps the keys distinct,
    when the inputs themselves have distinct keys. *)
Lemma NoDup_extend {A B : Type} `{!EqDecision B} (f : A → B) (l new : list A) :
  NoDup (f <$> l) → NoDup (f <$> new) →
  NoDup (f <$> (l ++ filter (λ x, f x ∉ (f <$> l)) new)).
Proof.
  intros Hl Hnew. rewrite fmap_app. apply NoDup_app. split; [done|]. split.
  - intros k Hk Hk'. apply list_elem_of_fmap in Hk' as (x & -> & Hx).
    apply list_elem_of_filter in Hx as [Hx _]. done.
  - by apply NoDup_fmap_filter.
Qed.

Lemma add_observations_loop_names (items : list ObservationItem.t)
    (graph graph' : KnowledgeGraph) (results results' : list AddedObservations) :
  add_observations_loop items graph results = inr (graph', results') →
  name <$> entities graph' = name <$> entities graph
  ∧ relations graph' = relations graph.
Proof.
  revert graph results. induction items as [|obs items IH]; intros graph results.
  - cbn [add_observations_loop]. intros [= <- _]. done.
  - cbn [add_observations_loop].
    destruct (find_entity (ObservationItem.entityName obs) (entities graph))
      as [[i entity]|] eqn:Hfind; [|done].
    apply find_entity_Some in Hfind as [Hi _].
    intros Hloop. apply IH in Hloop as [Hnames Hrels].
    cbn [entities relations] in Hnames, Hrels.
    rewrite (names_insert _ _ entity) in Hnames by done. done.
Qed.

Lemma delete_observations_loop_names (deletions : list DeletionItem.t)
    (graph : KnowledgeGraph) :
  name <$> entities (delete_observations_loop deletions graph) = name <$> entities graph
  ∧ relations (delete_observations_loop deletions graph) = relations graph.
Proof.
  revert graph. induction deletions as [|deletion deletions IH]; intros graph; [done|].
  cbn [delete_observations_loop].
  destruct (find_entity (DeletionItem.entityName deletion) (entities graph))
    as [[i entity]|] eqn:Hfind; [|apply IH].
  apply find_entity_Some in Hfind as [Hi _].
  destruct (IH (mkGraph (<[i := mkEntity (name entity) (entityType entity)
                                 (filter (λ obs, obs ∉ DeletionItem.observations deletion)
                                         (observations entity))]> (entities graph))
                        (relations graph))) as [Hnames Hrels].
  cbn [entities relations] in Hnames, Hrels.
  rewrite (names_insert _ _ entity) in Hnames by done. done.
Qed.

Section Invariant.

Context (sha256_hexdigest : string → string) (DATA_DIR : string).

Local Abbreviation path_of := (get_memory_file_path sha256_hexdigest DATA_DIR).

(** X25. [create_entities] keeps the invariant for an input whose names
    are distinct. *)
Lemma well_formed_create_entities (req : CreateEntitiesRequest.t) (fs : files)
    (graph : KnowledgeGraph) :
  well_formed graph →
  (read_graph_file (path_of (CreateEntitiesRequest.user_id req)) fs).1 = inr graph →
  NoDup (name <$> CreateEntitiesRequest.entities req) →
  ∃ graph',
    (read_graph_file (path_of (CreateEntitiesRequest.user_id req))
       (create_entities sha256_hexdigest DATA_DIR req fs).2).1 = inr graph'
    ∧ well_formed graph'.
Proof.
  intros [Hents Hrels] Hload Hnew. rewrite (create_entities_loaded _ _ _ _ _ Hload).
  eexists. cbn [snd]. rewrite read_graph_file_saved. split; [reflexivity|].
  split; cbn [entities relations]; [by apply NoDup_extend|done].
Qed.

(** X26. [create_relations] keeps the invariant for an input whose
    triples are distinct. *)
Lemma well_formed_create_relations (req : CreateRelationsRequest.t) (fs : files)
    (graph : KnowledgeGraph) :
  well_formed graph →
  (read_graph_file (path_of (CreateRelationsRequest.user_id req)) fs).1 = inr graph →
  NoDup (triple <$> CreateRelationsRequest.relations req) →
  ∃ graph',
    (read_graph_file (path_of (CreateRelationsRequest.user_id req))
       (create_relations sha256_hexdigest DATA_DIR req fs).2).1 = inr graph'
    ∧ well_formed graph'.
Proof.
  intros [Hents Hrels] Hload Hnew. rewrite (create_relations_loaded _ _ _ _ _ Hload).
  eexists. cbn [snd]. rewrite read_graph_file_saved. split; [reflexivity|].
  split; cbn [entities relations]; [done|by apply NoDup_extend].
Qed.

(** X27. [add_observations] keeps the invariant, whether it saves or
    raises. *)
Lemma well_formed_add_observations (req : AddObservationsRequest.t) (fs : files)
    (graph graph' : KnowledgeGraph) :
  well_formed graph →
  (read_graph_file (path_of (AddObservationsRequest.user_id req)) fs).1 = inr graph →
  (read_graph_file (path_of (AddObservationsRequest.user_id req))
     (add_observations sha256_hexdigest DATA_DIR req fs).2).1 = inr graph' →
  well_formed graph'.
Proof.
  intros Hwf Hload.
  destruct (add_observations_loop (AddObservationsRequest.observations req) graph [])
    as [e|[graph1 results]] eqn:Hloop.
  - unfold add_observations.
    rewrite (run_loaded _ _ _ _ Hload), io_bind_eq. unfold lift.
    rewrite Hloop. cbn [snd]. rewrite Hload. by intros [= <-].
  - rewrite (add_observations_loaded _ _ _ _ _ _ _ Hload Hloop).
    cbn [snd]. rewrite read_graph_file_saved. intros [= <-].
    apply add_observations_loop_names in Hloop as [Hn Hr].
    unfold well_formed. by rewrite Hn, Hr.
Qed.

(** X28. [delete_entities] keeps the invariant. *)
Lemma well_formed_delete_entities (req : DeleteEntitiesRequest.t) (fs : files)
    (graph : KnowledgeGraph) :
  well_formed graph →
  (read_graph_file (path_of (DeleteEntitiesRequest.user_id req)) fs).1 = inr graph →
  ∃ graph',
    (read_graph_file (path_of (DeleteEntitiesRequest.user_id req))
       (delete_entities sha256_hexdigest DATA_DIR req fs).2).1 = inr graph'
    ∧ well_formed graph'.
Proof.
  intros [Hents Hrels] Hload. rewrite (delete_entities_loaded _ _ _ _ _ Hload).
  eexists. cbn [snd]. rewrite read_graph_file_saved. split; [reflexivity|].
  split; cbn [entities relations]; by apply NoDup_fmap_filter.
Qed.

(** X29. [delete_observations] keeps the invariant. *)
Lemma well_formed_delete_observations (req : DeleteObservationsRequest.t) (fs : files)
    (graph : KnowledgeGraph) :
  well_formed graph →
  (read_graph_file (path_of (DeleteObservationsRequest.user_id req)) fs).1 = inr graph →
  ∃ graph',
    (read_graph_file (path_of (DeleteObservationsRequest.user_id req))
       (delete_observations sha256_hexdigest DATA_DIR req fs).2).1 = inr graph'
    ∧ well_formed graph'.
Proof.
  intros [Hents Hrels] Hload. rewrite (delete_observations_loaded _ _ _ _ _ Hload).
  eexists. cbn [snd]. rewrite read_graph_file_saved. split; [reflexivity|].
  destruct (delete_observations_loop_names
              (DeleteObservationsRequest.deletions req) graph) as [Hn Hr].
  unfold well_formed. by rewrite Hn, Hr.
Qed.

(** X30. [delete_relations] keeps the invariant. *)
Lemma well_formed_delete_relations (req : DeleteRelationsRequest.t) (fs : files)
    (graph : KnowledgeGraph) :
  well_formed graph →
  (read_graph_file (path_of (DeleteRelationsRequest.user_id req)) fs).1 = inr graph →
  ∃ graph',
    (read_graph_file (path_of (DeleteRelationsRequest.user_id req))
       (delete_relations sha256_hexdigest DATA_DIR req fs).2).1 = inr graph'
    ∧ well_formed graph'.
Proof.
  intros [Hents Hrels] Hload. rewrite (delete_relations_loaded _ _ _ _ _ Hload).
  eexists. cbn [snd]. rewrite read_graph_file_saved. split; [reflexivity|].
  split; cbn [entities relations]; [done|by apply NoDup_fmap_filter].
Qed.

End Invariant.

(** C1. The invariant is not kept for an input that repeats a key:
    [create_entities] with the same new entity twice in its list stores
    two entities of that name, and [create_relations] with the same new
    relation twice stores two relations of that triple, although the
    graph they started from is well formed. *)
Theorem create_repeated_key_stored_twice :
  well_formed (mkGraph [alice] [])
  ∧ (read_graph demo_digest demo_dir "u1" demo_files).1 = inr (mkGraph [alice] [])
  ∧ (read_graph demo_digest demo_dir "u1"
       (create_entities demo_digest demo_dir
          (CreateEntitiesRequest.mk "u1" [bob; bob]) demo_files).2).1
    = inr (mkGraph [alice; bob; bob] [])
  ∧ ¬ well_formed (mkGraph [alice; bob; bob] [])
  ∧ (read_graph demo_digest demo_dir "u1"
       (create_relations demo_digest demo_dir
          (CreateRelationsRequest.mk "u1" [knows; knows]) demo_files).2).1
    = inr (mkGraph [alice] [knows; knows])
  ∧ ¬ well_formed (mkGraph [alice] [knows; knows]).
Proof.
  split; [split; apply (bool_decide_unpack _); vm_compute; exact I|].
  split; [vm_compute; reflexivity|].
  split; [vm_compute; reflexivity|].
  split; [intros [H _]; revert H; apply (bool_decide_unpack _); vm_compute; exact I|].
  split; [vm_compute; reflexivity|].
  intros [_ H]; revert H; apply (bool_decide_unpack _); vm_compute; exact I.
Qed.

(** ** Adding observations: what one item does *)

(** For an item whose entity is found, the loop appends to the entity, in
    the order of the input, the contents that it does not have yet, and
    reports just these. *)
Lemma add_observations_loop_found (obs : ObservationItem.t)
    (items : list ObservationItem.t) (graph : KnowledgeGraph)
    (results : list AddedObservations) (i : nat) (entity : Entity) :
  find_entity (ObservationItem.entityName obs) (entities graph) = Some (i, entity) →
  let added := filter (λ c, c ∉ observations entity) (ObservationItem.contents obs) in
  add_observations_loop (obs :: items) graph results
  = add_observations_loop items
      (mkGraph (<[i := mkEntity (name entity) (entityType entity)
                         (observations entity ++ added)]> (entities graph))
               (relations graph))
      (results ++ [mkAdded (ObservationItem.entityName obs) added]).
Proof. intros Hfind added. cbn [add_observations_loop]. by rewrite Hfind. Qed.

(** The contents added are distinct from what the entity has; the list
    stays without duplicates when the contents of the item have none. *)
Lemma added_observations_distinct (old contents : list string) :
  NoDup old → NoDup contents →
  NoDup (old ++ filter (λ c, c ∉ old) contents).
Proof.
  intros Hold Hcontents. apply NoDup_app. split; [done|]. split.
  - intros c Hc Hc'. by apply list_elem_of_filter in Hc' as [Hc' _].
  - by apply NoDup_filter.
Qed.

(** C3. The contents of one item are compared with what the entity has,
    not with each other: an item with the same new string twice has it
    appended twice and reported twice, and the stored list of the entity
    holds a duplicate. *)
Theorem add_observations_repeated_content_stored_twice :
  (read_graph demo_digest demo_dir "u1" demo_files).1 = inr (mkGraph [alice] [])
  ∧ (add_observations demo_digest demo_dir
       (AddObservationsRequest.mk "u1" [ObservationItem.mk "Alice" ["x"; "x"]])
       demo_files).1
    = inr [mkAdded "Alice" ["x"; "x"]]
  ∧ (read_graph demo_digest demo_dir "u1"
       (add_observations demo_digest demo_dir
          (AddObservationsRequest.mk "u1" [ObservationItem.mk "Alice" ["x"; "x"]])
          demo_files).2).1
    = inr (mkGraph [mkEntity "Alice" "person" ["likes tea"; "x"; "x"]] [])
  ∧ ¬ NoDup ["likes tea"; "x"; "x"].
Proof.
  split; [vm_compute; reflexivity|].
  split; [vm_compute; reflexivity|].
  split; [vm_compute; reflexivity|].
  apply (bool_decide_unpack _). vm_compute. exact I.
Qed.

(** ** Creating entities *)

Section CreateEntities.

Context (sha256_hexdigest : string → string) (DATA_DIR : string).

Local Abbreviation path_of := (get_memory_file_path sha256_hexdigest DATA_DIR).

(** X24. [create_entities] drops the inputs whose name the graph has, appends
    the others and returns them; a second call with the same list then
    returns the empty list and stores the same graph again. *)
Lemma create_entities_twice (req : CreateEntitiesRequest.t) (fs : files)
    (graph : KnowledgeGraph) :
  (read_graph_file (path_of (CreateEntitiesRequest.user_id req)) fs).1 = inr graph →
  let new_entities :=
    filter (λ e, name e ∉ (name <$> entities graph)) (CreateEntitiesRequest.entities req) in
  let graph1 := mkGraph (entities graph ++ new_entities) (relations graph) in
  let out1 := create_entities sha256_hexdigest DATA_DIR req fs in
  let out2 := create_entities sha256_hexdigest DATA_DIR req out1.2 in
  out1.1 = inr new_entities
  ∧ (read_graph_file (path_of (CreateEntitiesRequest.user_id req)) out1.2).1 = inr graph1
  ∧ out2.1 = inr []
  ∧ (read_graph_file (path_of (CreateEntitiesRequest.user_id req)) out2.2).1 = inr graph1.
Proof.
  intros Hload new_entities graph1 out1 out2.
  assert (Hout1 : out1 = (inr new_entities,
                          <[path_of (CreateEntitiesRequest.user_id req) := graph_text graph1]> fs))
    by apply (create_entities_loaded _ _ _ _ _ Hload).
  assert (Hload1 : (read_graph_file (path_of (CreateEntitiesRequest.user_id req)) out1.2).1
                   = inr graph1)
    by (rewrite Hout1; cbn [snd]; by rewrite read_graph_file_saved).
  assert (Hnone : filter (λ e, name e ∉ (name <$> entities graph1))
                         (CreateEntitiesRequest.entities req) = []).
  { apply filter_none, Forall_forall. intros e He Hnot. apply Hnot.
    cbn [entities graph1]. rewrite fmap_app, elem_of_app.
    destruct (decide (name e ∈ name <$> entities graph)) as [Hin|Hout]; [by left|].
    right. apply list_elem_of_fmap. exists e. split; [done|].
    by apply list_elem_of_filter. }
  assert (Hout2 : out2 = (inr [], <[path_of (CreateEntitiesRequest.user_id req)
                                     := graph_text graph1]> out1.2)).
  { unfold out2. rewrite (create_entities_loaded _ _ _ _ _ Hload1). cbn zeta.
    rewrite Hnone, app_nil_r. reflexivity. }
  split; [by rewrite Hout1|]. split; [done|]. split; [by rewrite Hout2|].
  rewrite Hout2. cbn [snd]. by rewrite read_graph_file_saved.
Qed.

End CreateEntities.

(** C4. Calling [create_entities] twice with a list that names a new
    entity twice: the second call returns the empty list, but the entity
    is stored twice, not once. *)
Theorem create_entities_twice_repeated_name :
  (read_graph demo_digest demo_dir "u1" demo_files).1 = inr (mkGraph [alice] [])
  ∧ (create_entities demo_digest demo_dir (CreateEntitiesRequest.mk "u1" [bob; bob])
       (create_entities demo_digest demo_dir
          (CreateEntitiesRequest.mk "u1" [bob; bob]) demo_files).2).1
    = inr []
  ∧ (read_graph demo_digest demo_dir "u1"
       (create_entities demo_digest demo_dir (CreateEntitiesRequest.mk "u1" [bob; bob])
          (create_entities demo_digest demo_dir
             (CreateEntitiesRequest.mk "u1" [bob; bob]) demo_files).2).2).1
    = inr (mkGraph [alice; bob; bob] [])
  ∧ length (filter (λ e, name e = "Bob") [alice; bob; bob]) = 2.
Proof.
  split; [vm_compute; reflexivity|].
  split; [vm_compute; reflexivity|].
  split; [vm_compute; reflexivity|].
  vm_compute. reflexivity.
Qed.

(** ** Searching *)

(** The empty query matches every entity. *)
Lemma matches_empty (e : Entity) : matches "" e = true.
Proof. unfold matches. destruct (name e); reflexivity. Qed.

(** ** The decoder never runs out of fuel *)

Lemma skip_ws_length (s : string) :
  String.length (Json.skip_ws s) ≤ String.length s.
Proof.
  induction s as [|c s IH]; [done|].
  cbn [Json.skip_ws]. destruct (Json.is_ws c); cbn [String.length]; lia.
Qed.

Lemma scanstring_length_bounded (n : nat) (s str rest : string) :
  String.length s ≤ n →
  Json.scanstring s = Some (str, rest) → String.length rest < String.length s.
Proof.
  revert s str rest. induction n as [|n IH]; intros s str rest Hn.
  { destruct s; [done|cbn in Hn; lia]. }
  destruct s as [|c s]; [done|]. cbn [Json.scanstring]. cbn in Hn.
  assert (Hcons : ∀ ch t, String.length t ≤ String.length s →
            Json.cons_char ch (Json.scanstring t) = Some (str, rest) →
            String.length rest < String.length (String c s)).
  { intros ch t Ht Hc. destruct (Json.scanstring t) as [[str' rest']|] eqn:Hscan; [|done].
    cbn in Hc. injection Hc as _ <-. apply IH in Hscan; [cbn; lia|lia]. }
  destruct (Ascii.eqb c Json.dquote).
  { intros [= _ <-]. cbn. lia. }
  destruct (Ascii.eqb c "\").
  - destruct s as [|e s1]; [done|]. destruct (Ascii.eqb e "u").
    + destruct s1 as [|h1 [|h2 [|h3 [|h4 s2]]]]; try done.
      destruct (Json.unicode_escape h1 h2 h3 h4); [|done].
      apply Hcons. cbn. lia.
    + destruct (Json.unescape e); [|done]. apply Hcons. cbn. lia.
  - destruct (PyStr.ord c <? 32)%N; [done|]. by apply Hcons.
Qed.

Lemma scanstring_length (s str rest : string) :
  Json.scanstring s = Some (str, rest) → String.length rest < String.length s.
Proof. by apply (scanstring_length_bounded (String.length s)). Qed.

Lemma after_prefix_length (p s rest : string) :
  Json.after_prefix p s = Some rest →
  String.length s = String.length p + String.length rest.
Proof.
  revert s. induction p as [|a p IH]; intros s; cbn [Json.after_prefix].
  - by intros [= ->].
  - destruct s as [|b s]; [done|]. destruct (Ascii.eqb a b); [|done].
    intros H. apply IH in H. cbn. lia.
Qed.

Lemma take_digits_length (s d rest : string) :
  Json.take_digits s = (d, rest) → String.length rest ≤ String.length s.
Proof.
  revert d rest. induction s as [|c s IH]; intros d rest; cbn [Json.take_digits].
  - by intros [= _ <-].
  - destruct (Json.is_digit c); [|intros [= _ <-]; done].
    destruct (Json.take_digits s) as [d' r'] eqn:Hd. intros [= _ <-].
    specialize (IH _ _ eq_refl). cbn. lia.
Qed.

Lemma match_number_length (s lexeme rest : string) :
  Json.match_number s = Some (lexeme, rest) →
  String.length rest < String.length s.
Proof.
  unfold Json.match_number.
  set (start := match s with
                | String c r => if Ascii.eqb c "-" then ("-", r) else ("", s)
                | EmptyString => ("", s)
                end).
  assert (Hstart : String.length start.2 ≤ String.length s).
  { unfold start. destruct s as [|c r]; [done|].
    destruct (Ascii.eqb c "-"); cbn; lia. }
  destruct start as [sign s0]. cbn [snd] in Hstart.
  destruct (Json.int_part s0) as [[i s1]|] eqn:Hint; [|done].
  assert (H1 : String.length s1 < String.length s0).
  { unfold Json.int_part in Hint. destruct s0 as [|c r]; [done|].
    destruct (Ascii.eqb c "0"); [injection Hint as _ <-; cbn; lia|].
    destruct (Json.is_digit c); [|done].
    destruct (Json.take_digits r) as [d r'] eqn:Hd. injection Hint as _ <-.
    apply take_digits_length in Hd. cbn. lia. }
  destruct (Json.frac_part s1) as [f s2] eqn:Hfrac.
  assert (H2 : String.length s2 ≤ String.length s1).
  { unfold Json.frac_part in Hfrac. destruct s1 as [|c r]; [by injection Hfrac as _ <-|].
    destruct (Ascii.eqb c "."); [|by injection Hfrac as _ <-].
    destruct (Json.take_digits r) as [d r'] eqn:Hd.
    apply take_digits_length in Hd.
    destruct d; injection Hfrac as _ <-; cbn; lia. }
  destruct (Json.exp_part s2) as [e s3] eqn:Hexp.
  assert (H3 : String.length s3 ≤ String.length s2).
  { unfold Json.exp_part in Hexp. destruct s2 as [|c r]; [by injection Hexp as _ <-|].
    destruct (Ascii.eqb c "e" || Ascii.eqb c "E"); [|by injection Hexp as _ <-].
    set (signed := match r with
                   | String g r' =>
                       if Ascii.eqb g "-" || Ascii.eqb g "+" then (String g "", r') else ("", r)
                   | EmptyString => ("", r)
                   end) in Hexp.
    assert (Hsigned : String.length signed.2 ≤ String.length r).
    { unfold signed. destruct r as [|g r']; [done|].
      destruct (Ascii.eqb g "-" || Ascii.eqb g "+"); cbn; lia. }
    destruct signed as [sg r1]. cbn [snd] in Hsigned.
    destruct (Json.take_digits r1) as [d r2] eqn:Hd.
    apply take_digits_length in Hd.
    destruct d; injection Hexp as _ <-; cbn; lia. }
  intros [= _ <-]. lia.
Qed.

Lemma scan_scalar_length (s : string) (v : Json.value) (rest : string) :
  Json.scan_scalar s = Some (v, rest) → String.length rest < String.length s.
Proof.
  unfold Json.scan_scalar.
  repeat match goal with
  | |- context [Json.after_prefix ?p s] =>
      let H := fresh "H" in
      destruct (Json.after_prefix p s) eqn:H;
      [apply after_prefix_length in H; cbn in H; intros [= _ <-]; lia|clear H]
  | |- context [Json.match_number s] =>
      let H := fresh "H" in
      destruct (Json.match_number s) as [[lexeme r]|] eqn:H;
      [apply match_number_length in H; intros [= _ <-]; lia|clear H]
  end.
  done.
Qed.

Lemma consumes_bind {A B : Type} (s s0 : string)
    (m : Json.result (A * string)) (k : A * string → Json.result (B * string)) :
  consumes s0 m →
  (∀ a r, String.length r < String.length s0 → consumes s (k (a, r))) →
  consumes s (Json.bind m k).
Proof.
  intros Hm Hk. destruct m as [[a r]| |]; [by apply Hk|done|done].
Qed.

Lemma consumes_of_option {A : Type} (s : string) (o : option (A * string)) :
  (∀ a r, o = Some (a, r) → String.length r < String.length s) →
  consumes s (Json.of_option o).
Proof. intros Ho. destruct o as [[a r]|]; [by apply (Ho a r)|done]. Qed.

(** What is left after the white space and one more character. *)
Lemma skip_ws_cons (s : string) (c : ascii) (rest : string) :
  Json.skip_ws s = String c rest → String.length rest < String.length s.
Proof.
  intros H. pose proof (skip_ws_length s) as Hlen. rewrite H in Hlen.
  cbn in Hlen. lia.
Qed.

(** Two units of fuel for each character are enough for a value, and
    one more for the members of an object and the items of an array. *)
Lemma scan_fuel (fuel : nat) :
  (∀ s, 2 * String.length s + 1 ≤ fuel → consumes s (Json.scan_once fuel s))
  ∧ (∀ s, 2 * String.length s + 2 ≤ fuel → consumes s (Json.object_members fuel s))
  ∧ (∀ s, 2 * String.length s + 2 ≤ fuel → consumes s (Json.array_items fuel s)).
Proof.
  induction fuel as [|fuel (IHscan & IHobj & IHarr)].
  { repeat split; intros s Hs; lia. }
  split; [|split]; intros s Hs.
  - destruct s as [|c rest]; [done|]. rewrite scan_once_eq.
    cbn [String.length] in Hs.
    destruct (Ascii.eqb c Json.dquote).
    { eapply (consumes_bind _ rest).
      - apply consumes_of_option. intros a r. apply scanstring_length.
      - intros str r Hr. cbn. lia. }
    destruct (Ascii.eqb c "{").
    { destruct (Json.skip_ws rest) as [|c1 rest1] eqn:Hws; [done|].
      apply skip_ws_cons in Hws.
      destruct (Ascii.eqb c1 "}"); [cbn; lia|].
      destruct (Ascii.eqb c1 Json.dquote); [|done].
      eapply (consumes_bind _ rest1); [apply IHobj; lia|].
      intros pairs r Hr. cbn. lia. }
    destruct (Ascii.eqb c "[").
    { destruct (Json.skip_ws rest) as [|c1 rest1] eqn:Hws; [done|].
      pose proof (skip_ws_length rest) as Hlen. rewrite Hws in Hlen.
      cbn [String.length] in Hlen.
      destruct (Ascii.eqb c1 "]"); [cbn; lia|].
      eapply (consumes_bind _ (String c1 rest1)); [apply IHarr; cbn; lia|].
      intros items r Hr. cbn in *. lia. }
    apply consumes_of_option. intros v r. apply scan_scalar_length.
  - rewrite object_members_eq.
    eapply (consumes_bind _ s).
    { apply consumes_of_option. intros a r. apply scanstring_length. }
    intros key r1 Hr1.
    destruct (Json.skip_ws r1) as [|c r2] eqn:Hws1; [done|].
    apply skip_ws_cons in Hws1.
    destruct (Ascii.eqb c ":"); [|done].
    pose proof (skip_ws_length r2) as Hlen2.
    eapply (consumes_bind _ (Json.skip_ws r2)); [apply IHscan; lia|].
    intros v r3 Hr3.
    destruct (Json.skip_ws r3) as [|c' r4] eqn:Hws3; [done|].
    apply skip_ws_cons in Hws3.
    destruct (Ascii.eqb c' "}"); [cbn; lia|].
    destruct (Ascii.eqb c' ","); [|done].
    destruct (Json.skip_ws r4) as [|q r5] eqn:Hws4; [done|].
    apply skip_ws_cons in Hws4.
    destruct (Ascii.eqb q Json.dquote); [|done].
    eapply (consumes_bind _ r5); [apply IHobj; lia|].
    intros pairs r6 Hr6. cbn. lia.
  - rewrite array_items_eq.
    eapply (consumes_bind _ s); [apply IHscan; lia|].
    intros v r1 Hr1.
    destruct (Json.skip_ws r1) as [|c r2] eqn:Hws1; [done|].
    apply skip_ws_cons in Hws1.
    destruct (Ascii.eqb c "]"); [cbn; lia|].
    destruct (Ascii.eqb c ","); [|done].
    pose proof (skip_ws_length r2) as Hlen2.
    eapply (consumes_bind _ (Json.skip_ws r2)); [apply IHarr; lia|].
    intros items r3 Hr3. cbn. lia.
Qed.

(** [json.loads] is total in the model: the fuel that [decode] gives is
    never used up, so [None] is a text that is not valid JSON. *)
Lemma decode_never_out_of_fuel (s : string) : Json.decode s ≠ Json.OutOfFuel.
Proof.
  unfold Json.decode, Json.decode_fuel.
  pose proof (skip_ws_length s) as Hlen.
  destruct (scan_fuel (2 * String.length s + 1)) as (Hscan & _ & _).
  specialize (Hscan (Json.skip_ws s)).
  destruct (Json.scan_once _ _) as [[v rest]| |].
  - cbn [Json.bind]. by destruct (Json.skip_ws rest).
  - done.
  - exfalso. apply Hscan. lia.
Qed.

(** ** Corrupt files *)

Lemma load_lines_app (before rest : list string) (ents : list Entity)
    (rels : list Relation) :
  load_lines (before ++ rest) ents rels
  = match load_lines before ents rels with
    | inl e => inl e
    | inr g => load_lines rest (entities g) (relations g)
    end.
Proof.
  revert ents rels. induction before as [|l before IH]; intros ents rels; [done|].
  cbn [app load_lines].
  destruct (Json.loads l) as [[| | | | |item]|]; try done.
  destruct (type_is "entity" item).
  { destruct (Entity_of_fields (without_type item)); [apply IH|done]. }
  destruct (type_is "relation" item); [|apply IH].
  destruct (Relation_of_fields (without_type item)); [apply IH|done].
Qed.

(** A list of lines with an unparsable one does not load: the loop
    raises, at that line or at an earlier one. *)
Lemma load_lines_malformed (lines : list string) (line : string)
    (ents : list Entity) (rels : list Relation) :
  line ∈ lines → Json.loads line = None →
  ∃ e, load_lines lines ents rels = inl e
       ∧ (e = AttributeError ∨ e = ValidationError
          ∨ ∃ doc, e = JSONDecodeError doc ∧ doc ∈ lines ∧ Json.loads doc = None).
Proof.
  intros Hin Hbad. revert ents rels.
  induction lines as [|l lines IH]; intros ents rels; [by apply elem_of_nil in Hin|].
  assert (Hrest : ∀ ents' rels',
            l ≠ line ∨ Json.loads l ≠ None →
            ∃ e, load_lines lines ents' rels' = inl e
                 ∧ (e = AttributeError ∨ e = ValidationError
                    ∨ ∃ doc, e = JSONDecodeError doc ∧ doc ∈ l :: lines
                             ∧ Json.loads doc = None)).
  { intros ents' rels' Hl. apply elem_of_cons in Hin as [->|Hin].
    { destruct Hl as [Hl|Hl]; done. }
    destruct (IH Hin ents' rels') as (e & He & Hkind). exists e. split; [done|].
    destruct Hkind as [?|[?|(doc & ? & ? & ?)]]; [by left|by right; left|].
    right; right. exists doc. split; [done|]. split; [by right|done]. }
  cbn [load_lines].
  destruct (Json.loads l) as [v|] eqn:Hl.
  - destruct v as [| | | | |item];
      try (exists AttributeError; split; [reflexivity|by left]).
    destruct (type_is "entity" item).
    { destruct (Entity_of_fields (without_type item)).
      - apply Hrest. by right.
      - exists ValidationError. split; [done|by right; left]. }
    destruct (type_is "relation" item).
    { destruct (Relation_of_fields (without_type item)).
      - apply Hrest. by right.
      - exists ValidationError. split; [done|by right; left]. }
    apply Hrest. by right.
  - exists (JSONDecodeError l). split; [done|]. right; right.
    exists l. split; [done|]. split; [by left|done].
Qed.

(** C8, as amended. A file with a non-blank line that cannot be parsed
    does not load: [read_graph_file] raises, returns no record and
    changes no file. The exception is that of the first line which
    fails; for an unparsable line it is the decode error of the text of
    the line, and when every non-blank line before it loads, it is the
    decode error of this very line. *)
Theorem read_graph_file_malformed_line
    (file_path : string) (fs : files) (content line : string) :
  fs !! file_path = Some content →
  line ∈ nonblank_lines content →
  Json.loads line = None →
  (∃ e, read_graph_file file_path fs = (inl e, fs)
        ∧ (e = AttributeError ∨ e = ValidationError
           ∨ ∃ doc, e = JSONDecodeError doc ∧ doc ∈ nonblank_lines content
                    ∧ Json.loads doc = None))
  ∧ (∀ before after graph,
       nonblank_lines content = before ++ line :: after →
       load_lines before [] [] = inr graph →
       read_graph_file file_path fs = (inl (JSONDecodeError line), fs)).
Proof.
  intros Hfile Hin Hbad. rewrite read_graph_file_lookup, Hfile. split.
  - destruct (load_lines_malformed _ _ [] [] Hin Hbad) as (e & -> & Hkind).
    by exists e.
  - intros before after graph -> Hbefore.
    rewrite load_lines_app, Hbefore. cbn [load_lines]. by rewrite Hbad.
Qed.

Lemma read_graph_file_malformed_line_witness :
  (∃ e, read_graph_file "f" {[ "f" := entity_line alice +:+ String "010" "{oops" ]}
        = (inl e, {[ "f" := entity_line alice +:+ String "010" "{oops" ]})
        ∧ (e = AttributeError ∨ e = ValidationError
           ∨ ∃ doc, e = JSONDecodeError doc
                    ∧ doc ∈ nonblank_lines (entity_line alice +:+ String "010" "{oops")
                    ∧ Json.loads doc = None))
  ∧ (∀ before after graph,
       nonblank_lines (entity_line alice +:+ String "010" "{oops")
       = before ++ "{oops" :: after →
       load_lines before [] [] = inr graph →
       read_graph_file "f" {[ "f" := entity_line alice +:+ String "010" "{oops" ]}
       = (inl (JSONDecodeError "{oops"),
          {[ "f" := entity_line alice +:+ String "010" "{oops" ]})).
Proof.
  apply (read_graph_file_malformed_line "f"
           {[ "f" := entity_line alice +:+ String "010" "{oops" ]}
           (entity_line alice +:+ String "010" "{oops") "{oops").
  - vm_compute. reflexivity.
  - apply (bool_decide_unpack _). vm_compute. exact I.
  - vm_compute. reflexivity.
Defined.

(** C8, as stated, fails: the exception of a failed load does not
    identify the number of the offending line. The same unparsable text
    on the first line of one file and on the second line of another
    raises the same exception. *)
Lemma line_number_not_identified :
  ¬ ∃ lineno : exn → nat, line_number_identified lineno.
Proof.
  intros (lineno & Hid).
  destruct (Hid "f" {[ "f" := "{" ]} "{" 0 "{") as (e1 & He1 & Hn1);
    [by vm_compute..| |].
  { intros m l Hm. lia. }
  destruct (Hid "f" {[ "f" := String "010" "{" ]} (String "010" "{") 1 "{")
    as (e2 & He2 & Hn2); [by vm_compute..| |].
  { intros m l Hm Hl. assert (m = 0) as -> by lia.
    vm_compute in Hl. by injection Hl as <-. }
  vm_compute in He1, He2.
  injection He1 as <-. injection He2 as <-. congruence.
Qed.

(** ** Concurrent requests *)

Section CyclesOfTheCode.

Context (sha256_hexdigest : string → string) (DATA_DIR : string).

(** The two accesses of a cycle, one after the other, are the endpoint. *)
Lemma cycle_steps_create_entities (req : CreateEntitiesRequest.t) (fs : files) :
  create_entities sha256_hexdigest DATA_DIR req fs
  = match cycle_step sha256_hexdigest DATA_DIR (Pending req) fs with
    | Some (Loaded req' graph, fs1) =>
        match cycle_step sha256_hexdigest DATA_DIR (Loaded req' graph) fs1 with
        | Some (Finished result, fs2) => (result, fs2)
        | _ => (inl AttributeError, fs)
        end
    | Some (Finished result, fs1) => (result, fs1)
    | _ => (inl AttributeError, fs)
    end.
Proof.
  unfold create_entities, cycle_step, location. rewrite io_bind_eq.
  destruct (read_graph_file _ fs) as [[e|graph] fs1]; [reflexivity|].
  reflexivity.
Qed.

End CyclesOfTheCode.

(** C9, as stated, fails: the program has no guard. Two requests of one
    user that add Bob and Carol can both load the graph before either
    saves it; both finish, and the graph stored last has lost Bob. *)
Lemma lost_update_possible : ¬ no_lost_update.
Proof.
  intros Hno.
  set (req_bob := CreateEntitiesRequest.mk "u1" [bob]).
  set (req_carol := CreateEntitiesRequest.mk "u1" [carol]).
  set (file_path := get_memory_file_path demo_digest demo_dir "u1").
  set (graph := mkGraph [alice] []).
  set (fs1 := <[file_path := graph_text (mkGraph [alice; bob] [])]> demo_files).
  set (fs2 := <[file_path := graph_text (mkGraph [alice; carol] [])]> fs1).
  assert (Hsteps : rtc (step demo_digest demo_dir)
                       (demo_files, Pending <$> [req_bob; req_carol])
                       (fs2, [Finished (inr [bob]); Finished (inr [carol])])).
  { eapply rtc_l.
    { apply (step_at demo_digest demo_dir 0 (Pending req_bob) (Loaded req_bob graph)
               demo_files demo_files [Pending req_bob; Pending req_carol]);
        [reflexivity|vm_compute; reflexivity]. }
    eapply rtc_l.
    { apply (step_at demo_digest demo_dir 1 (Pending req_carol) (Loaded req_carol graph)
               demo_files demo_files [Loaded req_bob graph; Pending req_carol]);
        [reflexivity|vm_compute; reflexivity]. }
    eapply rtc_l.
    { apply (step_at demo_digest demo_dir 0 (Loaded req_bob graph) (Finished (inr [bob]))
               demo_files fs1 [Loaded req_bob graph; Loaded req_carol graph]);
        [reflexivity|vm_compute; reflexivity]. }
    eapply rtc_l.
    { apply (step_at demo_digest demo_dir 1 (Loaded req_carol graph)
               (Finished (inr [carol]))
               fs1 fs2 [Finished (inr [bob]); Loaded req_carol graph]);
        [reflexivity|vm_compute; reflexivity]. }
    apply rtc_refl. }
  destruct (Hno demo_digest demo_dir [req_bob; req_carol] demo_files fs2
              [Finished (inr [bob]); Finished (inr [carol])])
    with (req := req_bob) (e := bob) as (stored & Hstored & Hbob).
  - intros req Hreq. exists graph.
    apply elem_of_cons in Hreq as [->|Hreq]; [by vm_compute|].
    apply elem_of_cons in Hreq as [->|Hreq]; [by vm_compute|].
    by apply elem_of_nil in Hreq.
  - exact Hsteps.
  - repeat constructor.
  - by left.
  - by left.
  - assert (Hfs2 : (read_graph_file (location demo_digest demo_dir req_bob) fs2).1
                   = inr (mkGraph [alice; carol] []))
      by (vm_compute; reflexivity).
    rewrite Hfs2 in Hstored. injection Hstored as <-.
    revert Hbob. apply (bool_decide_unpack _). vm_compute. exact I.
Qed.

Section SerializedCycles.

Context (sha256_hexdigest : string → string) (DATA_DIR : string).

Local Abbreviation location := (location sha256_hexdigest DATA_DIR).
Local Abbreviation in_flight_at := (in_flight_at sha256_hexdigest DATA_DIR).
Local Abbreviation serial_step := (serial_step sha256_hexdigest DATA_DIR).
Local Abbreviation invariant := (cycle_invariant sha256_hexdigest DATA_DIR).
Local Abbreviation loadable := (loadable sha256_hexdigest DATA_DIR).
Local Abbreviation effects_present := (effects_present sha256_hexdigest DATA_DIR).

Lemma create_entities_rest_eq (req : CreateEntitiesRequest.t)
    (graph : KnowledgeGraph) (fs : files) :
  let new_entities :=
    filter (λ e, name e ∉ (name <$> entities graph)) (CreateEntitiesRequest.entities req) in
  create_entities_rest sha256_hexdigest DATA_DIR req graph fs
  = (inr new_entities,
     <[location req :=
         graph_text (mkGraph (entities graph ++ new_entities) (relations graph))]> fs).
Proof.
  intros new_entities. unfold create_entities_rest.
  assert (Hnew : filter (λ e, name e ∉ (list_to_set (name <$> entities graph) : gset string))
                        (CreateEntitiesRequest.entities req) = new_entities).
  { apply list_filter_iff. intros e. by rewrite elem_of_list_to_set. }
  rewrite Hnew. reflexivity.
Qed.

(** The graph that a cycle stores has the names that it loaded and the
    names of its request. *)
Lemma stored_names (req : CreateEntitiesRequest.t) (graph : KnowledgeGraph) :
  let new_entities :=
    filter (λ e, name e ∉ (name <$> entities graph)) (CreateEntitiesRequest.entities req) in
  (∀ n, n ∈ (name <$> entities graph) → n ∈ (name <$> (entities graph ++ new_entities)))
  ∧ (∀ e, e ∈ CreateEntitiesRequest.entities req →
          name e ∈ (name <$> (entities graph ++ new_entities))).
Proof.
  intros new_entities. split.
  - intros n Hn. rewrite fmap_app, elem_of_app. by left.
  - intros e He. rewrite fmap_app, elem_of_app.
    destruct (decide (name e ∈ name <$> entities graph)) as [Hin|Hout]; [by left|].
    right. apply list_elem_of_fmap. exists e. split; [done|].
    by apply list_elem_of_filter.
Qed.

Lemma cycle_invariant_init (reqs : list CreateEntitiesRequest.t) (fs : files) :
  loadable reqs fs → invariant reqs (fs, Pending <$> reqs).
Proof.
  intros Hload. unfold cycle_invariant. cbn [fst snd].
  split; [by rewrite length_fmap|]. split; [done|].
  intros i req c Hreq Hc.
  rewrite list_lookup_fmap, Hreq in Hc. by injection Hc as <-.
Qed.

Lemma cycle_invariant_step (reqs : list CreateEntitiesRequest.t)
    (st st' : files * list cycle) :
  invariant reqs st → serial_step st st' → invariant reqs st'.
Proof.
  intros Hinv Hstep.
  destruct Hstep as [i c c' fs fs' cs Hi Hc Hguard].
  unfold cycle_invariant in *. cbn [fst snd] in *.
  destruct Hinv as (Hlen & Hload & Hinv).
  assert (Hlt : i < length reqs) by (rewrite <- Hlen; by eapply lookup_lt_Some).
  destruct (lookup_lt_is_Some_2 reqs i Hlt) as [req_i Hreq_i].
  pose proof (Hinv i req_i c Hreq_i Hi) as Hci.
  destruct c as [r|r graph|result]; [| |done].
  - (* the load *)
    subst r.
    destruct (Hload req_i) as [graph Hgraph]; [by eapply list_elem_of_lookup_2|].
    cbn [cycle_step] in Hc.
    rewrite read_graph_file_pair, Hgraph in Hc. injection Hc as <- <-.
    split; [by rewrite length_insert|]. split; [done|].
    intros k req_k c_k Hreq_k Hc_k. cbn [fst snd] in *.
    destruct (decide (k = i)) as [->|Hne].
    + rewrite list_lookup_insert_eq in Hc_k by (by eapply lookup_lt_Some).
      injection Hc_k as <-. assert (req_k = req_i) as -> by congruence.
      split; [done|]. split; [done|].
      intros j c2 Hj Hc2. rewrite list_lookup_insert_ne in Hc2 by done.
      by eapply Hguard.
    + rewrite list_lookup_insert_ne in Hc_k by done.
      pose proof (Hinv k req_k c_k Hreq_k Hc_k) as Hck.
      destruct c_k as [r_k|r_k g_k|res_k]; [exact Hck| |exact Hck].
      destruct Hck as (-> & Hg_k & Halone). split; [done|]. split; [done|].
      intros j c2 Hj Hc2. destruct (decide (j = i)) as [->|Hji].
      * rewrite list_lookup_insert_eq in Hc2 by (by eapply lookup_lt_Some).
        injection Hc2 as <-. cbn. intros Heq.
        apply (Hguard req_i eq_refl k _ Hc_k). cbn. done.
      * rewrite list_lookup_insert_ne in Hc2 by done. by eapply Halone.
  - (* the save *)
    destruct Hci as (-> & Hgraph & Halone).
    cbn [cycle_step] in Hc. rewrite create_entities_rest_eq in Hc.
    injection Hc as <- <-.
    set (new_entities := filter _ _) in *.
    set (graph' := mkGraph (entities graph ++ new_entities) (relations graph)).
    destruct (stored_names req_i graph) as [Hkept Hadded].
    fold new_entities in Hkept, Hadded.
    split; [by rewrite length_insert|]. split.
    { intros req Hreq. destruct (decide (location req_i = location req)) as [Heq|Hne].
      - exists graph'. by rewrite <- Heq, read_graph_file_saved.
      - rewrite read_graph_file_other by done. by apply Hload. }
    intros k req_k c_k Hreq_k Hc_k. cbn [fst snd] in *.
    destruct (decide (k = i)) as [->|Hne].
    + rewrite list_lookup_insert_eq in Hc_k by (by eapply lookup_lt_Some).
      injection Hc_k as <-. assert (req_k = req_i) as -> by congruence.
      exists graph'. rewrite read_graph_file_saved. split; [done|exact Hadded].
    + rewrite list_lookup_insert_ne in Hc_k by done.
      pose proof (Hinv k req_k c_k Hreq_k Hc_k) as Hck.
      destruct c_k as [r_k|r_k g_k|res_k]; [exact Hck| |].
      * destruct Hck as (-> & Hg_k & Halone_k).
        assert (Hloc : location req_i ≠ location req_k).
        { intros Heq. apply (Halone k (Loaded req_k g_k)); [done|done|]. cbn. done. }
        split; [done|]. split; [by rewrite read_graph_file_other|].
        intros j c2 Hj Hc2. destruct (decide (j = i)) as [->|Hji].
        -- rewrite list_lookup_insert_eq in Hc2 by (by eapply lookup_lt_Some).
           injection Hc2 as <-. intros Hf. exact Hf.
        -- rewrite list_lookup_insert_ne in Hc2 by done. by eapply Halone_k.
      * destruct Hck as (g_k & Hg_k & Hnames).
        destruct (decide (location req_i = location req_k)) as [Heq|Hloc].
        -- exists graph'. rewrite <- Heq, read_graph_file_saved. split; [done|].
           intros e He. apply Hkept.
           rewrite <- Heq, Hgraph in Hg_k. injection Hg_k as <-. by apply Hnames.
        -- exists g_k. by rewrite read_graph_file_other.
Qed.

Lemma cycle_invariant_steps (reqs : list CreateEntitiesRequest.t)
    (st st' : files * list cycle) :
  rtc serial_step st st' → invariant reqs st → invariant reqs st'.
Proof.
  induction 1 as [|st st1 st' Hstep _ IH]; [done|].
  intros Hinv. apply IH. by eapply cycle_invariant_step.
Qed.

(** C9, as amended. In an execution in which the cycles of one location
    do not overlap (a cycle loads only when none is in flight at its
    location), and whatever the order of the cycles and the overlap of
    cycles at different locations: once all cycles have finished, the
    entities of every request are in the graph stored at its location. *)
Theorem serialized_cycles_lose_no_update
    (reqs : list CreateEntitiesRequest.t) (fs fs' : files) (cs' : list cycle) :
  loadable reqs fs →
  rtc serial_step (fs, Pending <$> reqs) (fs', cs') →
  Forall finished cs' →
  effects_present reqs fs'.
Proof.
  intros Hload Hsteps Hdone.
  pose proof (cycle_invariant_steps reqs _ _ Hsteps (cycle_invariant_init _ _ Hload))
    as Hinv.
  unfold cycle_invariant in Hinv. cbn [fst snd] in Hinv.
  destruct Hinv as (Hlen & _ & Hinv).
  intros req e Hreq He.
  apply list_elem_of_lookup in Hreq as [i Hi].
  assert (Hlt : i < length cs') by (rewrite Hlen; by eapply lookup_lt_Some).
  destruct (lookup_lt_is_Some_2 cs' i Hlt) as [c Hc].
  pose proof (Hinv i req c Hi Hc) as Hci.
  assert (Hfin : finished c).
  { rewrite Forall_forall in Hdone. apply Hdone. by eapply list_elem_of_lookup_2. }
  destruct c as [r|r g|result]; [done|done|].
  destruct Hci as (graph & Hgraph & Hnames). exists graph. split; [done|by apply Hnames].
Qed.

End SerializedCycles.

Lemma serialized_cycles_lose_no_update_witness :
  effects_present demo_digest demo_dir
    [CreateEntitiesRequest.mk "u1" [bob]; CreateEntitiesRequest.mk "u2" [carol]]
    (<[get_memory_file_path demo_digest demo_dir "u2" := graph_text (mkGraph [carol] [])]>
       (<[get_memory_file_path demo_digest demo_dir "u1"
            := graph_text (mkGraph [alice; bob] [])]> demo_files)).
Proof.
  set (req_bob := CreateEntitiesRequest.mk "u1" [bob]).
  set (req_carol := CreateEntitiesRequest.mk "u2" [carol]).
  set (graph := mkGraph [alice] []).
  set (fs1 := <[get_memory_file_path demo_digest demo_dir "u1"
                  := graph_text (mkGraph [alice; bob] [])]> demo_files).
  set (fs2 := <[get_memory_file_path demo_digest demo_dir "u2"
                  := graph_text (mkGraph [carol] [])]> fs1).
  apply (serialized_cycles_lose_no_update demo_digest demo_dir
           [req_bob; req_carol] demo_files fs2
           [Finished (inr [bob]); Finished (inr [carol])]).
  - intros req Hreq.
    apply elem_of_cons in Hreq as [->|Hreq]; [exists graph; vm_compute; reflexivity|].
    apply elem_of_cons in Hreq as [->|Hreq]; [exists (mkGraph [] []); vm_compute; reflexivity|].
    by apply elem_of_nil in Hreq.
  - eapply rtc_l.
    { apply (serial_step_at demo_digest demo_dir 0 (Pending req_bob) (Loaded req_bob graph)
               demo_files demo_files [Pending req_bob; Pending req_carol]);
        [reflexivity|vm_compute; reflexivity|].
      intros req _ [|[|j]] c2 Hc2; [injection Hc2 as <-..|done]; intros Hf; exact Hf. }
    eapply rtc_l.
    { apply (serial_step_at demo_digest demo_dir 1 (Pending req_carol)
               (Loaded req_carol (mkGraph [] []))
               demo_files demo_files [Loaded req_bob graph; Pending req_carol]);
        [reflexivity|vm_compute; reflexivity|].
      intros req [= <-] [|[|j]] c2 Hc2; [injection Hc2 as <-..|done].
      - intros Hf. vm_compute in Hf. discriminate Hf.
      - intros Hf. exact Hf. }
    eapply rtc_l.
    { apply (serial_step_at demo_digest demo_dir 0 (Loaded req_bob graph)
               (Finished (inr [bob]))
               demo_files fs1 [Loaded req_bob graph; Loaded req_carol (mkGraph [] [])]);
        [reflexivity|vm_compute; reflexivity|].
      intros req Hreq. discriminate Hreq. }
    eapply rtc_l.
    { apply (serial_step_at demo_digest demo_dir 1 (Loaded req_carol (mkGraph [] []))
               (Finished (inr [carol]))
               fs1 fs2 [Finished (inr [bob]); Loaded req_carol (mkGraph [] [])]);
        [reflexivity|vm_compute; reflexivity|].
      intros req Hreq. discriminate Hreq. }
    apply rtc_refl.
  - repeat constructor.
Defined.

(** * Further properties of the endpoints *)

(** ** Relations *)

Section Relations.

Context (sha256_hexdigest : string → string) (DATA_DIR : string).

Local Abbreviation path_of := (get_memory_file_path sha256_hexdigest DATA_DIR).

(** X1. [create_relations] returns the input relations whose triple the
    graph does not have, in the order of the input, and stores them after
    the relations of the graph; the entities are stored as they were, and
    the ends of a relation need not be names of entities. A second call
    with the same list returns the empty list and stores the same graph. *)
Theorem create_relations_twice (req : CreateRelationsRequest.t) (fs : files)
    (graph : KnowledgeGraph) :
  (read_graph_file (path_of (CreateRelationsRequest.user_id req)) fs).1 = inr graph →
  ∃ new graph1,
    new = filter (λ r, triple r ∉ (triple <$> relations graph))
                 (CreateRelationsRequest.relations req)
    ∧ graph1 = mkGraph (entities graph) (relations graph ++ new)
    ∧ (create_relations sha256_hexdigest DATA_DIR req fs).1 = inr new
    ∧ (read_graph_file (path_of (CreateRelationsRequest.user_id req))
         (create_relations sha256_hexdigest DATA_DIR req fs).2).1 = inr graph1
    ∧ (create_relations sha256_hexdigest DATA_DIR req
         (create_relations sha256_hexdigest DATA_DIR req fs).2).1 = inr []
    ∧ (read_graph_file (path_of (CreateRelationsRequest.user_id req))
         (create_relations sha256_hexdigest DATA_DIR req
            (create_relations sha256_hexdigest DATA_DIR req fs).2).2).1 = inr graph1.
Proof.
  intros Hload. eexists _, _. split; [reflexivity|]. split; [reflexivity|].
  set (new := filter _ _).
  set (graph1 := mkGraph (entities graph) (relations graph ++ new)).
  rewrite (create_relations_loaded _ _ _ _ _ Hload). fold new graph1. cbn [fst snd].
  assert (Hload1 : (read_graph_file (path_of (CreateRelationsRequest.user_id req))
                      (<[path_of (CreateRelationsRequest.user_id req)
                           := graph_text graph1]> fs)).1 = inr graph1)
    by (by rewrite read_graph_file_saved).
  assert (Hnone : filter (λ r, triple r ∉ (triple <$> relations graph1))
                         (CreateRelationsRequest.relations req) = []).
  { apply filter_none, Forall_forall. intros r Hr Hnot. apply Hnot.
    cbn [relations graph1]. rewrite fmap_app, elem_of_app.
    destruct (decide (triple r ∈ triple <$> relations graph)) as [Hin|Hout]; [by left|].
    right. apply list_elem_of_fmap. exists r. split; [done|].
    by apply list_elem_of_filter. }
  split; [done|]. split; [done|].
  rewrite (create_relations_loaded _ _ _ _ _ Hload1). cbn zeta.
  rewrite Hnone, app_nil_r. cbn [fst snd]. split; [done|].
  destruct graph1. by rewrite read_graph_file_saved.
Qed.

(** X2. Once the graph is loaded, [delete_relations] does not raise and
    stores the entities as they were and exactly the relations whose
    triple is the triple of no input relation, in their order; input
    relations that the graph does not have change nothing. *)
Theorem delete_relations_removes_matching (req : DeleteRelationsRequest.t)
    (fs : files) (graph : KnowledgeGraph) :
  (read_graph_file (path_of (DeleteRelationsRequest.user_id req)) fs).1 = inr graph →
  ∃ graph',
    (delete_relations sha256_hexdigest DATA_DIR req fs).1
      = inr "Relations deleted successfully"
    ∧ (read_graph_file (path_of (DeleteRelationsRequest.user_id req))
         (delete_relations sha256_hexdigest DATA_DIR req fs).2).1 = inr graph'
    ∧ entities graph' = entities graph
    ∧ (∀ r, r ∈ relations graph'
            ↔ r ∈ relations graph
              ∧ ¬ ∃ d, d ∈ DeleteRelationsRequest.relations req ∧ triple d = triple r)
    ∧ relations graph' `sublist_of` relations graph
    ∧ ((∀ d, d ∈ DeleteRelationsRequest.relations req →
             triple d ∉ (triple <$> relations graph)) →
       graph' = graph).
Proof.
  intros Hload. rewrite (delete_relations_loaded _ _ _ _ _ Hload).
  eexists. split; [reflexivity|]. cbn [snd]. rewrite read_graph_file_saved.
  split; [reflexivity|]. cbn [entities relations]. split; [done|]. split.
  { intros r. rewrite list_elem_of_filter, list_elem_of_fmap. split.
    - intros [Hnot Hr]. split; [done|]. intros (d & Hd & Heq). apply Hnot. by exists d.
    - intros [Hr Hnot]. split; [|done]. intros (d & Heq & Hd). apply Hnot. by exists d. }
  split; [apply sublist_filter|].
  intros Hnone. destruct graph as [ents rels]. cbn [entities relations] in *. f_equal.
  apply filter_all, Forall_forall. intros r Hr Hin.
  apply list_elem_of_fmap in Hin as (d & Heq & Hd).
  apply (Hnone d Hd). rewrite <- Heq. apply list_elem_of_fmap. by exists r.
Qed.

(** X3. Creating relations and then deleting the same list stores
    exactly the relations that the graph had before whose triple is not
    in the list: what the creation added is gone, and a list that shares
    no triple with the graph leaves it as it was. *)
Theorem create_then_delete_relations (rels : list Relation) (user_id : string)
    (fs : files) (graph : KnowledgeGraph) :
  (read_graph_file (path_of user_id) fs).1 = inr graph →
  (read_graph_file (path_of user_id)
     (delete_relations sha256_hexdigest DATA_DIR (DeleteRelationsRequest.mk user_id rels)
        (create_relations sha256_hexdigest DATA_DIR
           (CreateRelationsRequest.mk user_id rels) fs).2).2).1
  = inr (mkGraph (entities graph)
           (filter (λ r, triple r ∉ (triple <$> rels)) (relations graph))).
Proof.
  intros Hload.
  rewrite (create_relations_loaded _ _ (CreateRelationsRequest.mk user_id rels) _ _ Hload).
  cbn [snd CreateRelationsRequest.user_id CreateRelationsRequest.relations].
  set (new := filter _ rels).
  set (fs1 := <[path_of user_id := _]> fs).
  assert (Hload1 : (read_graph_file (path_of user_id) fs1).1
                   = inr (mkGraph (entities graph) (relations graph ++ new)))
    by (unfold fs1; by rewrite read_graph_file_saved).
  rewrite (delete_relations_loaded _ _ (DeleteRelationsRequest.mk user_id rels) _ _ Hload1).
  cbn [snd DeleteRelationsRequest.user_id DeleteRelationsRequest.relations
       entities relations].
  rewrite read_graph_file_saved. cbn [fst]. do 2 f_equal.
  rewrite filter_app.
  assert (Hgone : filter (λ r, triple r ∉ (triple <$> rels)) new = []).
  { apply filter_none, Forall_forall. intros r Hr Hnot. apply Hnot.
    apply list_elem_of_fmap. exists r. split; [done|].
    by apply list_elem_of_filter in Hr as [_ Hr]. }
  by rewrite Hgone, app_nil_r.
Qed.

End Relations.

Lemma create_relations_twice_witness :
  ∃ new graph1,
    new = filter (λ r, triple r ∉ (triple <$> relations demo_graph))
                 [knows; mkRelation "Bob" "Dave" "knows"]
    ∧ graph1 = mkGraph (entities demo_graph) (relations demo_graph ++ new)
    ∧ (create_relations demo_digest demo_dir
         (CreateRelationsRequest.mk "u1" [knows; mkRelation "Bob" "Dave" "knows"])
         demo_files2).1 = inr new
    ∧ (read_graph_file (get_memory_file_path demo_digest demo_dir "u1")
         (create_relations demo_digest demo_dir
            (CreateRelationsRequest.mk "u1" [knows; mkRelation "Bob" "Dave" "knows"])
            demo_files2).2).1 = inr graph1
    ∧ (create_relations demo_digest demo_dir
         (CreateRelationsRequest.mk "u1" [knows; mkRelation "Bob" "Dave" "knows"])
         (create_relations demo_digest demo_dir
            (CreateRelationsRequest.mk "u1" [knows; mkRelation "Bob" "Dave" "knows"])
            demo_files2).2).1 = inr []
    ∧ (read_graph_file (get_memory_file_path demo_digest demo_dir "u1")
         (create_relations demo_digest demo_dir
            (CreateRelationsRequest.mk "u1" [knows; mkRelation "Bob" "Dave" "knows"])
            (create_relations demo_digest demo_dir
               (CreateRelationsRequest.mk "u1" [knows; mkRelation "Bob" "Dave" "knows"])
               demo_files2).2).2).1 = inr graph1.
Proof.
  apply (create_relations_twice demo_digest demo_dir
           (CreateRelationsRequest.mk "u1" [knows; mkRelation "Bob" "Dave" "knows"])
           demo_files2 demo_graph).
  vm_compute. reflexivity.
Defined.

Lemma delete_relations_removes_matching_witness :
  ∃ graph',
    (delete_relations demo_digest demo_dir
       (DeleteRelationsRequest.mk "u1" [knows; mkRelation "Bob" "Dave" "knows"])
       demo_files2).1
      = inr "Relations deleted successfully"
    ∧ (read_graph_file (get_memory_file_path demo_digest demo_dir "u1")
         (delete_relations demo_digest demo_dir
            (DeleteRelationsRequest.mk "u1" [knows; mkRelation "Bob" "Dave" "knows"])
            demo_files2).2).1 = inr graph'
    ∧ entities graph' = entities demo_graph
    ∧ (∀ r, r ∈ relations graph'
            ↔ r ∈ relations demo_graph
              ∧ ¬ ∃ d, d ∈ [knows; mkRelation "Bob" "Dave" "knows"] ∧ triple d = triple r)
    ∧ relations graph' `sublist_of` relations demo_graph
    ∧ ((∀ d, d ∈ [knows; mkRelation "Bob" "Dave" "knows"] →
             triple d ∉ (triple <$> relations demo_graph)) →
       graph' = demo_graph).
Proof.
  apply (delete_relations_removes_matching demo_digest demo_dir
           (DeleteRelationsRequest.mk "u1" [knows; mkRelation "Bob" "Dave" "knows"])
           demo_files2 demo_graph).
  vm_compute. reflexivity.
Defined.

Lemma create_then_delete_relations_witness :
  (read_graph_file (get_memory_file_path demo_digest demo_dir "u1")
     (delete_relations demo_digest demo_dir
        (DeleteRelationsRequest.mk "u1" [mkRelation "Bob" "Dave" "knows"])
        (create_relations demo_digest demo_dir
           (CreateRelationsRequest.mk "u1" [mkRelation "Bob" "Dave" "knows"])
           demo_files2).2).2).1
  = inr (mkGraph (entities demo_graph)
           (filter (λ r, triple r ∉ (triple <$> [mkRelation "Bob" "Dave" "knows"]))
                   (relations demo_graph))).
Proof.
  apply (create_then_delete_relations demo_digest demo_dir
           [mkRelation "Bob" "Dave" "knows"] "u1" demo_files2 demo_graph).
  vm_compute. reflexivity.
Defined.

(** ** Deleting observations *)

(** The first entity of a name is found at the same place in two lists
    with the same names. *)
Lemma find_entity_same_names (n : string) (ents ents' : list Entity)
    (i : nat) (e : Entity) :
  name <$> ents' = name <$> ents →
  find_entity n ents = Some (i, e) →
  ∃ e', find_entity n ents' = Some (i, e') ∧ ents' !! i = Some e'.
Proof.
  intros Hnames Hfind. unfold find_entity in *.
  apply list_find_Some in Hfind as (Hi & Hn & Hbefore).
  assert (Hname_at : ∀ j x, ents !! j = Some x →
            ∃ x', ents' !! j = Some x' ∧ name x' = name x).
  { intros j x Hj.
    assert (Hj' : (name <$> ents') !! j = Some (name x))
      by (by rewrite Hnames, list_lookup_fmap, Hj).
    rewrite list_lookup_fmap in Hj'.
    destruct (ents' !! j) as [x'|]; [|done]. exists x'. split; [done|].
    by injection Hj'. }
  destruct (Hname_at i e Hi) as (e' & Hi' & Hn').
  exists e'. split; [|done]. apply list_find_Some. split; [done|]. split; [congruence|].
  intros j y Hj Hlt Hy.
  assert (Hlen : j < length ents) by (apply lookup_lt_Some in Hi; lia).
  destruct (lookup_lt_is_Some_2 ents j Hlen) as [x Hx].
  destruct (Hname_at j x Hx) as (y' & Hy' & Hyn).
  assert (y' = y) as -> by congruence.
  apply (Hbefore j x Hx Hlt). congruence.
Qed.

(** What the loop of [delete_observations] does to the entity at each
    place: it keeps the name and the type, removes observations only,
    and keeps those that no item of the batch lists. *)
Lemma delete_observations_loop_pointwise (deletions : list DeletionItem.t)
    (graph : KnowledgeGraph) (i : nat) (e : Entity) :
  entities graph !! i = Some e →
  ∃ e', entities (delete_observations_loop deletions graph) !! i = Some e'
        ∧ name e' = name e ∧ entityType e' = entityType e
        ∧ observations e' `sublist_of` observations e
        ∧ ∀ o, o ∈ observations e →
               (∀ d, d ∈ deletions → o ∉ DeletionItem.observations d) →
               o ∈ observations e'.
Proof.
  revert graph e. induction deletions as [|d ds IH]; intros graph e Hi.
  { exists e. cbn [delete_observations_loop]. repeat split; try done. }
  cbn [delete_observations_loop].
  destruct (find_entity (DeletionItem.entityName d) (entities graph))
    as [[j entity]|] eqn:Hfind.
  - apply find_entity_Some in Hfind as [Hj _].
    set (entity' := mkEntity _ _ _).
    destruct (decide (i = j)) as [->|Hne].
    + assert (e = entity) as -> by congruence.
      destruct (IH (mkGraph (<[j := entity']> (entities graph)) (relations graph)) entity')
        as (e' & He' & Hn & Ht & Hsub & Hkeep).
      { cbn [entities]. apply list_lookup_insert_eq. by eapply lookup_lt_Some. }
      exists e'. split; [done|]. split; [done|]. split; [done|]. split.
      { etrans; [exact Hsub|]. apply sublist_filter. }
      intros o Ho Hnot. apply Hkeep.
      * cbn [observations entity']. apply list_elem_of_filter. split; [|done].
        apply Hnot. by left.
      * intros d' Hd'. apply Hnot. by right.
    + destruct (IH (mkGraph (<[j := entity']> (entities graph)) (relations graph)) e)
        as (e' & He' & Hn & Ht & Hsub & Hkeep).
      { cbn [entities]. by rewrite list_lookup_insert_ne. }
      exists e'. repeat split; try done.
      intros o Ho Hnot. apply Hkeep; [done|]. intros d' Hd'. apply Hnot. by right.
  - destruct (IH graph e Hi) as (e' & He' & Hn & Ht & Hsub & Hkeep).
    exists e'. repeat split; try done.
    intros o Ho Hnot. apply Hkeep; [done|]. intros d' Hd'. apply Hnot. by right.
Qed.

(** The strings that an item lists are gone from the entity it names. *)
Lemma delete_observations_loop_removed (deletions : list DeletionItem.t)
    (graph : KnowledgeGraph) (d : DeletionItem.t) (i : nat) (e : Entity) :
  d ∈ deletions →
  find_entity (DeletionItem.entityName d) (entities graph) = Some (i, e) →
  ∃ e', entities (delete_observations_loop deletions graph) !! i = Some e'
        ∧ ∀ o, o ∈ DeletionItem.observations d → o ∉ observations e'.
Proof.
  revert graph e. induction deletions as [|d0 ds IH]; intros graph e Hd Hfind.
  { by apply elem_of_nil in Hd. }
  cbn [delete_observations_loop].
  apply elem_of_cons in Hd as [<-|Hd].
  - rewrite Hfind. apply find_entity_Some in Hfind as [Hi _].
    set (entity' := mkEntity _ _ _).
    destruct (delete_observations_loop_pointwise ds
                (mkGraph (<[i := entity']> (entities graph)) (relations graph)) i entity')
      as (e' & He' & _ & _ & Hsub & _).
    { cbn [entities]. apply list_lookup_insert_eq. by eapply lookup_lt_Some. }
    exists e'. split; [done|]. intros o Ho Hin.
    assert (Hin' : o ∈ observations entity') by (by eapply elem_of_sublist).
    cbn [observations entity'] in Hin'. by apply list_elem_of_filter in Hin' as [Hnot _].
  - destruct (find_entity (DeletionItem.entityName d0) (entities graph))
      as [[j entity]|] eqn:Hfind0; [|by eapply IH].
    apply find_entity_Some in Hfind0 as [Hj _].
    set (entity' := mkEntity _ _ _).
    destruct (find_entity_same_names (DeletionItem.entityName d) (entities graph)
                (<[j := entity']> (entities graph)) i e) as (e1 & Hfind1 & _);
      [by apply (names_insert _ _ entity)|done|].
    by eapply (IH (mkGraph (<[j := entity']> (entities graph)) (relations graph)) e1).
Qed.

Section DeleteObservations.

Context (sha256_hexdigest : string → string) (DATA_DIR : string).

Local Abbreviation path_of := (get_memory_file_path sha256_hexdigest DATA_DIR).

(** X4. Once the graph is loaded, [delete_observations] does not raise,
    also when an item names no entity of the graph. It stores the same
    relations and, place by place, entities of the same name and type
    whose observations are what is left of the old ones, in their order;
    an observation that no item lists is kept, and every string that an
    item lists is gone from the first entity of the name of the item. *)
Theorem delete_observations_removes_listed (req : DeleteObservationsRequest.t)
    (fs : files) (graph : KnowledgeGraph) :
  (read_graph_file (path_of (DeleteObservationsRequest.user_id req)) fs).1 = inr graph →
  ∃ graph',
    (delete_observations sha256_hexdigest DATA_DIR req fs).1
      = inr "Observations deleted successfully"
    ∧ (read_graph_file (path_of (DeleteObservationsRequest.user_id req))
         (delete_observations sha256_hexdigest DATA_DIR req fs).2).1 = inr graph'
    ∧ relations graph' = relations graph
    ∧ name <$> entities graph' = name <$> entities graph
    ∧ (∀ i e, entities graph !! i = Some e →
         ∃ e', entities graph' !! i = Some e'
               ∧ name e' = name e ∧ entityType e' = entityType e
               ∧ observations e' `sublist_of` observations e
               ∧ ∀ o, o ∈ observations e →
                      (∀ d, d ∈ DeleteObservationsRequest.deletions req →
                            o ∉ DeletionItem.observations d) →
                      o ∈ observations e')
    ∧ (∀ d i e, d ∈ DeleteObservationsRequest.deletions req →
         find_entity (DeletionItem.entityName d) (entities graph) = Some (i, e) →
         ∃ e', entities graph' !! i = Some e'
               ∧ ∀ o, o ∈ DeletionItem.observations d → o ∉ observations e').
Proof.
  intros Hload. rewrite (delete_observations_loaded _ _ _ _ _ Hload).
  eexists. split; [reflexivity|]. cbn [snd]. rewrite read_graph_file_saved.
  split; [reflexivity|].
  destruct (delete_observations_loop_names
              (DeleteObservationsRequest.deletions req) graph) as [Hn Hr].
  split; [done|]. split; [done|]. split.
  - intros i e. apply delete_observations_loop_pointwise.
  - intros d i e. apply delete_observations_loop_removed.
Qed.

End DeleteObservations.

Lemma delete_observations_removes_listed_witness :
  ∃ graph',
    (delete_observations demo_digest demo_dir
       (DeleteObservationsRequest.mk "u1"
          [DeletionItem.mk "Alice" ["likes tea"; "x"]; DeletionItem.mk "Nobody" ["y"]])
       demo_files2).1
      = inr "Observations deleted successfully"
    ∧ (read_graph_file (get_memory_file_path demo_digest demo_dir "u1")
         (delete_observations demo_digest demo_dir
            (DeleteObservationsRequest.mk "u1"
               [DeletionItem.mk "Alice" ["likes tea"; "x"]; DeletionItem.mk "Nobody" ["y"]])
            demo_files2).2).1 = inr graph'
    ∧ relations graph' = relations demo_graph
    ∧ name <$> entities graph' = name <$> entities demo_graph
    ∧ (∀ i e, entities demo_graph !! i = Some e →
         ∃ e', entities graph' !! i = Some e'
               ∧ name e' = name e ∧ entityType e' = entityType e
               ∧ observations e' `sublist_of` observations e
               ∧ ∀ o, o ∈ observations e →
                      (∀ d, d ∈ [DeletionItem.mk "Alice" ["likes tea"; "x"];
                                 DeletionItem.mk "Nobody" ["y"]] →
                            o ∉ DeletionItem.observations d) →
                      o ∈ observations e')
    ∧ (∀ d i e, d ∈ [DeletionItem.mk "Alice" ["likes tea"; "x"];
                     DeletionItem.mk "Nobody" ["y"]] →
         find_entity (DeletionItem.entityName d) (entities demo_graph) = Some (i, e) →
         ∃ e', entities graph' !! i = Some e'
               ∧ ∀ o, o ∈ DeletionItem.observations d → o ∉ observations e').
Proof.
  apply (delete_observations_removes_listed demo_digest demo_dir
           (DeleteObservationsRequest.mk "u1"
              [DeletionItem.mk "Alice" ["likes tea"; "x"]; DeletionItem.mk "Nobody" ["y"]])
           demo_files2 demo_graph).
  vm_compute. reflexivity.
Defined.

(** ** Adding observations: a whole batch *)

(** What the loop of [add_observations] does to the entity at each
    place: it keeps the name and the type and appends to the
    observations, and what it appends comes from the items of that name. *)
Lemma add_observations_loop_pointwise (items : list ObservationItem.t)
    (graph graph1 : KnowledgeGraph) (results results1 : list AddedObservations)
    (i : nat) (e : Entity) :
  add_observations_loop items graph results = inr (graph1, results1) →
  entities graph !! i = Some e →
  ∃ e1 added,
    entities graph1 !! i = Some e1
    ∧ name e1 = name e ∧ entityType e1 = entityType e
    ∧ observations e1 = observations e ++ added
    ∧ ∀ c, c ∈ added →
           ∃ item, item ∈ items ∧ ObservationItem.entityName item = name e
                   ∧ c ∈ ObservationItem.contents item.
Proof.
  revert graph results e. induction items as [|obs items IH]; intros graph results e.
  { cbn [add_observations_loop]. intros [= <- _] Hi. exists e, [].
    rewrite app_nil_r. repeat split; try done. intros c Hc. by apply elem_of_nil in Hc. }
  cbn [add_observations_loop].
  destruct (find_entity (ObservationItem.entityName obs) (entities graph))
    as [[j entity]|] eqn:Hfind; [|done].
  apply find_entity_Some in Hfind as [Hj Hname].
  set (added0 := filter _ _). set (entity' := mkEntity _ _ _).
  intros Hloop Hi. destruct (decide (i = j)) as [->|Hne].
  - assert (e = entity) as -> by congruence.
    destruct (IH _ _ entity' Hloop) as (e1 & added & He1 & Hn & Ht & Hobs & Hfrom).
    { cbn [entities]. apply list_lookup_insert_eq. by eapply lookup_lt_Some. }
    exists e1, (added0 ++ added). split; [done|]. split; [done|]. split; [done|].
    split; [by rewrite Hobs, app_assoc|].
    intros c Hc. apply elem_of_app in Hc as [Hc|Hc].
    + exists obs. split; [by left|]. split; [done|].
      by apply list_elem_of_filter in Hc as [_ Hc].
    + destruct (Hfrom c Hc) as (item & Hitem & Hin & Hcin).
      exists item. split; [by right|done].
  - destruct (IH _ _ e Hloop) as (e1 & added & He1 & Hn & Ht & Hobs & Hfrom).
    { cbn [entities]. by rewrite list_lookup_insert_ne. }
    exists e1, added. repeat split; try done.
    intros c Hc. destruct (Hfrom c Hc) as (item & Hitem & Hin & Hcin).
    exists item. split; [by right|done].
Qed.

(** The loop does not raise when every item names an entity of the
    graph, and reports one result for each item, in the order of the
    items. *)
Lemma add_observations_loop_succeeds (items : list ObservationItem.t)
    (graph : KnowledgeGraph) (results : list AddedObservations) :
  (∀ item, item ∈ items → ObservationItem.entityName item ∈ (name <$> entities graph)) →
  ∃ graph1 results1,
    add_observations_loop items graph results = inr (graph1, results ++ results1)
    ∧ added_entityName <$> results1 = ObservationItem.entityName <$> items.
Proof.
  revert graph results. induction items as [|obs items IH]; intros graph results Hall.
  { exists graph, []. by rewrite app_nil_r. }
  cbn [add_observations_loop].
  destruct (find_entity (ObservationItem.entityName obs) (entities graph))
    as [[j entity]|] eqn:Hfind.
  - apply find_entity_Some in Hfind as [Hj Hname].
    set (added0 := filter _ _). set (entity' := mkEntity _ _ _).
    destruct (IH (mkGraph (<[j := entity']> (entities graph)) (relations graph))
                 (results ++ [mkAdded (ObservationItem.entityName obs) added0]))
      as (graph1 & results1 & Hloop & Hnames).
    { intros item Hitem. cbn [entities].
      rewrite (names_insert _ _ entity) by done. apply Hall. by right. }
    exists graph1, (mkAdded (ObservationItem.entityName obs) added0 :: results1).
    split; [by rewrite Hloop, <- app_assoc|]. cbn. by rewrite Hnames.
  - apply find_entity_None in Hfind. exfalso. apply Hfind, Hall. by left.
Qed.

(** After the loop, the entity that an item names has every content of
    the item. *)
Lemma add_observations_loop_contained (items : list ObservationItem.t)
    (graph graph1 : KnowledgeGraph) (results results1 : list AddedObservations)
    (item : ObservationItem.t) (i : nat) (e : Entity) :
  add_observations_loop items graph results = inr (graph1, results1) →
  item ∈ items →
  find_entity (ObservationItem.entityName item) (entities graph) = Some (i, e) →
  ∃ e1, entities graph1 !! i = Some e1
        ∧ ∀ c, c ∈ ObservationItem.contents item → c ∈ observations e1.
Proof.
  revert graph results e. induction items as [|obs items IH]; intros graph results e Hloop Hin.
  { by apply elem_of_nil in Hin. }
  cbn [add_observations_loop] in Hloop.
  destruct (find_entity (ObservationItem.entityName obs) (entities graph))
    as [[j entity]|] eqn:Hfind0; [|done].
  pose proof Hfind0 as Hfind0'. apply find_entity_Some in Hfind0' as [Hj Hname].
  set (added0 := filter _ _) in Hloop. set (entity' := mkEntity _ _ _) in Hloop.
  intros Hfind. apply elem_of_cons in Hin as [->|Hin].
  - assert (i = j ∧ e = entity) as [-> ->] by (split; congruence).
    destruct (add_observations_loop_pointwise _ _ _ _ _ j entity' Hloop)
      as (e1 & added & He1 & _ & _ & Hobs & _).
    { cbn [entities]. apply list_lookup_insert_eq. by eapply lookup_lt_Some. }
    exists e1. split; [done|]. intros c Hc. rewrite Hobs.
    cbn [observations entity']. rewrite !elem_of_app.
    destruct (decide (c ∈ observations entity)) as [Hold|Hnew]; [by left; left|].
    left; right. by apply list_elem_of_filter.
  - destruct (find_entity_same_names (ObservationItem.entityName item) (entities graph)
                (<[j := entity']> (entities graph)) i e) as (e' & Hfind' & _);
      [by apply (names_insert _ _ entity)|done|].
    by eapply (IH _ _ e' Hloop).
Qed.

(** On a graph whose entities have all the contents of the items, the
    loop changes nothing and reports an empty list for each item. *)
Lemma add_observations_loop_nothing_new (items : list ObservationItem.t)
    (graph : KnowledgeGraph) (results : list AddedObservations) :
  (∀ item, item ∈ items →
     ∃ i e, find_entity (ObservationItem.entityName item) (entities graph) = Some (i, e)
            ∧ ∀ c, c ∈ ObservationItem.contents item → c ∈ observations e) →
  add_observations_loop items graph results
  = inr (graph,
         results ++ ((λ item, mkAdded (ObservationItem.entityName item) []) <$> items)).
Proof.
  revert results. induction items as [|obs items IH]; intros results Hall.
  { by rewrite app_nil_r. }
  cbn [add_observations_loop].
  destruct (Hall obs) as (i & e & Hfind & Hhas); [by left|]. rewrite Hfind.
  apply find_entity_Some in Hfind as [Hi _].
  assert (Hnone : filter (λ c, c ∉ observations e) (ObservationItem.contents obs) = []).
  { apply filter_none, Forall_forall. intros c Hc Hnot. by apply Hnot, Hhas. }
  rewrite Hnone, app_nil_r.
  assert (Hsame : mkGraph (<[i := mkEntity (name e) (entityType e) (observations e)]>
                             (entities graph)) (relations graph) = graph).
  { destruct graph as [ents rels], e as [n t o]. cbn in *. f_equal.
    by apply list_insert_id. }
  rewrite Hsame, IH by (intros item Hitem; apply Hall; by right).
  by rewrite <- app_assoc.
Qed.

Section AddObservationsBatch.

Context (sha256_hexdigest : string → string) (DATA_DIR : string).

Local Abbreviation path_of := (get_memory_file_path sha256_hexdigest DATA_DIR).

(** X5. When every item of the batch names an entity of the loaded
    graph, [add_observations] does not raise. It returns one result for
    each item, in the order of the items, and stores the same relations
    and, place by place, entities of the same name and type whose
    observations are the old ones followed by contents of the items of
    that name; the first entity of the name of an item then has every
    content of the item. *)
Theorem add_observations_succeeds (req : AddObservationsRequest.t)
    (fs : files) (graph : KnowledgeGraph) :
  (read_graph_file (path_of (AddObservationsRequest.user_id req)) fs).1 = inr graph →
  (∀ item, item ∈ AddObservationsRequest.observations req →
           ObservationItem.entityName item ∈ (name <$> entities graph)) →
  ∃ results graph',
    (add_observations sha256_hexdigest DATA_DIR req fs).1 = inr results
    ∧ (read_graph_file (path_of (AddObservationsRequest.user_id req))
         (add_observations sha256_hexdigest DATA_DIR req fs).2).1 = inr graph'
    ∧ added_entityName <$> results
      = ObservationItem.entityName <$> AddObservationsRequest.observations req
    ∧ relations graph' = relations graph
    ∧ (∀ i e, entities graph !! i = Some e →
         ∃ e' added,
           entities graph' !! i = Some e'
           ∧ name e' = name e ∧ entityType e' = entityType e
           ∧ observations e' = observations e ++ added
           ∧ ∀ c, c ∈ added →
                  ∃ item, item ∈ AddObservationsRequest.observations req
                          ∧ ObservationItem.entityName item = name e
                          ∧ c ∈ ObservationItem.contents item)
    ∧ (∀ item i e, item ∈ AddObservationsRequest.observations req →
         find_entity (ObservationItem.entityName item) (entities graph) = Some (i, e) →
         ∃ e', entities graph' !! i = Some e'
               ∧ ∀ c, c ∈ ObservationItem.contents item → c ∈ observations e').
Proof.
  intros Hload Hall.
  destruct (add_observations_loop_succeeds _ graph [] Hall)
    as (graph1 & results1 & Hloop & Hnames).
  rewrite app_nil_l in Hloop.
  rewrite (add_observations_loaded _ _ _ _ _ _ _ Hload Hloop).
  exists results1, graph1. cbn [fst snd]. rewrite read_graph_file_saved.
  split; [done|]. split; [done|]. split; [done|].
  split; [by apply add_observations_loop_names in Hloop as [_ Hr]|]. split.
  - intros i e Hi. by eapply add_observations_loop_pointwise.
  - intros item i e Hitem Hfind. by eapply add_observations_loop_contained.
Qed.

(** X6. A call to [add_observations] that succeeded, made again with the
    same batch, succeeds again, reports an empty list for every item and
    stores the graph that the first call stored. *)
Theorem add_observations_again_adds_nothing (req : AddObservationsRequest.t)
    (fs : files) (graph : KnowledgeGraph) :
  (read_graph_file (path_of (AddObservationsRequest.user_id req)) fs).1 = inr graph →
  (∀ item, item ∈ AddObservationsRequest.observations req →
           ObservationItem.entityName item ∈ (name <$> entities graph)) →
  (add_observations sha256_hexdigest DATA_DIR req
     (add_observations sha256_hexdigest DATA_DIR req fs).2).1
  = inr ((λ item, mkAdded (ObservationItem.entityName item) [])
           <$> AddObservationsRequest.observations req)
  ∧ (read_graph_file (path_of (AddObservationsRequest.user_id req))
       (add_observations sha256_hexdigest DATA_DIR req
          (add_observations sha256_hexdigest DATA_DIR req fs).2).2).1
    = (read_graph_file (path_of (AddObservationsRequest.user_id req))
         (add_observations sha256_hexdigest DATA_DIR req fs).2).1.
Proof.
  intros Hload Hall.
  destruct (add_observations_loop_succeeds _ graph [] Hall)
    as (graph1 & results1 & Hloop & _).
  rewrite app_nil_l in Hloop.
  rewrite (add_observations_loaded _ _ _ _ _ _ _ Hload Hloop). cbn [snd].
  set (fs1 := <[_ := graph_text graph1]> fs).
  assert (Hload1 : (read_graph_file (path_of (AddObservationsRequest.user_id req)) fs1).1
                   = inr graph1) by (unfold fs1; by rewrite read_graph_file_saved).
  assert (Hagain : add_observations_loop (AddObservationsRequest.observations req) graph1 []
                   = inr (graph1,
                          (λ item, mkAdded (ObservationItem.entityName item) [])
                            <$> AddObservationsRequest.observations req)).
  { rewrite add_observations_loop_nothing_new; [done|].
    intros item Hitem.
    destruct (find_entity (ObservationItem.entityName item) (entities graph))
      as [[i e]|] eqn:Hfind.
    2:{ apply find_entity_None in Hfind. exfalso. by apply Hfind, Hall. }
    destruct (add_observations_loop_contained _ _ _ _ _ item i e Hloop Hitem Hfind)
      as (e1 & He1 & Hhas).
    destruct (find_entity_same_names (ObservationItem.entityName item)
                (entities graph) (entities graph1) i e) as (e1' & Hfind1 & He1');
      [by apply add_observations_loop_names in Hloop as [Hn _]|done|].
    assert (e1' = e1) as -> by congruence.
    by exists i, e1. }
  rewrite (add_observations_loaded _ _ _ _ _ _ _ Hload1 Hagain). cbn [fst snd].
  split; [done|]. by rewrite read_graph_file_saved, Hload1.
Qed.

End AddObservationsBatch.

Lemma add_observations_succeeds_witness :
  ∃ results graph',
    (add_observations demo_digest demo_dir
       (AddObservationsRequest.mk "u1"
          [ObservationItem.mk "Alice" ["likes tea"; "x"]; ObservationItem.mk "Bob" ["y"];
           ObservationItem.mk "Alice" ["x"; "z"]])
       demo_files2).1 = inr results
    ∧ (read_graph_file (get_memory_file_path demo_digest demo_dir "u1")
         (add_observations demo_digest demo_dir
            (AddObservationsRequest.mk "u1"
               [ObservationItem.mk "Alice" ["likes tea"; "x"]; ObservationItem.mk "Bob" ["y"];
                ObservationItem.mk "Alice" ["x"; "z"]])
            demo_files2).2).1 = inr graph'
    ∧ added_entityName <$> results
      = ObservationItem.entityName
          <$> [ObservationItem.mk "Alice" ["likes tea"; "x"]; ObservationItem.mk "Bob" ["y"];
               ObservationItem.mk "Alice" ["x"; "z"]]
    ∧ relations graph' = relations demo_graph
    ∧ (∀ i e, entities demo_graph !! i = Some e →
         ∃ e' added,
           entities graph' !! i = Some e'
           ∧ name e' = name e ∧ entityType e' = entityType e
           ∧ observations e' = observations e ++ added
           ∧ ∀ c, c ∈ added →
                  ∃ item, item ∈ [ObservationItem.mk "Alice" ["likes tea"; "x"];
                                  ObservationItem.mk "Bob" ["y"];
                                  ObservationItem.mk "Alice" ["x"; "z"]]
                          ∧ ObservationItem.entityName item = name e
                          ∧ c ∈ ObservationItem.contents item)
    ∧ (∀ item i e, item ∈ [ObservationItem.mk "Alice" ["likes tea"; "x"];
                           ObservationItem.mk "Bob" ["y"];
                           ObservationItem.mk "Alice" ["x"; "z"]] →
         find_entity (ObservationItem.entityName item) (entities demo_graph) = Some (i, e) →
         ∃ e', entities graph' !! i = Some e'
               ∧ ∀ c, c ∈ ObservationItem.contents item → c ∈ observations e').
Proof.
  apply (add_observations_succeeds demo_digest demo_dir
           (AddObservationsRequest.mk "u1"
              [ObservationItem.mk "Alice" ["likes tea"; "x"]; ObservationItem.mk "Bob" ["y"];
               ObservationItem.mk "Alice" ["x"; "z"]])
           demo_files2 demo_graph).
  - vm_compute. reflexivity.
  - intros item Hitem.
    repeat (apply elem_of_cons in Hitem as [->|Hitem];
            [apply (bool_decide_unpack _); vm_compute; exact I|]).
    by apply elem_of_nil in Hitem.
Defined.

Lemma add_observations_again_adds_nothing_witness :
  (add_observations demo_digest demo_dir
     (AddObservationsRequest.mk "u1" [ObservationItem.mk "Alice" ["x"; "z"]])
     (add_observations demo_digest demo_dir
        (AddObservationsRequest.mk "u1" [ObservationItem.mk "Alice" ["x"; "z"]])
        demo_files2).2).1
  = inr ((λ item, mkAdded (ObservationItem.entityName item) [])
           <$> [ObservationItem.mk "Alice" ["x"; "z"]])
  ∧ (read_graph_file (get_memory_file_path demo_digest demo_dir "u1")
       (add_observations demo_digest demo_dir
          (AddObservationsRequest.mk "u1" [ObservationItem.mk "Alice" ["x"; "z"]])
          (add_observations demo_digest demo_dir
             (AddObservationsRequest.mk "u1" [ObservationItem.mk "Alice" ["x"; "z"]])
             demo_files2).2).2).1
    = (read_graph_file (get_memory_file_path demo_digest demo_dir "u1")
         (add_observations demo_digest demo_dir
            (AddObservationsRequest.mk "u1" [ObservationItem.mk "Alice" ["x"; "z"]])
            demo_files2).2).1.
Proof.
  apply (add_observations_again_adds_nothing demo_digest demo_dir
           (AddObservationsRequest.mk "u1" [ObservationItem.mk "Alice" ["x"; "z"]])
           demo_files2 demo_graph).
  - vm_compute. reflexivity.
  - intros item Hitem.
    repeat (apply elem_of_cons in Hitem as [->|Hitem];
            [apply (bool_decide_unpack _); vm_compute; exact I|]).
    by apply elem_of_nil in Hitem.
Defined.

(** ** Opening nodes *)

Section OpenNodes.

Context (sha256_hexdigest : string → string) (DATA_DIR : string).

Local Abbreviation path_of := (get_memory_file_path sha256_hexdigest DATA_DIR).

(** X7. Once the graph is loaded, [open_nodes] does not raise and
    returns exactly the entities whose name is in the list, and exactly
    the relations whose two ends are names of returned entities, both in
    the order of the graph. Names that the graph does not have give
    nothing: a list without a name of the graph returns the empty
    graph. *)
Theorem open_nodes_returns_named (req : OpenNodesRequest.t) (fs : files)
    (graph : KnowledgeGraph) :
  (read_graph_file (path_of (OpenNodesRequest.user_id req)) fs).1 = inr graph →
  ∃ found,
    open_nodes sha256_hexdigest DATA_DIR req fs = (inr found, fs)
    ∧ (∀ e, e ∈ entities found
            ↔ e ∈ entities graph ∧ name e ∈ OpenNodesRequest.names req)
    ∧ (∀ r, r ∈ relations found
            ↔ r ∈ relations graph
              ∧ (∃ e1, e1 ∈ entities found ∧ name e1 = from_ r)
              ∧ (∃ e2, e2 ∈ entities found ∧ name e2 = to r))
    ∧ entities found `sublist_of` entities graph
    ∧ relations found `sublist_of` relations graph
    ∧ ((∀ n, n ∈ OpenNodesRequest.names req → n ∉ (name <$> entities graph)) →
       found = mkGraph [] []).
Proof.
  intros Hload. unfold open_nodes. rewrite (run_loaded _ _ _ _ Hload).
  eexists. split; [reflexivity|]. cbn [entities relations].
  split.
  { intros e. rewrite list_elem_of_filter. tauto. }
  split.
  { intros r. rewrite list_elem_of_filter, !elem_of_list_to_set, !list_elem_of_fmap.
    split.
    - intros [[(e1 & H1 & He1) (e2 & H2 & He2)] Hr]. split; [done|].
      split; [by exists e1|by exists e2].
    - intros (Hr & (e1 & He1 & H1) & (e2 & He2 & H2)). split; [|done].
      split; [by exists e1|by exists e2]. }
  split; [apply sublist_filter|]. split; [apply sublist_filter|].
  intros Hnone.
  assert (Hents : filter (λ e, name e ∈ OpenNodesRequest.names req) (entities graph) = []).
  { apply filter_none, Forall_forall. intros e He Hn. apply (Hnone _ Hn).
    apply list_elem_of_fmap. by exists e. }
  rewrite Hents. f_equal.
  apply filter_none, Forall_forall. intros r _ [Hfrom _].
  by apply elem_of_list_to_set, elem_of_nil in Hfrom.
Qed.

End OpenNodes.

Lemma open_nodes_returns_named_witness :
  ∃ found,
    open_nodes demo_digest demo_dir (OpenNodesRequest.mk "u1" ["Alice"; "Nobody"]) demo_files2
    = (inr found, demo_files2)
    ∧ (∀ e, e ∈ entities found
            ↔ e ∈ entities demo_graph ∧ name e ∈ ["Alice"; "Nobody"])
    ∧ (∀ r, r ∈ relations found
            ↔ r ∈ relations demo_graph
              ∧ (∃ e1, e1 ∈ entities found ∧ name e1 = from_ r)
              ∧ (∃ e2, e2 ∈ entities found ∧ name e2 = to r))
    ∧ entities found `sublist_of` entities demo_graph
    ∧ relations found `sublist_of` relations demo_graph
    ∧ ((∀ n, n ∈ ["Alice"; "Nobody"] → n ∉ (name <$> entities demo_graph)) →
       found = mkGraph [] []).
Proof.
  apply (open_nodes_returns_named demo_digest demo_dir
           (OpenNodesRequest.mk "u1" ["Alice"; "Nobody"]) demo_files2 demo_graph).
  vm_compute. reflexivity.
Defined.

(** ** The file of a user *)

(** A text is cut off at its end in one way only. *)
Lemma append_inj_r (s t u : string) : s +:+ u = t +:+ u → s = t.
Proof.
  revert t. induction s as [|a s IH]; intros t Heq.
  - destruct t as [|b t]; [done|]. exfalso.
    apply (f_equal String.length) in Heq.
    rewrite append_nil_l, length_append in Heq. cbn in Heq. lia.
  - destruct t as [|b t].
    + exfalso. apply (f_equal String.length) in Heq.
      rewrite append_nil_l, length_append in Heq. cbn in Heq. lia.
    + rewrite !append_cons in Heq. injection Heq as -> Heq. f_equal. by apply IH.
Qed.

Lemma append_inj_l (s t u : string) : s +:+ t = s +:+ u → t = u.
Proof.
  induction s as [|a s IH]; [done|].
  rewrite !append_cons. intros [= Heq]. by apply IH.
Qed.

(** X8. Two users have the same file exactly when their identifiers have
    the same digest: the path is the same for a given user at every
    call, and users with different digests never share a file. *)
Theorem get_memory_file_path_same_file (sha256_hexdigest : string → string)
    (DATA_DIR user1 user2 : string) :
  get_memory_file_path sha256_hexdigest DATA_DIR user1
  = get_memory_file_path sha256_hexdigest DATA_DIR user2
  ↔ sha256_hexdigest user1 = sha256_hexdigest user2.
Proof.
  unfold get_memory_file_path. split; [|by intros ->].
  intros Heq. apply append_inj_l, append_inj_l in Heq. by apply append_inj_r in Heq.
Qed.

(** ** What a mutation leaves alone *)

Section Isolation.

Context (sha256_hexdigest : string → string) (DATA_DIR : string).

Local Abbreviation path_of := (get_memory_file_path sha256_hexdigest DATA_DIR).

(** An endpoint that loads the graph and then saves one writes the file
    it loaded, or nothing when the load raises. *)
Lemma load_then_save_other {A : Type} (file_path other : string)
    (k : KnowledgeGraph → io A) (fs : files) :
  (∀ graph fs', (k graph fs').2 = fs' ∨ ∃ content, (k graph fs').2 = <[file_path := content]> fs') →
  other ≠ file_path →
  ((read_graph_file file_path ≫= k) fs).2 !! other = fs !! other.
Proof.
  intros Hk Hne.
  destruct (read_graph_file file_path fs).1 as [e|graph] eqn:Hload.
  - by rewrite (run_failed _ _ _ _ Hload).
  - rewrite (run_loaded _ _ _ _ Hload).
    destruct (Hk graph fs) as [->|[content ->]]; [done|].
    by rewrite lookup_insert_ne.
Qed.

(** X9. A mutating endpoint writes no file but the file of the user of
    the request: every other file holds after the call what it held
    before, whether the call succeeds or raises. *)
Theorem mutations_leave_other_files (user_id other : string) (fs : files) :
  other ≠ path_of user_id →
  (∀ ents, (create_entities sha256_hexdigest DATA_DIR
              (CreateEntitiesRequest.mk user_id ents) fs).2 !! other = fs !! other)
  ∧ (∀ rels, (create_relations sha256_hexdigest DATA_DIR
                (CreateRelationsRequest.mk user_id rels) fs).2 !! other = fs !! other)
  ∧ (∀ items, (add_observations sha256_hexdigest DATA_DIR
                 (AddObservationsRequest.mk user_id items) fs).2 !! other = fs !! other)
  ∧ (∀ names, (delete_entities sha256_hexdigest DATA_DIR
                 (DeleteEntitiesRequest.mk user_id names) fs).2 !! other = fs !! other)
  ∧ (∀ deletions, (delete_observations sha256_hexdigest DATA_DIR
                     (DeleteObservationsRequest.mk user_id deletions) fs).2 !! other
                  = fs !! other)
  ∧ (∀ rels, (delete_relations sha256_hexdigest DATA_DIR
                (DeleteRelationsRequest.mk user_id rels) fs).2 !! other = fs !! other).
Proof.
  intros Hne. repeat split; intros payload.
  - apply load_then_save_other; [|done]. intros graph fs'. right. by eexists.
  - apply load_then_save_other; [|done]. intros graph fs'. right. by eexists.
  - apply load_then_save_other; [|done]. intros graph fs'.
    rewrite io_bind_eq. unfold lift.
    destruct (add_observations_loop _ graph []) as [e|[graph1 results]]; [by left|].
    right. by eexists.
  - apply load_then_save_other; [|done]. intros graph fs'. right. by eexists.
  - apply load_then_save_other; [|done]. intros graph fs'. right. by eexists.
  - apply load_then_save_other; [|done]. intros graph fs'. right. by eexists.
Qed.

(** X10. When the file of a user does not load, every endpoint raises
    the exception of the load for that user and writes nothing: a file
    that cannot be read is never replaced. *)
Theorem unreadable_file_is_kept (user_id : string) (fs : files) (e : exn) :
  (read_graph_file (path_of user_id) fs).1 = inl e →
  (∀ ents, create_entities sha256_hexdigest DATA_DIR
             (CreateEntitiesRequest.mk user_id ents) fs = (inl e, fs))
  ∧ (∀ rels, create_relations sha256_hexdigest DATA_DIR
               (CreateRelationsRequest.mk user_id rels) fs = (inl e, fs))
  ∧ (∀ items, add_observations sha256_hexdigest DATA_DIR
                (AddObservationsRequest.mk user_id items) fs = (inl e, fs))
  ∧ (∀ names, delete_entities sha256_hexdigest DATA_DIR
                (DeleteEntitiesRequest.mk user_id names) fs = (inl e, fs))
  ∧ (∀ deletions, delete_observations sha256_hexdigest DATA_DIR
                    (DeleteObservationsRequest.mk user_id deletions) fs = (inl e, fs))
  ∧ (∀ rels, delete_relations sha256_hexdigest DATA_DIR
               (DeleteRelationsRequest.mk user_id rels) fs = (inl e, fs))
  ∧ read_graph sha256_hexdigest DATA_DIR user_id fs = (inl e, fs)
  ∧ (∀ query, search_nodes sha256_hexdigest DATA_DIR
                (SearchNodesRequest.mk user_id query) fs = (inl e, fs))
  ∧ (∀ names, open_nodes sha256_hexdigest DATA_DIR
                (OpenNodesRequest.mk user_id names) fs = (inl e, fs)).
Proof.
  intros Hload. repeat split; intros;
    try (by apply (run_failed _ _ _ _ Hload)).
  unfold read_graph. by rewrite read_graph_file_pair, Hload.
Qed.

End Isolation.

Lemma unreadable_file_is_kept_witness :
  (∀ ents, create_entities demo_digest demo_dir (CreateEntitiesRequest.mk "u1" ents)
             {[ get_memory_file_path demo_digest demo_dir "u1" := "{oops" ]}
           = (inl (JSONDecodeError "{oops"),
              {[ get_memory_file_path demo_digest demo_dir "u1" := "{oops" ]}))
  ∧ (∀ rels, create_relations demo_digest demo_dir (CreateRelationsRequest.mk "u1" rels)
               {[ get_memory_file_path demo_digest demo_dir "u1" := "{oops" ]}
             = (inl (JSONDecodeError "{oops"),
                {[ get_memory_file_path demo_digest demo_dir "u1" := "{oops" ]}))
  ∧ (∀ items, add_observations demo_digest demo_dir (AddObservationsRequest.mk "u1" items)
                {[ get_memory_file_path demo_digest demo_dir "u1" := "{oops" ]}
              = (inl (JSONDecodeError "{oops"),
                 {[ get_memory_file_path demo_digest demo_dir "u1" := "{oops" ]}))
  ∧ (∀ names, delete_entities demo_digest demo_dir (DeleteEntitiesRequest.mk "u1" names)
                {[ get_memory_file_path demo_digest demo_dir "u1" := "{oops" ]}
              = (inl (JSONDecodeError "{oops"),
                 {[ get_memory_file_path demo_digest demo_dir "u1" := "{oops" ]}))
  ∧ (∀ deletions, delete_observations demo_digest demo_dir
                    (DeleteObservationsRequest.mk "u1" deletions)
                    {[ get_memory_file_path demo_digest demo_dir "u1" := "{oops" ]}
                  = (inl (JSONDecodeError "{oops"),
                     {[ get_memory_file_path demo_digest demo_dir "u1" := "{oops" ]}))
  ∧ (∀ rels, delete_relations demo_digest demo_dir (DeleteRelationsRequest.mk "u1" rels)
               {[ get_memory_file_path demo_digest demo_dir "u1" := "{oops" ]}
             = (inl (JSONDecodeError "{oops"),
                {[ get_memory_file_path demo_digest demo_dir "u1" := "{oops" ]}))
  ∧ read_graph demo_digest demo_dir "u1"
      {[ get_memory_file_path demo_digest demo_dir "u1" := "{oops" ]}
    = (inl (JSONDecodeError "{oops"),
       {[ get_memory_file_path demo_digest demo_dir "u1" := "{oops" ]})
  ∧ (∀ query, search_nodes demo_digest demo_dir (SearchNodesRequest.mk "u1" query)
                {[ get_memory_file_path demo_digest demo_dir "u1" := "{oops" ]}
              = (inl (JSONDecodeError "{oops"),
                 {[ get_memory_file_path demo_digest demo_dir "u1" := "{oops" ]}))
  ∧ (∀ names, open_nodes demo_digest demo_dir (OpenNodesRequest.mk "u1" names)
                {[ get_memory_file_path demo_digest demo_dir "u1" := "{oops" ]}
              = (inl (JSONDecodeError "{oops"),
                 {[ get_memory_file_path demo_digest demo_dir "u1" := "{oops" ]})).
Proof.
  apply (unreadable_file_is_kept demo_digest demo_dir "u1"
           {[ get_memory_file_path demo_digest demo_dir "u1" := "{oops" ]}
           (JSONDecodeError "{oops")).
  vm_compute. reflexivity.
Defined.

Lemma mutations_leave_other_files_witness :
  (∀ ents, (create_entities demo_digest demo_dir
              (CreateEntitiesRequest.mk "u2" ents) demo_files2).2
           !! get_memory_file_path demo_digest demo_dir "u1"
           = demo_files2 !! get_memory_file_path demo_digest demo_dir "u1")
  ∧ (∀ rels, (create_relations demo_digest demo_dir
                (CreateRelationsRequest.mk "u2" rels) demo_files2).2
             !! get_memory_file_path demo_digest demo_dir "u1"
             = demo_files2 !! get_memory_file_path demo_digest demo_dir "u1")
  ∧ (∀ items, (add_observations demo_digest demo_dir
                 (AddObservationsRequest.mk "u2" items) demo_files2).2
              !! get_memory_file_path demo_digest demo_dir "u1"
              = demo_files2 !! get_memory_file_path demo_digest demo_dir "u1")
  ∧ (∀ names, (delete_entities demo_digest demo_dir
                 (DeleteEntitiesRequest.mk "u2" names) demo_files2).2
              !! get_memory_file_path demo_digest demo_dir "u1"
              = demo_files2 !! get_memory_file_path demo_digest demo_dir "u1")
  ∧ (∀ deletions, (delete_observations demo_digest demo_dir
                     (DeleteObservationsRequest.mk "u2" deletions) demo_files2).2
                  !! get_memory_file_path demo_digest demo_dir "u1"
                  = demo_files2 !! get_memory_file_path demo_digest demo_dir "u1")
  ∧ (∀ rels, (delete_relations demo_digest demo_dir
                (DeleteRelationsRequest.mk "u2" rels) demo_files2).2
             !! get_memory_file_path demo_digest demo_dir "u1"
             = demo_files2 !! get_memory_file_path demo_digest demo_dir "u1").
Proof.
  apply (mutations_leave_other_files demo_digest demo_dir "u2"
           (get_memory_file_path demo_digest demo_dir "u1") demo_files2).
  vm_compute. discriminate.
Defined.

(** ** Loading: what is passed over *)

(** X11. A line that holds a JSON object whose [type] is neither
    [entity] nor [relation] is passed over by the load without an error:
    the graph loaded is the graph of the other lines. *)
Theorem load_lines_skips_other_types (before after : list string) (line : string)
    (item : list (string * Json.value)) (ents : list Entity) (rels : list Relation) :
  Json.loads line = Some (Json.JObj item) →
  type_is "entity" item = false →
  type_is "relation" item = false →
  load_lines (before ++ line :: after) ents rels
  = load_lines (before ++ after) ents rels.
Proof.
  intros Hline Hent Hrel. rewrite !load_lines_app.
  destruct (load_lines before ents rels) as [e|graph]; [done|].
  cbn [load_lines]. by rewrite Hline, Hent, Hrel.
Qed.

Lemma load_lines_skips_other_types_witness :
  load_lines ([entity_line alice] ++ Json.dumps (Json.JObj [("type", Json.JStr "note"); ("text", Json.JNum "1")])
                :: [relation_line knows]) [] []
  = load_lines ([entity_line alice] ++ [relation_line knows]) [] [].
Proof.
  apply (load_lines_skips_other_types [entity_line alice] [relation_line knows]
           (Json.dumps (Json.JObj [("type", Json.JStr "note"); ("text", Json.JNum "1")]))
           [("type", Json.JStr "note"); ("text", Json.JNum "1")] [] []).
  - vm_compute. reflexivity.
  - reflexivity.
  - reflexivity.
Defined.

(** ** A user without a file *)

Lemma read_graph_file_missing (file_path : string) (fs : files) :
  fs !! file_path = None →
  (read_graph_file file_path fs).1 = inr (mkGraph [] []).
Proof. intros Hnone. by rewrite read_graph_file_lookup, Hnone. Qed.

Lemma delete_observations_loop_empty (deletions : list DeletionItem.t)
    (rels : list Relation) :
  delete_observations_loop deletions (mkGraph [] rels) = mkGraph [] rels.
Proof. induction deletions as [|d ds IH]; [done|]. exact IH. Qed.

Section NewUser.

Context (sha256_hexdigest : string → string) (DATA_DIR : string).

Local Abbreviation path_of := (get_memory_file_path sha256_hexdigest DATA_DIR).

(** X12. For a user who has no file, the three read operations return
    the empty graph, and they do not create the file. *)
Theorem new_user_reads_empty_graph (user_id : string) (fs : files) :
  fs !! path_of user_id = None →
  read_graph sha256_hexdigest DATA_DIR user_id fs = (inr (mkGraph [] []), fs)
  ∧ (∀ query, search_nodes sha256_hexdigest DATA_DIR
                (SearchNodesRequest.mk user_id query) fs = (inr (mkGraph [] []), fs))
  ∧ (∀ names, open_nodes sha256_hexdigest DATA_DIR
                (OpenNodesRequest.mk user_id names) fs = (inr (mkGraph [] []), fs)).
Proof.
  intros Hnone. pose proof (read_graph_file_missing _ _ Hnone) as Hload.
  split; [|split].
  - unfold read_graph. by rewrite read_graph_file_pair, Hload.
  - intros query. unfold search_nodes. cbn [SearchNodesRequest.user_id].
    by rewrite (run_loaded _ _ _ _ Hload).
  - intros names. unfold open_nodes. cbn [OpenNodesRequest.user_id].
    by rewrite (run_loaded _ _ _ _ Hload).
Qed.

(** X13. For a user who has no file, [create_entities] returns and
    stores its whole input, repeated names included, and
    [create_relations] returns and stores its whole input although the
    graph has no entity for a relation to start or end at. *)
Theorem new_user_create_stores_input (user_id : string) (fs : files) :
  fs !! path_of user_id = None →
  (∀ ents, create_entities sha256_hexdigest DATA_DIR
             (CreateEntitiesRequest.mk user_id ents) fs
           = (inr ents, <[path_of user_id := graph_text (mkGraph ents [])]> fs))
  ∧ (∀ rels, create_relations sha256_hexdigest DATA_DIR
               (CreateRelationsRequest.mk user_id rels) fs
             = (inr rels, <[path_of user_id := graph_text (mkGraph [] rels)]> fs)).
Proof.
  intros Hnone. pose proof (read_graph_file_missing _ _ Hnone) as Hload. split.
  - intros ents.
    rewrite (create_entities_loaded _ _ (CreateEntitiesRequest.mk user_id ents) _ _ Hload).
    cbn [CreateEntitiesRequest.entities CreateEntitiesRequest.user_id entities relations
         fmap list_fmap app].
    rewrite filter_all; [done|]. apply Forall_forall. intros e _. apply not_elem_of_nil.
  - intros rels.
    rewrite (create_relations_loaded _ _ (CreateRelationsRequest.mk user_id rels) _ _ Hload).
    cbn [CreateRelationsRequest.relations CreateRelationsRequest.user_id entities relations
         fmap list_fmap app].
    rewrite filter_all; [done|]. apply Forall_forall. intros e _. apply not_elem_of_nil.
Qed.

(** X14. For a user who has no file, each of the three delete operations
    answers as if it had deleted something and leaves an empty file
    behind; [add_observations] does so for the empty batch, and for any
    other batch raises the 404 exception for the first item and leaves
    no file. *)
Theorem new_user_delete_writes_empty_file (user_id : string) (fs : files) :
  fs !! path_of user_id = None →
  (∀ names, delete_entities sha256_hexdigest DATA_DIR
              (DeleteEntitiesRequest.mk user_id names) fs
            = (inr "Entities deleted successfully", <[path_of user_id := ""]> fs))
  ∧ (∀ deletions, delete_observations sha256_hexdigest DATA_DIR
                    (DeleteObservationsRequest.mk user_id deletions) fs
                  = (inr "Observations deleted successfully", <[path_of user_id := ""]> fs))
  ∧ (∀ rels, delete_relations sha256_hexdigest DATA_DIR
               (DeleteRelationsRequest.mk user_id rels) fs
             = (inr "Relations deleted successfully", <[path_of user_id := ""]> fs))
  ∧ add_observations sha256_hexdigest DATA_DIR (AddObservationsRequest.mk user_id []) fs
    = (inr [], <[path_of user_id := ""]> fs)
  ∧ (∀ item items, add_observations sha256_hexdigest DATA_DIR
                     (AddObservationsRequest.mk user_id (item :: items)) fs
                   = (inl (HTTPException 404
                             ("Entity " +:+ ObservationItem.entityName item
                              +:+ " not found")), fs)).
Proof.
  intros Hnone. pose proof (read_graph_file_missing _ _ Hnone) as Hload.
  split; [|split; [|split; [|split]]].
  - intros names.
    by rewrite (delete_entities_loaded _ _ (DeleteEntitiesRequest.mk user_id names) _ _ Hload).
  - intros deletions.
    rewrite (delete_observations_loaded _ _
               (DeleteObservationsRequest.mk user_id deletions) _ _ Hload).
    cbn [DeleteObservationsRequest.deletions DeleteObservationsRequest.user_id].
    by rewrite delete_observations_loop_empty.
  - intros rels.
    by rewrite (delete_relations_loaded _ _ (DeleteRelationsRequest.mk user_id rels) _ _ Hload).
  - by rewrite (add_observations_loaded _ _ (AddObservationsRequest.mk user_id []) _
                  (mkGraph [] []) (mkGraph [] []) [] Hload).
  - intros item items. unfold add_observations.
    cbn [AddObservationsRequest.user_id AddObservationsRequest.observations].
    by rewrite (run_loaded _ _ _ _ Hload).
Qed.

(** X15. Once the graph is loaded, a request with an empty list changes
    nothing in the graph, but it does write: the file of the user is
    replaced by the text of the graph that was loaded, so that lines of
    other kinds and blank lines are gone from it. *)
Theorem empty_request_rewrites_file (user_id : string) (fs : files)
    (graph : KnowledgeGraph) :
  (read_graph_file (path_of user_id) fs).1 = inr graph →
  create_entities sha256_hexdigest DATA_DIR (CreateEntitiesRequest.mk user_id []) fs
    = (inr [], <[path_of user_id := graph_text graph]> fs)
  ∧ create_relations sha256_hexdigest DATA_DIR (CreateRelationsRequest.mk user_id []) fs
    = (inr [], <[path_of user_id := graph_text graph]> fs)
  ∧ add_observations sha256_hexdigest DATA_DIR (AddObservationsRequest.mk user_id []) fs
    = (inr [], <[path_of user_id := graph_text graph]> fs)
  ∧ delete_entities sha256_hexdigest DATA_DIR (DeleteEntitiesRequest.mk user_id []) fs
    = (inr "Entities deleted successfully", <[path_of user_id := graph_text graph]> fs)
  ∧ delete_observations sha256_hexdigest DATA_DIR
      (DeleteObservationsRequest.mk user_id []) fs
    = (inr "Observations deleted successfully", <[path_of user_id := graph_text graph]> fs)
  ∧ delete_relations sha256_hexdigest DATA_DIR (DeleteRelationsRequest.mk user_id []) fs
    = (inr "Relations deleted successfully", <[path_of user_id := graph_text graph]> fs).
Proof.
  intros Hload. destruct graph as [ents rels].
  split; [|split; [|split; [|split; [|split]]]].
  - rewrite (create_entities_loaded _ _ (CreateEntitiesRequest.mk user_id []) _ _ Hload).
    cbn [CreateEntitiesRequest.entities CreateEntitiesRequest.user_id entities relations].
    by rewrite filter_nil, app_nil_r.
  - rewrite (create_relations_loaded _ _ (CreateRelationsRequest.mk user_id []) _ _ Hload).
    cbn [CreateRelationsRequest.relations CreateRelationsRequest.user_id entities relations].
    by rewrite filter_nil, app_nil_r.
  - by rewrite (add_observations_loaded _ _ (AddObservationsRequest.mk user_id []) _
                  _ (mkGraph ents rels) [] Hload).
  - rewrite (delete_entities_loaded _ _ (DeleteEntitiesRequest.mk user_id []) _ _ Hload).
    cbn [DeleteEntitiesRequest.entityNames DeleteEntitiesRequest.user_id entities relations].
    rewrite !filter_all; [done| |].
    + apply Forall_forall. intros r _. split; apply not_elem_of_nil.
    + apply Forall_forall. intros e _. apply not_elem_of_nil.
  - by rewrite (delete_observations_loaded _ _
                  (DeleteObservationsRequest.mk user_id []) _ _ Hload).
  - rewrite (delete_relations_loaded _ _ (DeleteRelationsRequest.mk user_id []) _ _ Hload).
    cbn [DeleteRelationsRequest.relations DeleteRelationsRequest.user_id entities relations
         fmap list_fmap].
    rewrite filter_all; [done|]. apply Forall_forall. intros r _. apply not_elem_of_nil.
Qed.

End NewUser.

Lemma new_user_reads_empty_graph_witness :
  read_graph demo_digest demo_dir "u2" demo_files2 = (inr (mkGraph [] []), demo_files2)
  ∧ (∀ query, search_nodes demo_digest demo_dir
                (SearchNodesRequest.mk "u2" query) demo_files2
              = (inr (mkGraph [] []), demo_files2))
  ∧ (∀ names, open_nodes demo_digest demo_dir
                (OpenNodesRequest.mk "u2" names) demo_files2
              = (inr (mkGraph [] []), demo_files2)).
Proof.
  apply (new_user_reads_empty_graph demo_digest demo_dir "u2" demo_files2).
  vm_compute. reflexivity.
Defined.

Lemma new_user_create_stores_input_witness :
  (∀ ents, create_entities demo_digest demo_dir
             (CreateEntitiesRequest.mk "u2" ents) demo_files2
           = (inr ents,
              <[get_memory_file_path demo_digest demo_dir "u2"
                  := graph_text (mkGraph ents [])]> demo_files2))
  ∧ (∀ rels, create_relations demo_digest demo_dir
               (CreateRelationsRequest.mk "u2" rels) demo_files2
             = (inr rels,
                <[get_memory_file_path demo_digest demo_dir "u2"
                    := graph_text (mkGraph [] rels)]> demo_files2)).
Proof.
  apply (new_user_create_stores_input demo_digest demo_dir "u2" demo_files2).
  vm_compute. reflexivity.
Defined.

Lemma new_user_delete_writes_empty_file_witness :
  (∀ names, delete_entities demo_digest demo_dir
              (DeleteEntitiesRequest.mk "u2" names) demo_files2
            = (inr "Entities deleted successfully",
               <[get_memory_file_path demo_digest demo_dir "u2" := ""]> demo_files2))
  ∧ (∀ deletions, delete_observations demo_digest demo_dir
                    (DeleteObservationsRequest.mk "u2" deletions) demo_files2
                  = (inr "Observations deleted successfully",
                     <[get_memory_file_path demo_digest demo_dir "u2" := ""]> demo_files2))
  ∧ (∀ rels, delete_relations demo_digest demo_dir
               (DeleteRelationsRequest.mk "u2" rels) demo_files2
             = (inr "Relations deleted successfully",
                <[get_memory_file_path demo_digest demo_dir "u2" := ""]> demo_files2))
  ∧ add_observations demo_digest demo_dir (AddObservationsRequest.mk "u2" []) demo_files2
    = (inr [], <[get_memory_file_path demo_digest demo_dir "u2" := ""]> demo_files2)
  ∧ (∀ item items, add_observations demo_digest demo_dir
                     (AddObservationsRequest.mk "u2" (item :: items)) demo_files2
                   = (inl (HTTPException 404
                             ("Entity " +:+ ObservationItem.entityName item
                              +:+ " not found")), demo_files2)).
Proof.
  apply (new_user_delete_writes_empty_file demo_digest demo_dir "u2" demo_files2).
  vm_compute. reflexivity.
Defined.

Lemma empty_request_rewrites_file_witness :
  create_entities demo_digest demo_dir (CreateEntitiesRequest.mk "u1" []) demo_files2
    = (inr [], <[get_memory_file_path demo_digest demo_dir "u1"
                   := graph_text demo_graph]> demo_files2)
  ∧ create_relations demo_digest demo_dir (CreateRelationsRequest.mk "u1" []) demo_files2
    = (inr [], <[get_memory_file_path demo_digest demo_dir "u1"
                   := graph_text demo_graph]> demo_files2)
  ∧ add_observations demo_digest demo_dir (AddObservationsRequest.mk "u1" []) demo_files2
    = (inr [], <[get_memory_file_path demo_digest demo_dir "u1"
                   := graph_text demo_graph]> demo_files2)
  ∧ delete_entities demo_digest demo_dir (DeleteEntitiesRequest.mk "u1" []) demo_files2
    = (inr "Entities deleted successfully",
       <[get_memory_file_path demo_digest demo_dir "u1" := graph_text demo_graph]> demo_files2)
  ∧ delete_observations demo_digest demo_dir
      (DeleteObservationsRequest.mk "u1" []) demo_files2
    = (inr "Observations deleted successfully",
       <[get_memory_file_path demo_digest demo_dir "u1" := graph_text demo_graph]> demo_files2)
  ∧ delete_relations demo_digest demo_dir (DeleteRelationsRequest.mk "u1" []) demo_files2
    = (inr "Relations deleted successfully",
       <[get_memory_file_path demo_digest demo_dir "u1" := graph_text demo_graph]> demo_files2).
Proof.
  apply (empty_request_rewrites_file demo_digest demo_dir "u1" demo_files2 demo_graph).
  vm_compute. reflexivity.
Defined.

(** ** Relations and their ends *)

Lemma closed_same_names (graph graph' : KnowledgeGraph) :
  name <$> entities graph' = name <$> entities graph →
  relations graph' = relations graph →
  closed graph → closed graph'.
Proof. unfold closed. by intros -> ->. Qed.

Lemma triple_inj (r r' : Relation) : triple r = triple r' → r = r'.
Proof. destruct r, r'. by intros [= -> -> ->]. Qed.

Section Closed.

Context (sha256_hexdigest : string → string) (DATA_DIR : string).

Local Abbreviation path_of := (get_memory_file_path sha256_hexdigest DATA_DIR).

(** X16. When every relation of the loaded graph starts and ends at the
    name of one of its entities, this is so again for the graph stored
    by [create_entities], [delete_entities], [delete_observations] and
    [delete_relations], and for the graph in the file after
    [add_observations], whether it saved or raised: deleting an entity
    takes its relations with it. *)
Theorem closed_kept (user_id : string) (fs : files) (graph : KnowledgeGraph) :
  closed graph →
  (read_graph_file (path_of user_id) fs).1 = inr graph →
  (∀ ents, ∃ graph',
      (read_graph_file (path_of user_id)
         (create_entities sha256_hexdigest DATA_DIR
            (CreateEntitiesRequest.mk user_id ents) fs).2).1 = inr graph'
      ∧ closed graph')
  ∧ (∀ names, ∃ graph',
      (read_graph_file (path_of user_id)
         (delete_entities sha256_hexdigest DATA_DIR
            (DeleteEntitiesRequest.mk user_id names) fs).2).1 = inr graph'
      ∧ closed graph')
  ∧ (∀ deletions, ∃ graph',
      (read_graph_file (path_of user_id)
         (delete_observations sha256_hexdigest DATA_DIR
            (DeleteObservationsRequest.mk user_id deletions) fs).2).1 = inr graph'
      ∧ closed graph')
  ∧ (∀ rels, ∃ graph',
      (read_graph_file (path_of user_id)
         (delete_relations sha256_hexdigest DATA_DIR
            (DeleteRelationsRequest.mk user_id rels) fs).2).1 = inr graph'
      ∧ closed graph')
  ∧ (∀ items, ∃ graph',
      (read_graph_file (path_of user_id)
         (add_observations sha256_hexdigest DATA_DIR
            (AddObservationsRequest.mk user_id items) fs).2).1 = inr graph'
      ∧ closed graph').
Proof.
  intros Hclosed Hload. split; [|split; [|split; [|split]]].
  - intros ents.
    rewrite (create_entities_loaded _ _ (CreateEntitiesRequest.mk user_id ents) _ _ Hload).
    eexists. cbn [snd CreateEntitiesRequest.user_id]. rewrite read_graph_file_saved.
    split; [reflexivity|]. unfold closed in *. cbn [entities relations].
    eapply Forall_impl; [exact Hclosed|]. intros r [Hfrom Hto].
    rewrite fmap_app, !elem_of_app. by split; left.
  - intros names.
    rewrite (delete_entities_loaded _ _ (DeleteEntitiesRequest.mk user_id names) _ _ Hload).
    eexists. cbn [snd DeleteEntitiesRequest.user_id DeleteEntitiesRequest.entityNames].
    rewrite read_graph_file_saved. split; [reflexivity|].
    unfold closed in *. cbn [entities relations].
    apply Forall_forall. intros r Hr.
    apply list_elem_of_filter in Hr as [[Hnfrom Hnto] Hr].
    rewrite Forall_forall in Hclosed. destruct (Hclosed r Hr) as [Hfrom Hto].
    apply list_elem_of_fmap in Hfrom as (e1 & He1 & Hin1).
    apply list_elem_of_fmap in Hto as (e2 & He2 & Hin2).
    split; apply list_elem_of_fmap.
    + exists e1. split; [done|]. apply list_elem_of_filter. by rewrite <- He1.
    + exists e2. split; [done|]. apply list_elem_of_filter. by rewrite <- He2.
  - intros deletions.
    rewrite (delete_observations_loaded _ _
               (DeleteObservationsRequest.mk user_id deletions) _ _ Hload).
    eexists. cbn [snd DeleteObservationsRequest.user_id DeleteObservationsRequest.deletions].
    rewrite read_graph_file_saved. split; [reflexivity|].
    destruct (delete_observations_loop_names deletions graph) as [Hn Hr].
    by apply (closed_same_names graph).
  - intros rels.
    rewrite (delete_relations_loaded _ _ (DeleteRelationsRequest.mk user_id rels) _ _ Hload).
    eexists. cbn [snd DeleteRelationsRequest.user_id]. rewrite read_graph_file_saved.
    split; [reflexivity|]. unfold closed in *. cbn [entities relations].
    apply Forall_forall. intros r Hr. apply list_elem_of_filter in Hr as [_ Hr].
    rewrite Forall_forall in Hclosed. by apply Hclosed.
  - intros items.
    destruct (add_observations_loop items graph []) as [e|[graph1 results]] eqn:Hloop.
    + exists graph. split; [|done]. unfold add_observations.
      cbn [AddObservationsRequest.user_id AddObservationsRequest.observations].
      rewrite (run_loaded _ _ _ _ Hload), io_bind_eq. unfold lift.
      rewrite Hloop. cbn [snd]. exact Hload.
    + rewrite (add_observations_loaded _ _ (AddObservationsRequest.mk user_id items) _
                 _ _ _ Hload Hloop).
      exists graph1. cbn [snd AddObservationsRequest.user_id].
      rewrite read_graph_file_saved. split; [reflexivity|].
      apply add_observations_loop_names in Hloop as [Hn Hr].
      by apply (closed_same_names graph).
Qed.

(** X17. [create_relations] does not look at the entities: a relation
    of the request whose start or end is the name of no entity of the
    loaded graph is in the graph that is stored, which then has a
    relation without an entity at one of its ends. *)
Theorem create_relations_stores_dangling (req : CreateRelationsRequest.t) (fs : files)
    (graph : KnowledgeGraph) (r : Relation) :
  (read_graph_file (path_of (CreateRelationsRequest.user_id req)) fs).1 = inr graph →
  r ∈ CreateRelationsRequest.relations req →
  (from_ r ∉ (name <$> entities graph)) ∨ (to r ∉ (name <$> entities graph)) →
  ∃ graph',
    (read_graph_file (path_of (CreateRelationsRequest.user_id req))
       (create_relations sha256_hexdigest DATA_DIR req fs).2).1 = inr graph'
    ∧ entities graph' = entities graph
    ∧ r ∈ relations graph'
    ∧ ¬ closed graph'.
Proof.
  intros Hload Hr Hends. rewrite (create_relations_loaded _ _ _ _ _ Hload).
  eexists. cbn [snd]. rewrite read_graph_file_saved. split; [reflexivity|].
  cbn [entities relations]. split; [done|].
  assert (Hin : r ∈ relations graph
                    ++ filter (λ r0, triple r0 ∉ (triple <$> relations graph))
                         (CreateRelationsRequest.relations req)).
  { rewrite elem_of_app.
    destruct (decide (triple r ∈ triple <$> relations graph)) as [Hold|Hnew].
    - left. apply list_elem_of_fmap in Hold as (r' & Heq & Hr').
      by rewrite (triple_inj _ _ Heq).
    - right. by apply list_elem_of_filter. }
  split; [done|]. unfold closed. cbn [entities relations].
  rewrite Forall_forall. intros Hall. destruct (Hall r Hin) as [Hfrom Hto].
  by destruct Hends.
Qed.

End Closed.

Lemma closed_kept_witness :
  (∀ ents, ∃ graph',
      (read_graph_file (get_memory_file_path demo_digest demo_dir "u1")
         (create_entities demo_digest demo_dir
            (CreateEntitiesRequest.mk "u1" ents) demo_files2).2).1 = inr graph'
      ∧ closed graph')
  ∧ (∀ names, ∃ graph',
      (read_graph_file (get_memory_file_path demo_digest demo_dir "u1")
         (delete_entities demo_digest demo_dir
            (DeleteEntitiesRequest.mk "u1" names) demo_files2).2).1 = inr graph'
      ∧ closed graph')
  ∧ (∀ deletions, ∃ graph',
      (read_graph_file (get_memory_file_path demo_digest demo_dir "u1")
         (delete_observations demo_digest demo_dir
            (DeleteObservationsRequest.mk "u1" deletions) demo_files2).2).1 = inr graph'
      ∧ closed graph')
  ∧ (∀ rels, ∃ graph',
      (read_graph_file (get_memory_file_path demo_digest demo_dir "u1")
         (delete_relations demo_digest demo_dir
            (DeleteRelationsRequest.mk "u1" rels) demo_files2).2).1 = inr graph'
      ∧ closed graph')
  ∧ (∀ items, ∃ graph',
      (read_graph_file (get_memory_file_path demo_digest demo_dir "u1")
         (add_observations demo_digest demo_dir
            (AddObservationsRequest.mk "u1" items) demo_files2).2).1 = inr graph'
      ∧ closed graph').
Proof.
  apply (closed_kept demo_digest demo_dir "u1" demo_files2 demo_graph).
  - apply (bool_decide_unpack _). vm_compute. exact I.
  - vm_compute. reflexivity.
Defined.

Lemma create_relations_stores_dangling_witness :
  ∃ graph',
    (read_graph_file (get_memory_file_path demo_digest demo_dir "u1")
       (create_relations demo_digest demo_dir
          (CreateRelationsRequest.mk "u1" [mkRelation "Alice" "Zed" "knows"])
          demo_files2).2).1 = inr graph'
    ∧ entities graph' = entities demo_graph
    ∧ mkRelation "Alice" "Zed" "knows" ∈ relations graph'
    ∧ ¬ closed graph'.
Proof.
  apply (create_relations_stores_dangling demo_digest demo_dir
           (CreateRelationsRequest.mk "u1" [mkRelation "Alice" "Zed" "knows"])
           demo_files2 demo_graph (mkRelation "Alice" "Zed" "knows")).
  - vm_compute. reflexivity.
  - apply (bool_decide_unpack _). vm_compute. exact I.
  - right. apply (bool_decide_unpack _). vm_compute. exact I.
Defined.

(** ** Deleting twice *)

Lemma filter_filter_same {A : Type} (P : A → Prop) `{!∀ x, Decision (P x)} (l : list A) :
  filter P (filter P l) = filter P l.
Proof.
  apply filter_all, Forall_forall. intros x Hx.
  by apply list_elem_of_filter in Hx as [HP _].
Qed.

Lemma filter_filter_comm {A : Type} (P Q : A → Prop)
    `{!∀ x, Decision (P x)} `{!∀ x, Decision (Q x)} (l : list A) :
  filter P (filter Q l) = filter Q (filter P l).
Proof.
  induction l as [|x l IH]; [done|].
  destruct (decide (P x)) as [HP|HP], (decide (Q x)) as [HQ|HQ];
    repeat first [rewrite filter_cons_True by done | rewrite filter_cons_False by done];
    by rewrite ?IH.
Qed.

Lemma struck_struck (d : DeletionItem.t) (e : Entity) : struck d (struck d e) = struck d e.
Proof. unfold struck. cbn [name entityType observations]. by rewrite filter_filter_same. Qed.

Lemma struck_comm (d1 d2 : DeletionItem.t) (e : Entity) :
  struck d1 (struck d2 e) = struck d2 (struck d1 e).
Proof.
  unfold struck. cbn [name entityType observations]. f_equal. apply filter_filter_comm.
Qed.

Lemma delete_observations_step_Some (d : DeletionItem.t) (graph : KnowledgeGraph)
    (i : nat) (e : Entity) :
  find_entity (DeletionItem.entityName d) (entities graph) = Some (i, e) →
  delete_observations_loop [d] graph
  = mkGraph (<[i := struck d e]> (entities graph)) (relations graph).
Proof. intros Hfind. cbn [delete_observations_loop]. by rewrite Hfind. Qed.

Lemma delete_observations_step_None (d : DeletionItem.t) (graph : KnowledgeGraph) :
  find_entity (DeletionItem.entityName d) (entities graph) = None →
  delete_observations_loop [d] graph = graph.
Proof. intros Hfind. cbn [delete_observations_loop]. by rewrite Hfind. Qed.

Lemma delete_observations_loop_cons (d : DeletionItem.t) (ds : list DeletionItem.t)
    (graph : KnowledgeGraph) :
  delete_observations_loop (d :: ds) graph
  = delete_observations_loop ds (delete_observations_loop [d] graph).
Proof.
  cbn [delete_observations_loop].
  by destruct (find_entity (DeletionItem.entityName d) (entities graph)) as [[i e]|].
Qed.

(** An entity is found after a replacement of an entity by one of the
    same name where it was found before. *)
Lemma find_entity_insert (n : string) (ents : list Entity) (i j : nat) (e x x' : Entity) :
  find_entity n ents = Some (i, e) →
  ents !! j = Some x → name x' = name x →
  find_entity n (<[j := x']> ents)
  = Some (i, if decide (i = j) then x' else e).
Proof.
  intros Hfind Hj Hn.
  destruct (find_entity_same_names n ents (<[j := x']> ents) i e) as (e' & Hfind' & He');
    [by apply (names_insert _ _ x)|done|].
  rewrite Hfind'. do 2 f_equal.
  apply find_entity_Some in Hfind as [Hi _].
  destruct (decide (i = j)) as [->|Hne].
  - rewrite list_lookup_insert_eq in He' by (by eapply lookup_lt_Some). congruence.
  - rewrite list_lookup_insert_ne in He' by done. congruence.
Qed.

Lemma find_entity_insert_None (n : string) (ents : list Entity) (j : nat) (x x' : Entity) :
  find_entity n ents = None →
  ents !! j = Some x → name x' = name x →
  find_entity n (<[j := x']> ents) = None.
Proof.
  rewrite !find_entity_None. intros Hnone Hj Hn.
  by rewrite (names_insert _ _ x).
Qed.

Lemma delete_observations_step_comm (d1 d2 : DeletionItem.t) (graph : KnowledgeGraph) :
  delete_observations_loop [d1] (delete_observations_loop [d2] graph)
  = delete_observations_loop [d2] (delete_observations_loop [d1] graph).
Proof.
  destruct (find_entity (DeletionItem.entityName d1) (entities graph))
    as [[i1 e1]|] eqn:Hfind1;
  destruct (find_entity (DeletionItem.entityName d2) (entities graph))
    as [[i2 e2]|] eqn:Hfind2.
  - pose proof (find_entity_Some _ _ _ _ Hfind1) as [Hi1 _].
    pose proof (find_entity_Some _ _ _ _ Hfind2) as [Hi2 _].
    rewrite (delete_observations_step_Some d2 graph i2 e2 Hfind2).
    rewrite (delete_observations_step_Some d1 graph i1 e1 Hfind1).
    rewrite (delete_observations_step_Some d1 _ i1 (if decide (i1 = i2) then struck d2 e2 else e1))
      by (cbn [entities]; by apply (find_entity_insert _ _ _ _ _ e2)).
    rewrite (delete_observations_step_Some d2 _ i2 (if decide (i2 = i1) then struck d1 e1 else e2))
      by (cbn [entities]; by apply (find_entity_insert _ _ _ _ _ e1)).
    cbn [entities relations]. f_equal.
    destruct (decide (i1 = i2)) as [->|Hne].
    + rewrite decide_True by done. assert (e1 = e2) as -> by congruence.
      rewrite !list_insert_insert_eq. by rewrite struck_comm.
    + rewrite decide_False by done. by apply list_insert_insert_ne.
  - pose proof (find_entity_Some _ _ _ _ Hfind1) as [Hi1 _].
    rewrite (delete_observations_step_None d2 graph Hfind2).
    rewrite (delete_observations_step_Some d1 graph i1 e1 Hfind1).
    rewrite delete_observations_step_None; [done|].
    cbn [entities]. by apply (find_entity_insert_None _ _ _ e1).
  - pose proof (find_entity_Some _ _ _ _ Hfind2) as [Hi2 _].
    rewrite (delete_observations_step_None d1 graph Hfind1).
    rewrite (delete_observations_step_Some d2 graph i2 e2 Hfind2).
    rewrite delete_observations_step_None; [done|].
    cbn [entities]. by apply (find_entity_insert_None _ _ _ e2).
  - by rewrite (delete_observations_step_None d2 graph Hfind2),
         (delete_observations_step_None d1 graph Hfind1),
         (delete_observations_step_None d2 graph Hfind2).
Qed.

Lemma delete_observations_step_twice (d : DeletionItem.t) (graph : KnowledgeGraph) :
  delete_observations_loop [d] (delete_observations_loop [d] graph)
  = delete_observations_loop [d] graph.
Proof.
  destruct (find_entity (DeletionItem.entityName d) (entities graph))
    as [[i e]|] eqn:Hfind.
  - pose proof (find_entity_Some _ _ _ _ Hfind) as [Hi _].
    rewrite (delete_observations_step_Some d graph i e Hfind).
    rewrite (delete_observations_step_Some d _ i (if decide (i = i) then struck d e else e))
      by (cbn [entities]; by apply (find_entity_insert _ _ _ _ _ e)).
    cbn [entities relations]. rewrite decide_True by done.
    by rewrite list_insert_insert_eq, struck_struck.
  - by rewrite !(delete_observations_step_None d graph Hfind).
Qed.

Lemma delete_observations_step_loop (d : DeletionItem.t) (ds : list DeletionItem.t)
    (graph : KnowledgeGraph) :
  delete_observations_loop [d] (delete_observations_loop ds graph)
  = delete_observations_loop ds (delete_observations_loop [d] graph).
Proof.
  revert graph. induction ds as [|d' ds IH]; intros graph; [done|].
  rewrite (delete_observations_loop_cons d' ds graph), IH.
  rewrite delete_observations_step_comm.
  by rewrite <- delete_observations_loop_cons.
Qed.

(** The loop of [delete_observations], run again on its own result,
    changes nothing. *)
Lemma delete_observations_loop_twice (ds : list DeletionItem.t) (graph : KnowledgeGraph) :
  delete_observations_loop ds (delete_observations_loop ds graph)
  = delete_observations_loop ds graph.
Proof.
  revert graph. induction ds as [|d ds IH]; intros graph; [done|].
  rewrite (delete_observations_loop_cons d ds graph).
  rewrite (delete_observations_loop_cons d ds (delete_observations_loop ds _)).
  by rewrite delete_observations_step_loop, delete_observations_step_twice, IH.
Qed.

Section DeleteTwice.

Context (sha256_hexdigest : string → string) (DATA_DIR : string).

Local Abbreviation path_of := (get_memory_file_path sha256_hexdigest DATA_DIR).

(** X18. A delete operation made a second time with the same request
    gives the answer of the first and leaves the files as the first
    left them, whatever the files held and whether the file of the user
    loads or not. *)
Theorem delete_twice_is_delete_once (fs : files) :
  (∀ req, delete_entities sha256_hexdigest DATA_DIR req
            (delete_entities sha256_hexdigest DATA_DIR req fs).2
          = delete_entities sha256_hexdigest DATA_DIR req fs)
  ∧ (∀ req, delete_relations sha256_hexdigest DATA_DIR req
              (delete_relations sha256_hexdigest DATA_DIR req fs).2
            = delete_relations sha256_hexdigest DATA_DIR req fs)
  ∧ (∀ req, delete_observations sha256_hexdigest DATA_DIR req
              (delete_observations sha256_hexdigest DATA_DIR req fs).2
            = delete_observations sha256_hexdigest DATA_DIR req fs).
Proof.
  split; [|split]; intros req.
  - destruct (read_graph_file (path_of (DeleteEntitiesRequest.user_id req)) fs).1
      as [e|graph] eqn:Hload.
    { unfold delete_entities at 2 3. rewrite (run_failed _ _ _ _ Hload). cbn [snd].
      unfold delete_entities. by rewrite (run_failed _ _ _ _ Hload). }
    rewrite (delete_entities_loaded _ _ _ _ _ Hload). cbn [snd].
    erewrite delete_entities_loaded by (by rewrite read_graph_file_saved).
    cbn [entities relations].
    by rewrite !filter_filter_same, insert_insert_eq.
  - destruct (read_graph_file (path_of (DeleteRelationsRequest.user_id req)) fs).1
      as [e|graph] eqn:Hload.
    { unfold delete_relations at 2 3. rewrite (run_failed _ _ _ _ Hload). cbn [snd].
      unfold delete_relations. by rewrite (run_failed _ _ _ _ Hload). }
    rewrite (delete_relations_loaded _ _ _ _ _ Hload). cbn [snd].
    erewrite delete_relations_loaded by (by rewrite read_graph_file_saved).
    cbn [entities relations].
    by rewrite !filter_filter_same, insert_insert_eq.
  - destruct (read_graph_file (path_of (DeleteObservationsRequest.user_id req)) fs).1
      as [e|graph] eqn:Hload.
    { unfold delete_observations at 2 3. rewrite (run_failed _ _ _ _ Hload). cbn [snd].
      unfold delete_observations. by rewrite (run_failed _ _ _ _ Hload). }
    rewrite (delete_observations_loaded _ _ _ _ _ Hload). cbn [snd].
    erewrite delete_observations_loaded by (by rewrite read_graph_file_saved).
    by rewrite delete_observations_loop_twice, insert_insert_eq.
Qed.

End DeleteTwice.

(** ** Files that [save_graph] did not write *)

Lemma load_lines_records (items : list (Entity + Relation)) (lines : list string)
    (ents : list Entity) (rels : list Relation) :
  Forall2 ends (record_line <$> items) lines →
  load_lines lines ents rels
  = inr (mkGraph (ents ++ entities_of items) (rels ++ relations_of items)).
Proof.
  revert lines ents rels. induction items as [|x items IH]; intros lines ents rels HF.
  - apply Forall2_nil_inv_l in HF as ->. cbn. by rewrite !app_nil_r.
  - rewrite fmap_cons in HF.
    apply Forall2_cons_inv_l in HF as (line & lines' & (trail & Hws & ->) & HF & ->).
    cbn [load_lines]. destruct x as [e|r]; cbn [record_line].
    + rewrite loads_entity_line by done.
      change (type_is "entity" (tagged "entity" (Entity_dict e))) with true.
      cbn iota. rewrite Entity_of_fields_dict, (IH _ _ _ HF).
      unfold entities_of, relations_of. cbn [omap list_omap]. by rewrite <- app_assoc.
    + rewrite loads_relation_line by done.
      change (type_is "entity" (tagged "relation" (Relation_dict r))) with false.
      change (type_is "relation" (tagged "relation" (Relation_dict r))) with true.
      cbn iota. rewrite Relation_of_fields_dict, (IH _ _ _ HF).
      unfold entities_of, relations_of. cbn [omap list_omap]. by rewrite <- app_assoc.
Qed.

Lemma printable_record_line (x : Entity + Relation) : printable (record_line x) = true.
Proof. destruct x; [apply printable_entity_line|apply printable_relation_line]. Qed.

Lemma nonblank_lines_records_text (items : list (option (Entity + Relation))) :
  nonblank_lines (records_text items)
  = (λ x, record_line x +:+ String "010" "") <$> omap id items.
Proof.
  unfold nonblank_lines. induction items as [|x items IH]; [reflexivity|].
  cbn [records_text foldr]. fold (records_text items).
  destruct x as [x|]; cbn [from_option omap list_omap id fmap list_fmap].
  - rewrite iter_lines_printable_nl by apply printable_record_line.
    rewrite filter_cons_True.
    + by rewrite IH.
    + destruct x as [e|r]; cbn [record_line].
      * destruct (entity_line_brace e) as [s ->]. rewrite append_cons.
        apply truthy_strip_brace.
      * destruct (relation_line_brace r) as [s ->]. rewrite append_cons.
        apply truthy_strip_brace.
  - change ("" +:+ String "010" (records_text items))
      with (String "010" (records_text items)).
    cbn [PyStr.iter_lines]. change (Ascii.eqb "010" "010") with true. cbn iota.
    rewrite filter_cons_False by done. exact IH.
Qed.

(** X19. A file need not be one that [save_graph] wrote: when every
    line of it is the line of an entity, the line of a relation or an
    empty line, in any order and each with its line ending, the graph
    loaded has the entities of the lines and the relations of the lines,
    each in the order of the file, and the empty lines are passed over. *)
Theorem read_graph_file_records (file_path : string)
    (items : list (option (Entity + Relation))) (fs : files) :
  fs !! file_path = Some (records_text items) →
  read_graph_file file_path fs
  = (inr (mkGraph (entities_of (omap id items)) (relations_of (omap id items))), fs).
Proof.
  intros Hfile. rewrite read_graph_file_lookup, Hfile, nonblank_lines_records_text.
  rewrite (load_lines_records (omap id items)); [done|].
  apply Forall2_fmap, Forall_Forall2_diag, Forall_forall.
  intros x _. by exists (String "010" "").
Qed.

Lemma read_graph_file_records_witness :
  read_graph_file "f"
    {[ "f" := records_text [Some (inr knows); None; Some (inl alice); None;
                            Some (inl bob)] ]}
  = (inr (mkGraph (entities_of (omap id [Some (inr knows); None; Some (inl alice); None;
                                         Some (inl bob)]))
                  (relations_of (omap id [Some (inr knows); None; Some (inl alice); None;
                                          Some (inl bob)]))),
     {[ "f" := records_text [Some (inr knows); None; Some (inl alice); None;
                             Some (inl bob)] ]}).
Proof.
  apply (read_graph_file_records "f"
           [Some (inr knows); None; Some (inl alice); None; Some (inl bob)]).
  apply lookup_singleton_eq.
Defined.

(** ** Searching with the empty query *)

Lemma filter_id_Forall {A : Type} (P : A → Prop) `{!∀ x, Decision (P x)} (l : list A) :
  filter P l = l ↔ Forall P l.
Proof.
  split; [|apply filter_all]. intros Heq. apply Forall_forall. intros x Hx.
  rewrite <- Heq in Hx. by apply list_elem_of_filter in Hx as [HP _].
Qed.

Section SearchEmpty.

Context (sha256_hexdigest : string → string) (DATA_DIR : string).

Local Abbreviation path_of := (get_memory_file_path sha256_hexdigest DATA_DIR).

(** X20. Once the graph is loaded, [search_nodes] with the empty query
    returns every entity, and the relations of which both ends are
    names of entities: its answer is the answer of [read_graph] exactly
    when every relation of the graph starts and ends at an entity. *)
Theorem search_nodes_empty_query (user_id : string) (fs : files)
    (graph : KnowledgeGraph) :
  (read_graph_file (path_of user_id) fs).1 = inr graph →
  search_nodes sha256_hexdigest DATA_DIR (SearchNodesRequest.mk user_id "") fs
  = (inr (mkGraph (entities graph)
            (filter (λ r, from_ r ∈ (name <$> entities graph)
                          ∧ to r ∈ (name <$> entities graph)) (relations graph))), fs)
  ∧ (search_nodes sha256_hexdigest DATA_DIR (SearchNodesRequest.mk user_id "") fs
     = read_graph sha256_hexdigest DATA_DIR user_id fs
     ↔ closed graph).
Proof.
  intros Hload.
  assert (Hsearch :
    search_nodes sha256_hexdigest DATA_DIR (SearchNodesRequest.mk user_id "") fs
    = (inr (mkGraph (entities graph)
              (filter (λ r, from_ r ∈ (name <$> entities graph)
                            ∧ to r ∈ (name <$> entities graph)) (relations graph))), fs)).
  { unfold search_nodes. cbn [SearchNodesRequest.user_id SearchNodesRequest.query].
    rewrite (run_loaded _ _ _ _ Hload).
    assert (Hall : filter (λ e, matches "" e = true) (entities graph) = entities graph).
    { apply filter_all, Forall_forall. intros e _. apply matches_empty. }
    rewrite Hall.
    assert (Hrels :
      filter (λ r, from_ r ∈ (list_to_set (name <$> entities graph) : gset string)
                   ∧ to r ∈ (list_to_set (name <$> entities graph) : gset string))
             (relations graph)
      = filter (λ r, from_ r ∈ (name <$> entities graph)
                     ∧ to r ∈ (name <$> entities graph)) (relations graph)).
    { apply list_filter_iff. intros r. by rewrite !elem_of_list_to_set. }
    rewrite Hrels. reflexivity. }
  split; [exact Hsearch|]. rewrite Hsearch. unfold read_graph.
  rewrite read_graph_file_pair, Hload. unfold closed.
  destruct graph as [ents rels]. cbn [entities relations]. split.
  - intros Heq. injection Heq as Heq. by apply filter_id_Forall in Heq.
  - intros Hall. by rewrite (filter_all _ _ Hall).
Qed.

End SearchEmpty.

Lemma search_nodes_empty_query_witness :
  search_nodes demo_digest demo_dir (SearchNodesRequest.mk "u1" "") demo_files2
  = (inr (mkGraph (entities demo_graph)
            (filter (λ r, from_ r ∈ (name <$> entities demo_graph)
                          ∧ to r ∈ (name <$> entities demo_graph))
                    (relations demo_graph))), demo_files2)
  ∧ (search_nodes demo_digest demo_dir (SearchNodesRequest.mk "u1" "") demo_files2
     = read_graph demo_digest demo_dir "u1" demo_files2
     ↔ closed demo_graph).
Proof.
  apply (search_nodes_empty_query demo_digest demo_dir "u1" demo_files2 demo_graph).
  vm_compute. reflexivity.
Defined.

(** ** The invariant and the second call, on the sample data *)

Lemma create_entities_twice_witness :
  (create_entities demo_digest demo_dir
     (CreateEntitiesRequest.mk "u1" [bob; carol]) demo_files2).1 = inr [carol]
  ∧ (read_graph_file (get_memory_file_path demo_digest demo_dir "u1")
       (create_entities demo_digest demo_dir
          (CreateEntitiesRequest.mk "u1" [bob; carol]) demo_files2).2).1
    = inr (mkGraph [alice; bob; carol] [knows])
  ∧ (create_entities demo_digest demo_dir (CreateEntitiesRequest.mk "u1" [bob; carol])
       (create_entities demo_digest demo_dir
          (CreateEntitiesRequest.mk "u1" [bob; carol]) demo_files2).2).1 = inr []
  ∧ (read_graph_file (get_memory_file_path demo_digest demo_dir "u1")
       (create_entities demo_digest demo_dir (CreateEntitiesRequest.mk "u1" [bob; carol])
          (create_entities demo_digest demo_dir
             (CreateEntitiesRequest.mk "u1" [bob; carol]) demo_files2).2).2).1
    = inr (mkGraph [alice; bob; carol] [knows]).
Proof.
  apply (create_entities_twice demo_digest demo_dir
           (CreateEntitiesRequest.mk "u1" [bob; carol]) demo_files2 demo_graph).
  vm_compute. reflexivity.
Defined.

Lemma well_formed_create_entities_witness :
  ∃ graph',
    (read_graph_file (get_memory_file_path demo_digest demo_dir "u1")
       (create_entities demo_digest demo_dir
          (CreateEntitiesRequest.mk "u1" [bob; carol]) demo_files2).2).1 = inr graph'
    ∧ well_formed graph'.
Proof.
  apply (well_formed_create_entities demo_digest demo_dir
           (CreateEntitiesRequest.mk "u1" [bob; carol]) demo_files2 demo_graph).
  - split; apply (bool_decide_unpack _); vm_compute; exact I.
  - vm_compute. reflexivity.
  - apply (bool_decide_unpack _). vm_compute. exact I.
Defined.

Lemma well_formed_create_relations_witness :
  ∃ graph',
    (read_graph_file (get_memory_file_path demo_digest demo_dir "u1")
       (create_relations demo_digest demo_dir
          (CreateRelationsRequest.mk "u1" [knows; mkRelation "Bob" "Alice" "knows"])
          demo_files2).2).1 = inr graph'
    ∧ well_formed graph'.
Proof.
  apply (well_formed_create_relations demo_digest demo_dir
           (CreateRelationsRequest.mk "u1" [knows; mkRelation "Bob" "Alice" "knows"])
           demo_files2 demo_graph).
  - split; apply (bool_decide_unpack _); vm_compute; exact I.
  - vm_compute. reflexivity.
  - apply (bool_decide_unpack _). vm_compute. exact I.
Defined.

Lemma well_formed_add_observations_witness :
  well_formed (mkGraph [mkEntity "Alice" "person" ["likes tea"; "reads"]; bob] [knows]).
Proof.
  apply (well_formed_add_observations demo_digest demo_dir
           (AddObservationsRequest.mk "u1" [ObservationItem.mk "Alice" ["reads"; "likes tea"]])
           demo_files2 demo_graph).
  - split; apply (bool_decide_unpack _); vm_compute; exact I.
  - vm_compute. reflexivity.
  - vm_compute. reflexivity.
Defined.

Lemma well_formed_delete_entities_witness :
  ∃ graph',
    (read_graph_file (get_memory_file_path demo_digest demo_dir "u1")
       (delete_entities demo_digest demo_dir
          (DeleteEntitiesRequest.mk "u1" ["Bob"]) demo_files2).2).1 = inr graph'
    ∧ well_formed graph'.
Proof.
  apply (well_formed_delete_entities demo_digest demo_dir
           (DeleteEntitiesRequest.mk "u1" ["Bob"]) demo_files2 demo_graph).
  - split; apply (bool_decide_unpack _); vm_compute; exact I.
  - vm_compute. reflexivity.
Defined.

Lemma well_formed_delete_observations_witness :
  ∃ graph',
    (read_graph_file (get_memory_file_path demo_digest demo_dir "u1")
       (delete_observations demo_digest demo_dir
          (DeleteObservationsRequest.mk "u1" [DeletionItem.mk "Alice" ["likes tea"]])
          demo_files2).2).1 = inr graph'
    ∧ well_formed graph'.
Proof.
  apply (well_formed_delete_observations demo_digest demo_dir
           (DeleteObservationsRequest.mk "u1" [DeletionItem.mk "Alice" ["likes tea"]])
           demo_files2 demo_graph).
  - split; apply (bool_decide_unpack _); vm_compute; exact I.
  - vm_compute. reflexivity.
Defined.

Lemma well_formed_delete_relations_witness :
  ∃ graph',
    (read_graph_file (get_memory_file_path demo_digest demo_dir "u1")
       (delete_relations demo_digest demo_dir
          (DeleteRelationsRequest.mk "u1" [knows]) demo_files2).2).1 = inr graph'
    ∧ well_formed graph'.
Proof.
  apply (well_formed_delete_relations demo_digest demo_dir
           (DeleteRelationsRequest.mk "u1" [knows]) demo_files2 demo_graph).
  - split; apply (bool_decide_unpack _); vm_compute; exact I.
  - vm_compute. reflexivity.
Defined.

(** ** Lines that are not records *)

Lemma dict_get_without_type (k : string) (item : list (string * Json.value)) :
  k ≠ "type" → Json.dict_get k (without_type item) = Json.dict_get k item.
Proof.
  intros Hk. unfold without_type. induction item as [|[k' v] item IH]; [done|].
  destruct (decide (k' = "type")) as [->|Hk'].
  - rewrite filter_cons_False by (cbn; intros Hne; by apply Hne).
    cbn [Json.dict_get]. by rewrite (proj2 (String.eqb_neq _ _) Hk).
  - rewrite filter_cons_True by done. cbn [Json.dict_get]. by rewrite IH.
Qed.

Lemma type_is_relation_not_entity (item : list (string * Json.value)) :
  type_is "relation" item = true → type_is "entity" item = false.
Proof.
  unfold type_is. destruct (Json.dict_get "type" item) as [[| | |s| |]|]; try done.
  intros Hs. apply String.eqb_eq in Hs as ->. reflexivity.
Qed.

(** X21. A non-blank line that holds a JSON value which is not an
    object (a number, a string, an array, [null], ...) stops the load:
    when the lines before it load, [read_graph_file] raises
    [AttributeError], whatever follows, and changes no file. *)
Theorem read_graph_file_not_an_object (file_path : string) (fs : files)
    (content line : string) (before after : list string) (graph : KnowledgeGraph)
    (v : Json.value) :
  fs !! file_path = Some content →
  nonblank_lines content = before ++ line :: after →
  load_lines before [] [] = inr graph →
  Json.loads line = Some v →
  (∀ item, v ≠ Json.JObj item) →
  read_graph_file file_path fs = (inl AttributeError, fs).
Proof.
  intros Hfile Hsplit Hbefore Hline Hother.
  rewrite read_graph_file_lookup, Hfile, Hsplit, load_lines_app, Hbefore.
  cbn [load_lines]. rewrite Hline.
  destruct v as [| | | | |item]; try done. by destruct (Hother item).
Qed.

(** X22. A non-blank line that holds an object of type [entity] without
    one of the keys [name], [entityType] and [observations], or an
    object of type [relation] without one of the keys [from], [to] and
    [relationType], stops the load: when the lines before it load,
    [read_graph_file] raises [ValidationError], whatever follows, and
    changes no file. *)
Theorem read_graph_file_missing_field (file_path : string) (fs : files)
    (content line : string) (before after : list string) (graph : KnowledgeGraph)
    (item : list (string * Json.value)) :
  fs !! file_path = Some content →
  nonblank_lines content = before ++ line :: after →
  load_lines before [] [] = inr graph →
  Json.loads line = Some (Json.JObj item) →
  (type_is "entity" item = true
   ∧ (Json.dict_get "name" item = None ∨ Json.dict_get "entityType" item = None
      ∨ Json.dict_get "observations" item = None))
  ∨ (type_is "relation" item = true
     ∧ (Json.dict_get "from" item = None ∨ Json.dict_get "to" item = None
        ∨ Json.dict_get "relationType" item = None)) →
  read_graph_file file_path fs = (inl ValidationError, fs).
Proof.
  intros Hfile Hsplit Hbefore Hline Hmissing.
  rewrite read_graph_file_lookup, Hfile, Hsplit, load_lines_app, Hbefore.
  cbn [load_lines]. rewrite Hline.
  destruct Hmissing as [[Htype Hkey]|[Htype Hkey]].
  - rewrite Htype.
    assert (Hnone : Entity_of_fields (without_type item) = None).
    { unfold Entity_of_fields. rewrite !dict_get_without_type by done.
      destruct Hkey as [-> | [-> | ->] ]; [done| |].
      - by destruct (Json.dict_get "name" item ≫= as_str).
      - destruct (Json.dict_get "name" item ≫= as_str); [|done].
        by destruct (Json.dict_get "entityType" item ≫= as_str). }
    by rewrite Hnone.
  - rewrite (type_is_relation_not_entity _ Htype), Htype.
    assert (Hnone : Relation_of_fields (without_type item) = None).
    { unfold Relation_of_fields. rewrite !dict_get_without_type by done.
      destruct Hkey as [-> | [-> | ->] ]; [done| |].
      - by destruct (Json.dict_get "from" item ≫= as_str).
      - destruct (Json.dict_get "from" item ≫= as_str); [|done].
        by destruct (Json.dict_get "to" item ≫= as_str). }
    by rewrite Hnone.
Qed.

Lemma read_graph_file_not_an_object_witness :
  read_graph_file "f" {[ "f" := entity_line alice +:+ String "010" "[1]" ]}
  = (inl AttributeError, {[ "f" := entity_line alice +:+ String "010" "[1]" ]}).
Proof.
  apply (read_graph_file_not_an_object "f"
           {[ "f" := entity_line alice +:+ String "010" "[1]" ]}
           (entity_line alice +:+ String "010" "[1]") "[1]"
           [entity_line alice +:+ String "010" ""] [] (mkGraph [alice] [])
           (Json.JArr [Json.JNum "1"])).
  - apply lookup_singleton_eq.
  - vm_compute. reflexivity.
  - vm_compute. reflexivity.
  - vm_compute. reflexivity.
  - intros item. discriminate.
Defined.

Lemma read_graph_file_missing_field_witness :
  read_graph_file "f"
    {[ "f" := entity_line alice +:+ String "010"
                (Json.dumps (Json.JObj [("type", Json.JStr "entity");
                                        ("name", Json.JStr "Zed")])) ]}
  = (inl ValidationError,
     {[ "f" := entity_line alice +:+ String "010"
                 (Json.dumps (Json.JObj [("type", Json.JStr "entity");
                                         ("name", Json.JStr "Zed")])) ]}).
Proof.
  apply (read_graph_file_missing_field "f"
           {[ "f" := entity_line alice +:+ String "010"
                       (Json.dumps (Json.JObj [("type", Json.JStr "entity");
                                               ("name", Json.JStr "Zed")])) ]}
           (entity_line alice +:+ String "010"
              (Json.dumps (Json.JObj [("type", Json.JStr "entity");
                                      ("name", Json.JStr "Zed")])))
           (Json.dumps (Json.JObj [("type", Json.JStr "entity"); ("name", Json.JStr "Zed")]))
           [entity_line alice +:+ String "010" ""] [] (mkGraph [alice] [])
           [("type", Json.JStr "entity"); ("name", Json.JStr "Zed")]).
  - apply lookup_singleton_eq.
  - vm_compute. reflexivity.
  - vm_compute. reflexivity.
  - vm_compute. reflexivity.
  - left. split; [reflexivity|]. right. left. reflexivity.
Defined.

(** ** Creating entities and deleting them *)

Section CreateDelete.

Context (sha256_hexdigest : string → string) (DATA_DIR : string).

Local Abbreviation path_of := (get_memory_file_path sha256_hexdigest DATA_DIR).

(** X23. Deleting the names of a list of entities right after creating
    the list gives the answer, and leaves the files, of the deletion
    alone: the entities created are gone again, and so are the entities
    that had these names before and the relations at them; when the
    file does not load, both calls raise and nothing is written. *)
Theorem create_then_delete_entities (user_id : string) (ents : list Entity) (fs : files) :
  delete_entities sha256_hexdigest DATA_DIR
    (DeleteEntitiesRequest.mk user_id (name <$> ents))
    (create_entities sha256_hexdigest DATA_DIR
       (CreateEntitiesRequest.mk user_id ents) fs).2
  = delete_entities sha256_hexdigest DATA_DIR
      (DeleteEntitiesRequest.mk user_id (name <$> ents)) fs.
Proof.
  destruct (read_graph_file (path_of user_id) fs).1 as [e|graph] eqn:Hload.
  { unfold create_entities. cbn [CreateEntitiesRequest.user_id].
    by rewrite (run_failed _ _ _ _ Hload). }
  rewrite (create_entities_loaded _ _ (CreateEntitiesRequest.mk user_id ents) _ _ Hload).
  cbn [snd CreateEntitiesRequest.user_id CreateEntitiesRequest.entities].
  rewrite (delete_entities_loaded _ _ (DeleteEntitiesRequest.mk user_id (name <$> ents))
             fs graph Hload).
  erewrite delete_entities_loaded
    by (cbn [DeleteEntitiesRequest.user_id]; by rewrite read_graph_file_saved).
  cbn [DeleteEntitiesRequest.user_id DeleteEntitiesRequest.entityNames entities relations].
  rewrite insert_insert_eq, filter_app.
  rewrite (filter_none (λ e, name e ∉ name <$> ents)
             (filter (λ e, name e ∉ name <$> entities graph) ents)).
  - by rewrite app_nil_r.
  - apply Forall_forall. intros e He Hnot. apply list_elem_of_filter in He as [_ He].
    apply Hnot, list_elem_of_fmap. by exists e.
Qed.

End CreateDelete.

(** * Strings of all code points: persistence *)

(** ** Hexadecimal digits *)




(** ** String literals: escaping and scanning *)







(** ** Values: what [scan_once] reads back from [dumps] *)




Lemma u_array_items_eq (fuel : nat) (s : string) :
  Unicode.array_items (S fuel) s
  = Json.bind (Unicode.scan_once fuel s) (fun '(v, r1) =>
      match Json.skip_ws r1 with
      | EmptyString => Json.Invalid
      | String c r2 =>
          if Ascii.eqb c "]" then Json.Ok ([v], r2)
          else if Ascii.eqb c "," then
            Json.bind (Unicode.array_items fuel (Json.skip_ws r2))
                 (fun '(items, r3) => Json.Ok (v :: items, r3))
          else Json.Invalid
      end).
Proof. reflexivity. Qed.



Lemma u_scan_once_eq (fuel : nat) (c : ascii) (rest : string) :
  Unicode.scan_once (S fuel) (String c rest)
  = if Ascii.eqb c Json.dquote then
      Json.bind (Json.of_option (Unicode.scanstring rest))
                (fun '(str, r) => Json.Ok (Unicode.JStr str, r))
    else if Ascii.eqb c "{" then
      match Json.skip_ws rest with
      | EmptyString => Json.Invalid
      | String c1 rest1 =>
          if Ascii.eqb c1 "}" then Json.Ok (Unicode.JObj [], rest1)
          else if Ascii.eqb c1 Json.dquote then
            Json.bind (Unicode.object_members fuel rest1)
                 (fun '(pairs, r) =>
                    Json.Ok (Unicode.JObj (Unicode.dict_of_pairs pairs), r))
          else Json.Invalid
      end
    else if Ascii.eqb c "[" then
      match Json.skip_ws rest with
      | EmptyString => Json.Invalid
      | String c1 rest1 =>
          if Ascii.eqb c1 "]" then Json.Ok (Unicode.JArr [], rest1)
          else Json.bind (Unicode.array_items fuel (String c1 rest1))
                    (fun '(items, r) => Json.Ok (Unicode.JArr items, r))
      end
    else Json.of_option (Unicode.scan_scalar (String c rest)).
Proof. reflexivity. Qed.


Lemma u_object_members_eq (fuel : nat) (s : string) :
  Unicode.object_members (S fuel) s
  = Json.bind (Json.of_option (Unicode.scanstring s)) (fun '(key, r1) =>
      match Json.skip_ws r1 with
      | EmptyString => Json.Invalid
      | String c r2 =>
          if Ascii.eqb c ":" then
            Json.bind (Unicode.scan_once fuel (Json.skip_ws r2)) (fun '(v, r3) =>
            match Json.skip_ws r3 with
            | EmptyString => Json.Invalid
            | String c' r4 =>
                if Ascii.eqb c' "}" then Json.Ok ([(key, v)], r4)
                else if Ascii.eqb c' "," then
                  match Json.skip_ws r4 with
                  | EmptyString => Json.Invalid
                  | String q r5 =>
                      if Ascii.eqb q Json.dquote then
                        Json.bind (Unicode.object_members fuel r5)
                             (fun '(pairs, r6) => Json.Ok ((key, v) :: pairs, r6))
                      else Json.Invalid
                  end
                else Json.Invalid
            end)
          else Json.Invalid
      end).
Proof. reflexivity. Qed.
















(** ** Lines: what a reader gets back from the text of a graph *)


















(** ** Persistence *)




(** * Strings of all code points: search *)

(** ** [str.lower] on ASCII *)




(** ** Substrings *)



(** ** The same letter *)






Section UnicodeSearchNodes.

Context (sha256_hexdigest : Unicode.str → string) (DATA_DIR : string).

Local Abbreviation path_of := (Unicode.get_memory_file_path sha256_hexdigest DATA_DIR).


End UnicodeSearchNodes.



(** * Strings of all code points: the decoder never runs out of fuel *)

Lemma u_scanstring_length_bounded (n : nat) (s : string) (str : Unicode.str)
    (rest : string) :
  String.length s ≤ n →
  Unicode.scanstring s = Some (str, rest) → String.length rest < String.length s.
Proof.
  revert s str rest. induction n as [|n IH]; intros s str rest Hn.
  { destruct s; [done|cbn in Hn; lia]. }
  destruct s as [|c s]; [done|]. cbn [Unicode.scanstring]. cbn in Hn.
  assert (Hcons : ∀ ch t, String.length t ≤ String.length s →
            Unicode.cons_code ch (Unicode.scanstring t) = Some (str, rest) →
            String.length rest < String.length (String c s)).
  { intros ch t Ht Hc.
    destruct (Unicode.scanstring t) as [[str' rest']|] eqn:Hscan; [|done].
    cbn in Hc. injection Hc as _ <-. apply IH in Hscan; [cbn; lia|lia]. }
  destruct (Ascii.eqb c Json.dquote).
  { intros [= _ <-]. cbn. lia. }
  destruct (Ascii.eqb c "\").
  - destruct s as [|e s1]; [done|]. destruct (Ascii.eqb e "u").
    + destruct s1 as [|h1 [|h2 [|h3 [|h4 s2]]]]; try done.
      destruct (Unicode.hex4_value h1 h2 h3 h4) as [high|]; [|done].
      destruct (Unicode.is_high_surrogate high); [|apply Hcons; cbn; lia].
      destruct s2 as [|b [|u [|l1 [|l2 [|l3 [|l4 s3]]]]]];
        try (apply Hcons; cbn; lia).
      destruct (Ascii.eqb b "\" && Ascii.eqb u "u" && PyStr.truthy s3);
        [|apply Hcons; cbn; lia].
      destruct (Unicode.hex4_value l1 l2 l3 l4) as [low|]; [|done].
      destruct (Unicode.is_low_surrogate low); apply Hcons; cbn; lia.
    + destruct (Json.unescape e); [|done]. apply Hcons. cbn. lia.
  - destruct (PyStr.ord c <? 32)%N; [done|]. by apply Hcons.
Qed.

Lemma u_scanstring_length (s : string) (str : Unicode.str) (rest : string) :
  Unicode.scanstring s = Some (str, rest) → String.length rest < String.length s.
Proof. by apply (u_scanstring_length_bounded (String.length s)). Qed.

Lemma u_scan_scalar_length (s : string) (v : Unicode.value) (rest : string) :
  Unicode.scan_scalar s = Some (v, rest) → String.length rest < String.length s.
Proof.
  unfold Unicode.scan_scalar.
  repeat match goal with
  | |- context [Json.after_prefix ?p s] =>
      let H := fresh "H" in
      destruct (Json.after_prefix p s) eqn:H;
      [apply after_prefix_length in H; cbn in H; intros [= _ <-]; lia|clear H]
  | |- context [Json.match_number s] =>
      let H := fresh "H" in
      destruct (Json.match_number s) as [[lexeme r]|] eqn:H;
      [apply match_number_length in H; intros [= _ <-]; lia|clear H]
  end.
  done.
Qed.

Lemma u_scan_fuel (fuel : nat) :
  (∀ s, 2 * String.length s + 1 ≤ fuel → consumes s (Unicode.scan_once fuel s))
  ∧ (∀ s, 2 * String.length s + 2 ≤ fuel → consumes s (Unicode.object_members fuel s))
  ∧ (∀ s, 2 * String.length s + 2 ≤ fuel → consumes s (Unicode.array_items fuel s)).
Proof.
  induction fuel as [|fuel (IHscan & IHobj & IHarr)].
  { repeat split; intros s Hs; lia. }
  split; [|split]; intros s Hs.
  - destruct s as [|c rest]; [done|]. rewrite u_scan_once_eq.
    cbn [String.length] in Hs.
    destruct (Ascii.eqb c Json.dquote).
    { eapply (consumes_bind _ rest).
      - apply consumes_of_option. intros a r. apply u_scanstring_length.
      - intros str r Hr. cbn. lia. }
    destruct (Ascii.eqb c "{").
    { destruct (Json.skip_ws rest) as [|c1 rest1] eqn:Hws; [done|].
      apply skip_ws_cons in Hws.
      destruct (Ascii.eqb c1 "}"); [cbn; lia|].
      destruct (Ascii.eqb c1 Json.dquote); [|done].
      eapply (consumes_bind _ rest1); [apply IHobj; lia|].
      intros pairs r Hr. cbn. lia. }
    destruct (Ascii.eqb c "[").
    { destruct (Json.skip_ws rest) as [|c1 rest1] eqn:Hws; [done|].
      pose proof (skip_ws_length rest) as Hlen. rewrite Hws in Hlen.
      cbn [String.length] in Hlen.
      destruct (Ascii.eqb c1 "]"); [cbn; lia|].
      eapply (consumes_bind _ (String c1 rest1)); [apply IHarr; cbn; lia|].
      intros items r Hr. cbn in *. lia. }
    apply consumes_of_option. intros v r. apply u_scan_scalar_length.
  - rewrite u_object_members_eq.
    eapply (consumes_bind _ s).
    { apply consumes_of_option. intros a r. apply u_scanstring_length. }
    intros key r1 Hr1.
    destruct (Json.skip_ws r1) as [|c r2] eqn:Hws1; [done|].
    apply skip_ws_cons in Hws1.
    destruct (Ascii.eqb c ":"); [|done].
    pose proof (skip_ws_length r2) as Hlen2.
    eapply (consumes_bind _ (Json.skip_ws r2)); [apply IHscan; lia|].
    intros v r3 Hr3.
    destruct (Json.skip_ws r3) as [|c' r4] eqn:Hws3; [done|].
    apply skip_ws_cons in Hws3.
    destruct (Ascii.eqb c' "}"); [cbn; lia|].
    destruct (Ascii.eqb c' ","); [|done].
    destruct (Json.skip_ws r4) as [|q r5] eqn:Hws4; [done|].
    apply skip_ws_cons in Hws4.
    destruct (Ascii.eqb q Json.dquote); [|done].
    eapply (consumes_bind _ r5); [apply IHobj; lia|].
    intros pairs r6 Hr6. cbn. lia.
  - rewrite u_array_items_eq.
    eapply (consumes_bind _ s); [apply IHscan; lia|].
    intros v r1 Hr1.
    destruct (Json.skip_ws r1) as [|c r2] eqn:Hws1; [done|].
    apply skip_ws_cons in Hws1.
    destruct (Ascii.eqb c "]"); [cbn; lia|].
    destruct (Ascii.eqb c ","); [|done].
    pose proof (skip_ws_length r2) as Hlen2.
    eapply (consumes_bind _ (Json.skip_ws r2)); [apply IHarr; lia|].
    intros items r3 Hr3. cbn. lia.
Qed.

(** [json.loads] is total in this model too: [None] is a text that is
    not valid JSON. *)
Lemma u_decode_never_out_of_fuel (s : string) : Unicode.decode s ≠ Json.OutOfFuel.
Proof.
  unfold Unicode.decode, Json.decode_fuel.
  pose proof (skip_ws_length s) as Hlen.
  destruct (u_scan_fuel (2 * String.length s + 1)) as (Hscan & _ & _).
  specialize (Hscan (Json.skip_ws s)).
  destruct (Unicode.scan_once _ _) as [[v rest]| |].
  - cbn [Json.bind]. by destruct (Json.skip_ws rest).
  - done.
  - exfalso. apply Hscan. lia.
Qed.
